(** * Admin panel and shop demo (app.js): a shallow embedding

    The repository holds three browser programs that share one file name:
    an admin panel with role gating (first document of app.js), an earlier
    admin panel in which only administrators can log in (second document),
    and a shop with a cart and a simulated payment (third document).

    Conventions of the embedding.
    - A JavaScript string is a [string]; every [ascii] stands for one
      UTF-16 code unit below 256.
    - A JavaScript number that the programs compute with is an exact
      rational ([Q]) or, once it is known to be integral, an integer ([Z]);
      NaN is written [None] where a built-in can produce it.  Binary64
      rounding and the infinities are outside the model.
    - The DOM is not modelled: what a handler reads from a form is an
      argument, what it writes to the page is part of its result.
    - [localStorage] and [sessionStorage] are finite maps from strings to
      strings. *)

From Stdlib Require Import ZArith QArith Qround String Ascii List Bool Lia.
From stdpp Require Import base option list strings pretty gmap.

Import ListNotations.
Local Open Scope string_scope.
Local Open Scope Z_scope.
Set Warnings "-register-all".


(** ** JavaScript built-ins used by the programs *)

Module Js.

(** [Math.round]: the nearest integer, ties towards plus infinity. *)
Definition Math_round (x : Q) : Z := Qfloor (x + (1 # 2))%Q.

(** [Math.max] on integral arguments. *)
Definition Math_max (a b : Z) : Z := Z.max a b.

(** [x || d] for a number [x]: zero is falsy. *)
Definition num_or (x d : Q) : Q := if Qeq_bool x 0 then d else x.

(** [n || d] for the result of [parseInt]: NaN and zero are falsy. *)
Definition int_or (n : option Z) (d : Z) : Z :=
  match n with
  | None => d
  | Some k => if k =? 0 then d else k
  end.

(** The one-character string with the given code unit (for the accented
    letters of the messages). *)
Definition ch (n : nat) : string := String (ascii_of_nat n) "".

Definition code (a : ascii) : Z := Z.of_N (N_of_ascii a).

(** The class [\s], restricted to code units below 256: tab, line feed,
    vertical tab, form feed, carriage return, space, no-break space. *)
Definition is_space (a : ascii) : bool :=
  let c := code a in
  ((9 <=? c) && (c <=? 13)) || (c =? 32) || (c =? 160).

(** The class [\d]. *)
Definition is_digit (a : ascii) : bool :=
  let c := code a in (48 <=? c) && (c <=? 57).

Fixpoint filter_chars (keep : ascii -> bool) (s : string) : string :=
  match s with
  | EmptyString => EmptyString
  | String a r => if keep a then String a (filter_chars keep r) else filter_chars keep r
  end.

Fixpoint all_chars (p : ascii -> bool) (s : string) : bool :=
  match s with
  | EmptyString => true
  | String a r => p a && all_chars p r
  end.

(** [s.replace(/\s/g, '')] and [s.replace(/\D/g, '')]. *)
Definition strip_spaces (s : string) : string := filter_chars (fun a => negb (is_space a)) s.
Definition strip_non_digits (s : string) : string := filter_chars is_digit s.

Fixpoint trim_start (s : string) : string :=
  match s with
  | EmptyString => EmptyString
  | String a r => if is_space a then trim_start r else s
  end.

(** [trim_end]: a character is dropped when it is a space and everything
    after it has been dropped. *)
Fixpoint trim_end (s : string) : string :=
  match s with
  | EmptyString => EmptyString
  | String a r =>
      match trim_end r with
      | EmptyString => if is_space a then EmptyString else String a EmptyString
      | r' => String a r'
      end
  end.

(** [String.prototype.trim]. *)
Definition trim (s : string) : string := trim_end (trim_start s).

(** [s.length] as a JavaScript number. *)
Definition length (s : string) : Z := Z.of_nat (String.length s).

(** Anchored regular expressions of the shape used by the shop: a sequence
    of pieces, each a character class taken once or one-or-more times
    ([+]); [c{n}] is [n] copies of [One c].  [test] is
    [/^pieces$/.test(s)]. *)
Inductive piece := One (cls : ascii -> bool) | Plus (cls : ascii -> bool).

Fixpoint test (re : list piece) (s : string) : bool :=
  match re, s with
  | [], EmptyString => true
  | [], String _ _ => false
  | _ :: _, EmptyString => false
  | One c :: re', String a r => c a && test re' r
  | Plus c :: re', String a r => c a && (test re' r || test re r)
  end.

Definition times (n : nat) (c : ascii -> bool) : list piece := repeat (One c) n.
Definition is_char (x : ascii) (a : ascii) : bool := Ascii.eqb a x.

(** What the DOM returns as [innerHTML] of an element whose [textContent]
    was set to [str]: the text with ampersand, no-break space, less-than
    and greater-than replaced by their entities. *)
Fixpoint escapeHTML (s : string) : string :=
  match s with
  | EmptyString => EmptyString
  | String a r =>
      let c := code a in
      (if c =? 38 then "&amp;"
       else if c =? 160 then "&nbsp;"
       else if c =? 60 then "&lt;"
       else if c =? 62 then "&gt;"
       else String a EmptyString) ++ escapeHTML r
  end.

(** [ToInt32]: wrap an integer into the signed 32-bit range. *)
Definition toInt32 (x : Z) : Z := (x + 2 ^ 31) mod 2 ^ 32 - 2 ^ 31.

(** [x << k] and [x & y] on numbers holding integers. *)
Definition shl (x k : Z) : Z := toInt32 (Z.shiftl (toInt32 x) k).
Definition band (x y : Z) : Z := toInt32 (Z.land (toInt32 x) (toInt32 y)).

Definition digit36 (d : Z) : ascii :=
  ascii_of_N (Z.to_N (if d <? 10 then 48 + d else 87 + d)).

Fixpoint toString36_go (fuel : nat) (n : Z) (acc : string) : string :=
  match fuel with
  | O => acc
  | S f =>
      let acc' := String (digit36 (n mod 36)) acc in
      if n / 36 =? 0 then acc' else toString36_go f (n / 36) acc'
  end.

(** [n.toString(36)] for a non-negative integer. *)
Definition toString36 (n : Z) : string :=
  toString36_go (S (Z.to_nat (Z.log2 n))) n "".

End Js.

(** ** Handlers as computations

    A handler runs on the program's state, may write to the page or to a
    store (recorded in a log, in order), and may end in an uncaught
    exception; the state it had changed by then stays changed. *)

Module Run.

Inductive Erro := SyntaxError | TypeError.

Inductive Res (S E A : Type) : Type :=
| Fim (a : A) (s : S) (log : list E)
| Lancou (e : Erro) (s : S) (log : list E).
Arguments Fim {S E A} a s log.
Arguments Lancou {S E A} e s log.

Definition M (S E A : Type) : Type := S -> Res S E A.

Definition ret {S E A} (a : A) : M S E A := fun s => Fim a s [].

Definition bind {S E A B} (m : M S E A) (k : A -> M S E B) : M S E B :=
  fun s =>
    match m s with
    | Fim a s1 l1 =>
        match k a s1 with
        | Fim b s2 l2 => Fim b s2 (l1 ++ l2)
        | Lancou e s2 l2 => Lancou e s2 (l1 ++ l2)
        end
    | Lancou e s1 l1 => Lancou e s1 l1
    end.

#[export] Instance M_ret {S E} : MRet (M S E) := fun A a => ret a.
#[export] Instance M_bind {S E} : MBind (M S E) := fun A B k m => bind m k.

Definition get {S E} : M S E S := fun s => Fim s s [].
Definition put {S E} (s' : S) : M S E unit := fun _ => Fim tt s' [].
Definition modify {S E} (f : S -> S) : M S E unit := fun s => Fim tt (f s) [].
Definition emit {S E} (e : E) : M S E unit := fun s => Fim tt s [e].
Definition throw {S E A} (e : Erro) : M S E A := fun s => Lancou e s [].

(** [try { m } catch (e) { h }]. *)
Definition try_catch {S E A} (m : M S E A) (h : Erro -> M S E A) : M S E A :=
  fun s =>
    match m s with
    | Fim a s1 l1 => Fim a s1 l1
    | Lancou e s1 l1 =>
        match h e s1 with
        | Fim b s2 l2 => Fim b s2 (l1 ++ l2)
        | Lancou e' s2 l2 => Lancou e' s2 (l1 ++ l2)
        end
    end.

(** The state a run ends in, whether or not it threw. *)
Definition estado {S E A} (r : Res S E A) : S :=
  match r with Fim _ s _ => s | Lancou _ s _ => s end.

Definition efeitos {S E A} (r : Res S E A) : list E :=
  match r with Fim _ _ l => l | Lancou _ _ l => l end.

Definition terminou {S E A} (r : Res S E A) : bool :=
  match r with Fim _ _ _ => true | Lancou _ _ _ => false end.

End Run.

(** ** Plans (both admin panels) *)

Module Planos.
Import Js.

Record Plan := mkPlan {
  plan_id : Z;
  plan_name : string;
  plan_value : Q;
  plan_unit : string
}.

(** [convertPlanToMinutes], the same text in both admin panels. *)
Definition convertPlanToMinutes (plan : Plan) : Z :=
  let v := num_or (plan_value plan) 0 in
  if String.eqb (plan_unit plan) "minutes" then Math_max 1 (Math_round v)
  else if String.eqb (plan_unit plan) "hours" then Math_max 1 (Math_round (v * 60))
  else if String.eqb (plan_unit plan) "days" then Math_max 1 (Math_round (v * 24 * 60))
  else if String.eqb (plan_unit plan) "weeks" then Math_max 1 (Math_round (v * 7 * 24 * 60))
  else if String.eqb (plan_unit plan) "months" then Math_max 1 (Math_round (v * 30 * 24 * 60))
  else Math_max 1 (Math_round v).

(** The conversion table as the specification words it. *)
Definition unitFactor (unit_name : string) : Q :=
  if String.eqb unit_name "minutes" then 1
  else if String.eqb unit_name "hours" then 60
  else if String.eqb unit_name "days" then 1440
  else if String.eqb unit_name "weeks" then 10080
  else if String.eqb unit_name "months" then 43200
  else 1.



End Planos.

(** ** JSON values and [JSON.parse] *)

Module Json.
Import Js.

(** A string of a parsed document is a list of code units: an escape
    [\uXXXX] can denote any of them. *)
Inductive json :=
| JNull
| JBool (b : bool)
| JNum (q : Q)
| JStr (s : list Z)
| JArr (elems : list json)
| JObj (members : list (list Z * json)).


Definition is_ws (a : ascii) : bool :=
  let c := code a in (c =? 32) || (c =? 9) || (c =? 10) || (c =? 13).

Fixpoint skip_ws (s : list ascii) : list ascii :=
  match s with
  | a :: r => if is_ws a then skip_ws r else s
  | [] => []
  end.

Definition hex_val (a : ascii) : option Z :=
  let c := code a in
  if (48 <=? c) && (c <=? 57) then Some (c - 48)
  else if (97 <=? c) && (c <=? 102) then Some (c - 87)
  else if (65 <=? c) && (c <=? 70) then Some (c - 55)
  else None.

(** The characters of a string literal, after the opening quote. *)
Fixpoint parse_chars (s : list ascii) (acc : list Z) : option (list Z * list ascii) :=
  match s with
  | [] => None
  | a :: r =>
      let c := code a in
      if c =? 34 then Some (rev acc, r)
      else if c <? 32 then None
      else if c =? 92 then
        match r with
        | e :: r1 =>
            let k := code e in
            if k =? 34 then parse_chars r1 (34 :: acc)
            else if k =? 92 then parse_chars r1 (92 :: acc)
            else if k =? 47 then parse_chars r1 (47 :: acc)
            else if k =? 98 then parse_chars r1 (8 :: acc)
            else if k =? 102 then parse_chars r1 (12 :: acc)
            else if k =? 110 then parse_chars r1 (10 :: acc)
            else if k =? 114 then parse_chars r1 (13 :: acc)
            else if k =? 116 then parse_chars r1 (9 :: acc)
            else if k =? 117 then
              match r1 with
              | h1 :: h2 :: h3 :: h4 :: r2 =>
                  match hex_val h1, hex_val h2, hex_val h3, hex_val h4 with
                  | Some a1, Some a2, Some a3, Some a4 =>
                      parse_chars r2 (((a1 * 16 + a2) * 16 + a3) * 16 + a4 :: acc)
                  | _, _, _, _ => None
                  end
              | _ => None
              end
            else None
        | [] => None
        end
      else parse_chars r (c :: acc)
  end.

(** A run of decimal digits: its value, how many there were, the rest. *)
Fixpoint parse_digits (s : list ascii) (acc : Z) (n : nat) : Z * nat * list ascii :=
  match s with
  | a :: r => if is_digit a then parse_digits r (acc * 10 + (code a - 48)) (S n) else (acc, n, s)
  | [] => (acc, n, [])
  end.

Definition pow10 (e : Z) : Q := if 0 <=? e then inject_Z (10 ^ e) else (/ inject_Z (10 ^ (- e)))%Q.

(** A number literal: an optional minus sign, an integer part without
    superfluous leading zero, an optional fraction (a dot and at least one
    digit), an optional exponent (e or E, an optional sign, at least one
    digit). *)
Definition parse_number (s : list ascii) : option (Q * list ascii) :=
  let '(neg, s1) := match s with
                    | a :: r => if code a =? 45 then (true, r) else (false, s)
                    | [] => (false, s)
                    end in
  let '(ip, n, s2) := parse_digits s1 0 0 in
  let leading_zero := match s1 with a :: _ => code a =? 48 | [] => false end in
  if (n =? 0)%nat || (leading_zero && negb (n =? 1)%nat) then None else
  let frac :=
    match s2 with
    | d :: r =>
        if code d =? 46 then
          let '(fp, k, s3) := parse_digits r 0 0 in
          if (k =? 0)%nat then None else Some (fp, k, s3)
        else Some (0, O, s2)
    | [] => Some (0, O, s2)
    end in
  match frac with
  | None => None
  | Some (fp, k, s3) =>
      let mant := (inject_Z ip + inject_Z fp * pow10 (- Z.of_nat k))%Q in
      let expo :=
        match s3 with
        | e :: r =>
            if (code e =? 101) || (code e =? 69) then
              let '(eneg, r1) := match r with
                                 | g :: r' => if code g =? 45 then (true, r')
                                              else if code g =? 43 then (false, r')
                                              else (false, r)
                                 | [] => (false, r)
                                 end in
              let '(ev, m, s4) := parse_digits r1 0 0 in
              if (m =? 0)%nat then None else Some ((if eneg then - ev else ev), s4)
            else Some (0, s3)
        | [] => Some (0, s3)
        end in
      match expo with
      | None => None
      | Some (ev, s4) =>
          let v := (mant * pow10 ev)%Q in
          Some ((if neg then - v else v)%Q, s4)
      end
  end.

Definition expect (word : string) (s : list ascii) : option (list ascii) :=
  let w := list_ascii_of_string word in
  if decide (take (List.length w) s = w) then Some (drop (List.length w) s) else None.

(** A value, with leading white space; [fuel] bounds the nesting depth and
    the number of elements of an array or object. *)
Fixpoint parse_value (fuel : nat) (s : list ascii) : option (json * list ascii) :=
  match fuel with
  | O => None
  | S f =>
      let elements :=
        fix elements (n : nat) (s : list ascii) (acc : list json) : option (json * list ascii) :=
          match n with
          | O => None
          | S n' =>
              match parse_value f s with
              | Some (v, r) =>
                  match skip_ws r with
                  | a :: r' =>
                      if code a =? 44 then elements n' r' (v :: acc)
                      else if code a =? 93 then Some (JArr (rev (v :: acc)), r')
                      else None
                  | [] => None
                  end
              | None => None
              end
          end in
      let members :=
        fix members (n : nat) (s : list ascii) (acc : list (list Z * json)) : option (json * list ascii) :=
          match n with
          | O => None
          | S n' =>
              match skip_ws s with
              | q :: r0 =>
                  if code q =? 34 then
                    match parse_chars r0 [] with
                    | Some (k, r1) =>
                        match skip_ws r1 with
                        | c :: r2 =>
                            if code c =? 58 then
                              match parse_value f r2 with
                              | Some (v, r3) =>
                                  match skip_ws r3 with
                                  | a :: r4 =>
                                      if code a =? 44 then members n' r4 ((k, v) :: acc)
                                      else if code a =? 125 then Some (JObj (rev ((k, v) :: acc)), r4)
                                      else None
                                  | [] => None
                                  end
                              | None => None
                              end
                            else None
                        | [] => None
                        end
                    | None => None
                    end
                  else None
              | [] => None
              end
          end in
      match skip_ws s with
      | [] => None
      | a :: r =>
          let c := code a in
          if c =? 123 then
            match skip_ws r with
            | b :: r' => if code b =? 125 then Some (JObj [], r') else members fuel r []
            | [] => None
            end
          else if c =? 91 then
            match skip_ws r with
            | b :: r' => if code b =? 93 then Some (JArr [], r') else elements fuel r []
            | [] => None
            end
          else if c =? 34 then
            match parse_chars r [] with
            | Some (k, r') => Some (JStr k, r')
            | None => None
            end
          else if c =? 116 then option_map (fun r' => (JBool true, r')) (expect "true" (a :: r))
          else if c =? 102 then option_map (fun r' => (JBool false, r')) (expect "false" (a :: r))
          else if c =? 110 then option_map (fun r' => (JNull, r')) (expect "null" (a :: r))
          else
            match parse_number (a :: r) with
            | Some (q, r') => Some (JNum q, r')
            | None => None
            end
      end
  end.

(** [JSON.parse(text)]: [None] stands for the [SyntaxError] it throws. *)
Definition JSON_parse (text : string) : option json :=
  let s := list_ascii_of_string text in
  match parse_value (S (List.length s)) s with
  | Some (v, r) => match skip_ws r with [] => Some v | _ :: _ => None end
  | None => None
  end.





End Json.

(** ** The admin panel with role gating (first document of app.js) *)

Module Admin.
Import Js Run Json Planos.

Record User := mkUser {
  user_id : Z;
  username : string;
  password : string;
  loginTime : Z;
  createdAt : string;
  isAdmin : bool
}.

(** The fields of [AppState] that the handlers below use. *)
Record AppState := mkState {
  users : list User;
  plans : list Plan;
  currentUser : option User
}.

Definition set_users (us : list User) (st : AppState) : AppState :=
  mkState us (plans st) (currentUser st).
Definition set_plans (ps : list Plan) (st : AppState) : AppState :=
  mkState (users st) ps (currentUser st).
Definition set_currentUser (u : option User) (st : AppState) : AppState :=
  mkState (users st) (plans st) u.

(** The argument of a [JSON.stringify] whose text goes to a store. *)
Inductive Valor :=
| VUsers (us : list User)
| VPlans (ps : list Plan)
| VUser (u : User).

(** What a handler does outside [this.state]. *)
Inductive Efeito :=
| LocalSet (key : string) (v : Valor)
| SessionSet (key : string) (v : Valor)
| SessionRemove (key : string)
| Texto (elemento texto : string)
| Alert (texto : string).

Definition Handler := M AppState Efeito unit.


(** How a parsed document is read as typed state; the program itself
    keeps the parsed value as it is. *)
Record Leitor := mkLeitor {
  ler_users : json -> list User;
  ler_plans : json -> list Plan;
  ler_user : json -> option User
}.

(** The clock: [Date.now()] and [new Date().toISOString()]. *)
Record Relogio := mkRelogio {
  Date_now : Z;
  toISOString : string
}.

Definition JSON_parse_m {S E} (text : string) : M S E json :=
  match JSON_parse text with
  | Some v => ret v
  | None => throw SyntaxError
  end.

(** A string or [null] used as a condition. *)
Definition presente (v : option string) : option string :=
  match v with
  | Some EmptyString => None
  | other => other
  end.

Definition getDefaultUsers (t : Relogio) : list User :=
  [ mkUser 1 "admin" "admin123" 60 (toISOString t) true ].

Definition getDefaultPlans : list Plan :=
  [ mkPlan 1 ("Padr" ++ ch 227 ++ "o 30 minutos") 30 "minutes";
    mkPlan 2 ("Di" ++ ch 225 ++ "rio") 1 "days";
    mkPlan 3 "Semanal" 1 "weeks";
    mkPlan 4 "Mensal" 1 "months" ].




Definition saveUsers : Handler :=
  st ← get; emit (LocalSet "users" (VUsers (users st))).

Definition savePlans : Handler :=
  st ← get; emit (LocalSet "plans" (VPlans (plans st))).

Definition setCurrentUser (user : User) : Handler :=
  modify (set_currentUser (Some user));;
  emit (SessionSet "currentUser" (VUser user)).

Definition logout : Handler :=
  modify (set_currentUser None);;
  emit (SessionRemove "currentUser").

(** [this.state.currentUser && this.state.currentUser.isAdmin]. *)
Definition ehAdmin (st : AppState) : bool :=
  match currentUser st with
  | Some u => isAdmin u
  | None => false
  end.

(** The values of the options that [populatePlanSelect] puts in the plan
    select: the placeholder, one per plan, and the custom choice.  A plan
    id is an integer, and its string is its decimal numeral. *)
Definition populatePlanSelect (st : AppState) : list string :=
  "" :: map (fun p => pretty (plan_id p)) (plans st) ++ ["custom"].

(** What [handleCreateUser] reads from the form: the two text fields, the
    value of the plan select (the empty string when the page has none) and
    [parseInt] of the minutes field. *)
Record CreateUserForm := mkForm {
  newUsername : string;
  newPassword : string;
  planSelect : string;
  newLoginTime : option Z
}.

(** The first part of [handleCreateUser]: the allowance that the form
    selects, or the message that ends the handler. *)
Definition handleCreateUser_loginTime (f : CreateUserForm) (st : AppState) : string + Z :=
  let selectedPlanId := planSelect f in
  if String.eqb selectedPlanId "" then
    inl ("Selecione um plano para o usu" ++ ch 225 ++ "rio.")
  else if String.eqb selectedPlanId "custom" then
    let customTime := int_or (newLoginTime f) 0 in
    if customTime <? 1 then inl "Tempo custom deve ser pelo menos 1 minuto."
    else inr customTime
  else
    match List.find (fun p => String.eqb (pretty (plan_id p)) selectedPlanId) (plans st) with
    | Some plan => inr (convertPlanToMinutes plan)
    | None => inr 0
    end.

Definition msg_curto_usuario : string := "Usu" ++ ch 225 ++ "rio deve ter pelo menos 3 caracteres!".
Definition msg_curta_senha : string := "Senha deve ter pelo menos 4 caracteres!".
Definition msg_ja_existe : string := "Este usu" ++ ch 225 ++ "rio j" ++ ch 225 ++ " existe!".
Definition msg_so_admin_cria : string := "Apenas administradores podem criar usu" ++ ch 225 ++ "rios.".
Definition msg_criado (username : string) : string :=
  "Usu" ++ ch 225 ++ "rio " ++ ch 34 ++ username ++ ch 34 ++ " criado com sucesso!".

(** The rest of [handleCreateUser], shared by the three admin panels:
    the checks on the name and the password, and the creation. *)
Definition criar_usuario (username password : string) (loginTime : Z) (t : Relogio) : Handler :=
  st ← get;
  if length username <? 3 then emit (Texto "createError" msg_curto_usuario)
  else if length password <? 4 then emit (Texto "createError" msg_curta_senha)
  else if existsb (fun u => String.eqb (Admin.username u) username) (users st) then
    emit (Texto "createError" msg_ja_existe)
  else
    let newUser := mkUser (Date_now t) username password loginTime (toISOString t) false in
    modify (set_users (users st ++ [newUser]));;
    saveUsers;;
    emit (Texto "createSuccess" (msg_criado username)).

Definition handleCreateUser (f : CreateUserForm) (t : Relogio) : Handler :=
  let username := trim (newUsername f) in
  let password := newPassword f in
  st ← get;
  match handleCreateUser_loginTime f st with
  | inl msg => emit (Texto "createError" msg)
  | inr loginTime =>
      if negb (ehAdmin st) then emit (Texto "createError" msg_so_admin_cria)
      else criar_usuario username password loginTime t
  end.

Definition msg_so_admin_deleta : string := "Apenas administradores podem deletar planos.".

(** [deletePlan(id)]; [confirma] is the answer to the [confirm] dialog. *)
Definition deletePlan (id : Z) (confirma : bool) : Handler :=
  st ← get;
  if negb (ehAdmin st) then emit (Alert msg_so_admin_deleta)
  else if negb confirma then mret tt
  else
    modify (set_plans (List.filter (fun p => negb (plan_id p =? id)) (plans st)));;
    savePlans.

End Admin.

(** ** The earlier admin panel (second document of app.js)

    Only an administrator can log in; no handler checks the role. *)

Module AdminAnterior.
Import Js Run Json Planos.
Import Admin.

Definition populatePlanSelect (st : AppState) : list string :=
  "custom" :: map (fun p => pretty (plan_id p)) (plans st) ++ ["custom"].

(** Here [planSelect] is ["custom"] when the page has no plan select. *)
Definition handleCreateUser_loginTime (f : CreateUserForm) (st : AppState) : Z :=
  let selectedPlanId := planSelect f in
  let customTime := int_or (newLoginTime f) 30 in
  if negb (String.eqb selectedPlanId "") && negb (String.eqb selectedPlanId "custom") then
    match List.find (fun p => String.eqb (pretty (plan_id p)) selectedPlanId) (plans st) with
    | Some plan => convertPlanToMinutes plan
    | None => customTime
    end
  else customTime.

Definition handleCreateUser (f : CreateUserForm) (t : Relogio) : Handler :=
  let username := trim (newUsername f) in
  let password := newPassword f in
  st ← get;
  criar_usuario username password (handleCreateUser_loginTime f st) t.

Definition deletePlan (id : Z) (confirma : bool) : Handler :=
  st ← get;
  if negb confirma then mret tt
  else
    modify (set_plans (List.filter (fun p => negb (plan_id p =? id)) (plans st)));;
    savePlans.

End AdminAnterior.

(** ** The first admin panel (the unnamed source file): users only *)

Module AdminPrimeiro.
Import Js Run Admin.

Definition handleCreateUser (f : CreateUserForm) (t : Relogio) : Handler :=
  let username := trim (newUsername f) in
  let password := newPassword f in
  let loginTime := int_or (newLoginTime f) 30 in
  criar_usuario username password loginTime t.

End AdminPrimeiro.

(** ** The shop (third document of app.js) *)

Module Loja.
Import Js Run Json.

(** Accented letters of the messages and of the sample data. *)
Definition a_agudo : string := ch 225.
Definition a_circ : string := ch 226.
Definition a_til : string := ch 227.
Definition c_cedilha : string := ch 231.
Definition e_agudo : string := ch 233.
Definition e_circ : string := ch 234.
Definition i_agudo : string := ch 237.
Definition o_agudo : string := ch 243.
Definition u_agudo : string := ch 250.

Definition STORAGE_KEY : string := "lojaSeguraDados".
Definition PAGAMENTO_CONFIG_KEY : string := "lojaPagamentoConfig".

Record Item := mkItem {
  item_id : string;
  item_nome : string;
  item_descricao : string;
  item_preco : Q;
  item_produtorId : string;
  item_disponivel : bool
}.

Record Produtor := mkProdutor {
  produtor_id : string;
  produtor_nome : string;
  produtor_email : string;
  listaDeItens : list Item
}.

(** A cart line: [{ ...item, produtorNome: produtor.nome }], a copy of the
    item's fields as they were when it was added, and the owner's name. *)
Record Linha := mkLinha {
  linha_item : Item;
  produtorNome : string
}.

(** A user or the administrator; the administrator has no [pedidos]. *)
Record Usuario := mkUsuario {
  usuario_id : string;
  usuario_nome : string;
  usuario_email : string;
  senhaHash : string;
  role : string;
  usuario_pedidos : option (list string)
}.

Record Pedido := mkPedido {
  pedido_id : string;
  pedido_usuarioId : string;
  pedido_usuarioNome : string;
  pedido_usuarioEmail : string;
  pedido_itens : list Linha;
  pedido_total : Q;
  pedido_data : string;
  pedido_status : string;
  pedido_endereco : string;
  pedido_cidade : string
}.

Record ConfigPagamento := mkConfig {
  provedor : string;
  stripePublicKey : string;
  mercadoPagoPublicKey : string
}.

(** The global [appState].  The logged-in user is kept as a value: that
    the same object may also be an entry of [usuarios] is not tracked. *)
Record AppState := mkApp {
  usuarioLogado : option Usuario;
  carrinho : list Linha;
  produtores : list Produtor;
  usuarios : list Usuario;
  pedidos : list Pedido;
  admin : option Usuario;
  configPagamento : ConfigPagamento
}.

Definition set_usuarioLogado (u : option Usuario) (st : AppState) : AppState :=
  mkApp u (carrinho st) (produtores st) (usuarios st) (pedidos st) (admin st) (configPagamento st).
Definition set_carrinho (c : list Linha) (st : AppState) : AppState :=
  mkApp (usuarioLogado st) c (produtores st) (usuarios st) (pedidos st) (admin st) (configPagamento st).
Definition set_produtores (ps : list Produtor) (st : AppState) : AppState :=
  mkApp (usuarioLogado st) (carrinho st) ps (usuarios st) (pedidos st) (admin st) (configPagamento st).
Definition set_usuarios (us : list Usuario) (st : AppState) : AppState :=
  mkApp (usuarioLogado st) (carrinho st) (produtores st) us (pedidos st) (admin st) (configPagamento st).
Definition set_pedidos (ps : list Pedido) (st : AppState) : AppState :=
  mkApp (usuarioLogado st) (carrinho st) (produtores st) (usuarios st) ps (admin st) (configPagamento st).
Definition set_configPagamento (c : ConfigPagamento) (st : AppState) : AppState :=
  mkApp (usuarioLogado st) (carrinho st) (produtores st) (usuarios st) (pedidos st) (admin st) c.

(** The argument of a [JSON.stringify] whose text goes to [localStorage]. *)
Inductive Documento :=
| DocEstado (st : AppState)
| DocConfig (c : ConfigPagamento).

(** What a handler does outside [appState]: a write to [localStorage]
    (which is taken to succeed), a message on the page ([alvo] is the id of
    the element, [None] for a floating message), a line on the console. *)
Inductive Efeito :=
| Gravou (chave : string) (doc : Documento)
| Mensagem (texto tipo : string) (alvo : option string)
| Console (texto : string).

Definition Handler := M AppState Efeito unit.

Record Leitor := mkLeitor {
  ler_estado : json -> AppState;
  ler_config : json -> ConfigPagamento
}.

Record Relogio := mkRelogio {
  Date_now : Z;
  toISOString : string
}.


(** *** Security helpers *)

(** Every value that the handlers pass is a string. *)
Definition sanitizar (str : string) : string := escapeHTML str.

Definition fora_de_email (a : ascii) : bool := negb (is_space a || is_char "@" a).

Definition validarEmail (email : string) : bool :=
  test [Plus fora_de_email; One (is_char "@"); Plus fora_de_email;
        One (is_char "."); Plus fora_de_email] email.

Definition validarSenha (senha : string) : bool := 6 <=? length senha.

Fixpoint hash_loop (senha : string) (hash : Z) : Z :=
  match senha with
  | EmptyString => hash
  | String a r =>
      let char := code a in
      let hash1 := (shl hash 5 - hash) + char in
      hash_loop r (band hash1 hash1)
  end.

Definition hashSenhaSimples (senha : string) : string :=
  "hash_" ++ toString36 (Z.abs (hash_loop senha 0)).

(** *** Checkout payload *)

Record DadosCompra := mkDados {
  dc_nome : string;
  dc_email : string;
  dc_telefone : string;
  dc_endereco : string;
  dc_cidade : string;
  dc_cep : string;
  dc_cartao : string;
  dc_validade : string;
  dc_cvv : string
}.

Record Validacao := mkValidacao {
  valido : bool;
  erro : option string
}.

Definition requiredFields : list (string * (DadosCompra -> string)) :=
  [ ("nome", dc_nome); ("email", dc_email); ("telefone", dc_telefone);
    ("endereco", dc_endereco); ("cidade", dc_cidade); ("cep", dc_cep);
    ("cartao", dc_cartao); ("validade", dc_validade); ("cvv", dc_cvv) ].

(** [!v || v.trim() === ''] *)
Definition em_branco (v : string) : bool :=
  String.eqb v "" || String.eqb (trim v) "".

(** The loop over [requiredFields]: the first field that is blank. *)
Fixpoint primeiro_em_branco (fields : list (string * (DadosCompra -> string)))
    (dados : DadosCompra) : option string :=
  match fields with
  | [] => None
  | (field, valor) :: r =>
      if em_branco (valor dados) then Some field else primeiro_em_branco r dados
  end.

Definition msg_obrigatorio (field : string) : string :=
  "Campo " ++ field ++ " obrigat" ++ o_agudo ++ "rio".
Definition msg_email_invalido : string := "Email inv" ++ a_agudo ++ "lido".
Definition msg_cartao_invalido : string :=
  "N" ++ u_agudo ++ "mero de cart" ++ a_til ++ "o inv" ++ a_agudo ++ "lido (16 d" ++ i_agudo ++ "gitos)".
Definition msg_validade_invalida : string := "Validade inv" ++ a_agudo ++ "lida (MM/AA)".
Definition msg_cvv_invalido : string := "CVV inv" ++ a_agudo ++ "lido (3 d" ++ i_agudo ++ "gitos)".

Definition invalido (msg : string) : Validacao := mkValidacao false (Some msg).

Definition validarDadosCompra (dados : DadosCompra) : Validacao :=
  match primeiro_em_branco requiredFields dados with
  | Some field => invalido (msg_obrigatorio field)
  | None =>
      if negb (validarEmail (dc_email dados)) then invalido msg_email_invalido
      else if negb (test (times 16 is_digit) (strip_spaces (dc_cartao dados))) then
        invalido msg_cartao_invalido
      else if negb (test (times 2 is_digit ++ [One (is_char "/")] ++ times 2 is_digit)
                         (dc_validade dados)) then
        invalido msg_validade_invalida
      else if negb (test (times 3 is_digit) (dc_cvv dados)) then invalido msg_cvv_invalido
      else mkValidacao true None
  end.

(** *** Persistence *)

Definition salvarDados : Handler :=
  st ← get; emit (Gravou STORAGE_KEY (DocEstado st)).

Definition configPadrao : ConfigPagamento :=
  mkConfig "stripe" "pk_demo_12345" "APP_USER_ID_DEMO".

Definition adminPadrao : Usuario :=
  mkUsuario "admin_001" "Administrador" "admin@loja.com"
            (hashSenhaSimples "admin123") "admin" None.

Definition usuariosDemo : list Usuario :=
  [ mkUsuario "user_001" ("Jo" ++ a_til ++ "o Silva") "joao@example.com"
              (hashSenhaSimples "senha123") "user" (Some []);
    mkUsuario "user_002" "Maria Santos" "maria@example.com"
              (hashSenhaSimples "senha456") "user" (Some []) ].

Definition produtoresDemo : list Produtor :=
  [ mkProdutor "produtor_001" ("Fazenda Org" ++ a_circ ++ "nica Verde") "contato@fazendaverde.com"
      [ mkItem "item_001" ("Ma" ++ c_cedilha ++ a_til ++ " Org" ++ a_circ ++ "nica")
               ("Ma" ++ c_cedilha ++ a_til ++ " vermelha fresca, colheita do m" ++ e_circ ++ "s")
               (25 # 2) "produtor_001" true;
        mkItem "item_002" ("Cenoura Org" ++ a_circ ++ "nica") "Cenoura doce e crocante"
               8 "produtor_001" true ];
    mkProdutor "produtor_002" ("Latic" ++ i_agudo ++ "nios Naturais") "vendas@lacticinionaturais.com"
      [ mkItem "item_003" "Queijo Meia Cura" "Queijo artesanal, 500g" 35 "produtor_002" true;
        mkItem "item_004" "Leite Integral" "Leite fresco, 1 litro" (13 # 2) "produtor_002" true ];
    mkProdutor "produtor_003" ("Caf" ++ e_agudo ++ " Artesanal") "cafe@artesanal.com"
      [ mkItem "item_005" ("Caf" ++ e_agudo ++ " Expresso")
               ("Caf" ++ e_agudo ++ " 100% ar" ++ a_agudo ++ "bica, 250g")
               28 "produtor_003" true ] ].

Definition dadosPadrao : AppState :=
  mkApp None [] produtoresDemo usuariosDemo [] (Some adminPadrao) configPadrao.

Definition inicializarDadosParaao : Handler :=
  put dadosPadrao;; salvarDados.


Definition JSON_parse_m (text : string) : M AppState Efeito json :=
  match JSON_parse text with
  | Some v => mret v
  | None => throw SyntaxError
  end.

Definition presente (v : option string) : option string :=
  match v with
  | Some EmptyString => None
  | other => other
  end.




(** *** Permissions *)

Definition usuarioAtualEhAdmin (st : AppState) : bool :=
  match usuarioLogado st with
  | Some u => String.eqb (role u) "admin"
  | None => false
  end.

Definition usuarioEstaLogado (st : AppState) : bool :=
  match usuarioLogado st with
  | Some _ => true
  | None => false
  end.

(** [atualizarUI], as far as [appState] goes: with nobody logged in the
    cart is emptied. *)
Definition atualizarUI : Handler :=
  st ← get;
  if usuarioEstaLogado st then mret tt
  else modify (set_carrinho []).

(** *** Authentication *)

Record LoginForm := mkLogin {
  loginEmail : string;
  loginPassword : string
}.

Record RegistroForm := mkRegistro {
  registroNome : string;
  registroEmail : string;
  registroSenha : string;
  registroConfirm : string
}.

Definition handleLoginForm (f : LoginForm) : Handler :=
  let email := sanitizar (loginEmail f) in
  let senha := loginPassword f in
  let msgEl := Some "loginMsg" in
  st ← get;
  if negb (validarEmail email) then emit (Mensagem msg_email_invalido "error" msgEl)
  else
    match List.find (fun u => String.eqb (usuario_email u) email) (usuarios st) with
    | None => emit (Mensagem ("Usu" ++ a_agudo ++ "rio n" ++ a_til ++ "o encontrado") "error" msgEl)
    | Some usuario =>
        if negb (String.eqb (senhaHash usuario) (hashSenhaSimples senha)) then
          emit (Mensagem "Senha incorreta" "error" msgEl)
        else
          modify (set_usuarioLogado (Some usuario));;
          salvarDados;;
          emit (Mensagem "Login realizado com sucesso!" "success" msgEl);;
          atualizarUI
    end.

Definition msg_email_registrado : string := "Email j" ++ a_agudo ++ " registrado".

Definition handleRegistroForm (f : RegistroForm) (t : Relogio) : Handler :=
  let nome := sanitizar (registroNome f) in
  let email := sanitizar (registroEmail f) in
  let senha := registroSenha f in
  let confirmar := registroConfirm f in
  let msgEl := Some "registroMsg" in
  st ← get;
  if String.eqb nome "" || (length nome <? 3) then
    emit (Mensagem "Nome deve ter pelo menos 3 caracteres" "error" msgEl)
  else if negb (validarEmail email) then emit (Mensagem msg_email_invalido "error" msgEl)
  else if negb (validarSenha senha) then
    emit (Mensagem "Senha deve ter pelo menos 6 caracteres" "error" msgEl)
  else if negb (String.eqb senha confirmar) then
    emit (Mensagem ("Senhas n" ++ a_til ++ "o coincidem") "error" msgEl)
  else if existsb (fun u => String.eqb (usuario_email u) email) (usuarios st) then
    emit (Mensagem msg_email_registrado "error" msgEl)
  else
    let novoUsuario :=
      mkUsuario ("user_" ++ pretty (Date_now t)) nome email (hashSenhaSimples senha) "user" (Some []) in
    modify (set_usuarios (usuarios st ++ [novoUsuario]));;
    modify (set_usuarioLogado (Some novoUsuario));;
    salvarDados;;
    emit (Mensagem "Cadastro realizado com sucesso!" "success" msgEl);;
    atualizarUI.

Definition handleLoginAdminForm (f : LoginForm) : Handler :=
  let email := sanitizar (loginEmail f) in
  let senha := loginPassword f in
  let msgEl := Some "loginAdminMsg" in
  st ← get;
  if negb (validarEmail email) then emit (Mensagem msg_email_invalido "error" msgEl)
  else
    match admin st with
    | None => throw TypeError
    | Some adm =>
        if negb (String.eqb (usuario_email adm) email) then
          emit (Mensagem ("Admin n" ++ a_til ++ "o encontrado") "error" msgEl)
        else if negb (String.eqb (senhaHash adm) (hashSenhaSimples senha)) then
          emit (Mensagem "Senha incorreta" "error" msgEl)
        else
          modify (set_usuarioLogado (Some adm));;
          salvarDados;;
          emit (Mensagem "Login admin realizado com sucesso!" "success" msgEl);;
          atualizarUI
    end.

Definition handleLogout : Handler :=
  modify (set_usuarioLogado None);;
  modify (set_carrinho []);;
  salvarDados;;
  atualizarUI.

(** *** Cart *)

(** The search of [adicionarAoCarrinho]: the first producer whose first
    item of that id is available. *)
Fixpoint buscarItem (ps : list Produtor) (itemId : string) : option Linha :=
  match ps with
  | [] => None
  | produtor :: r =>
      match List.find (fun i => String.eqb (item_id i) itemId) (listaDeItens produtor) with
      | Some item =>
          if item_disponivel item then Some (mkLinha item (produtor_nome produtor))
          else buscarItem r itemId
      | None => buscarItem r itemId
      end
  end.

Definition msg_precisa_login : string :=
  "Voc" ++ e_circ ++ " precisa estar logado para adicionar itens".
Definition msg_indisponivel : string := "Item n" ++ a_til ++ "o dispon" ++ i_agudo ++ "vel".
Definition msg_ja_no_carrinho : string :=
  "Item j" ++ a_agudo ++ " est" ++ a_agudo ++ " no carrinho".

Definition adicionarAoCarrinho (itemId : string) : Handler :=
  st ← get;
  if negb (usuarioEstaLogado st) then emit (Mensagem msg_precisa_login "warning" (Some "carrinhoMsg"))
  else
    match buscarItem (produtores st) itemId with
    | None => emit (Mensagem msg_indisponivel "error" None)
    | Some itemEncontrado =>
        match List.find (fun c => String.eqb (item_id (linha_item c)) itemId) (carrinho st) with
        | Some _ => emit (Mensagem msg_ja_no_carrinho "warning" None)
        | None =>
            modify (set_carrinho (carrinho st ++ [itemEncontrado]));;
            emit (Mensagem "Produto adicionado ao carrinho!" "success" None)
        end
    end.

Definition removerDoCarrinho (itemId : string) : Handler :=
  st ← get;
  modify (set_carrinho
            (List.filter (fun item => negb (String.eqb (item_id (linha_item item)) itemId))
                         (carrinho st))).

Definition calcularTotalCarrinho (st : AppState) : Q :=
  fold_left (fun total item => (total + item_preco (linha_item item))%Q) (carrinho st) 0%Q.

(** *** Checkout *)

Definition criarPagamentoStripe (dados : DadosCompra) : Handler :=
  emit (Console "Integrando com Stripe...").

Definition criarPagamentoMercadoPago (dados : DadosCompra) : Handler :=
  emit (Console "Integrando com Mercado Pago...").

(** [itemEstoque.disponivel = false] on the first item of that id. *)
Fixpoint marcarItem (itemId : string) (l : list Item) : list Item :=
  match l with
  | [] => []
  | i :: r =>
      if String.eqb (item_id i) itemId then
        mkItem (item_id i) (item_nome i) (item_descricao i) (item_preco i)
               (item_produtorId i) false :: r
      else i :: marcarItem itemId r
  end.

(** The same, inside the first producer of the given id. *)
Fixpoint marcarNoProdutor (produtorId itemId : string) (ps : list Produtor) : list Produtor :=
  match ps with
  | [] => []
  | p :: r =>
      if String.eqb (produtor_id p) produtorId then
        mkProdutor (produtor_id p) (produtor_nome p) (produtor_email p)
                   (marcarItem itemId (listaDeItens p)) :: r
      else p :: marcarNoProdutor produtorId itemId r
  end.

(** The loop over the lines of the new order. *)
Definition atualizarEstoque (itens : list Linha) (ps : list Produtor) : list Produtor :=
  fold_left (fun ps item =>
               marcarNoProdutor (item_produtorId (linha_item item)) (item_id (linha_item item)) ps)
            itens ps.

Definition registrarPedido (id : string) (u : Usuario) : Usuario :=
  mkUsuario (usuario_id u) (usuario_nome u) (usuario_email u) (senhaHash u) (role u)
            (Some (default [] (usuario_pedidos u) ++ [id])%list).

Definition finalizarCompraComSucesso (dados : DadosCompra) (t : Relogio) : Handler :=
  st ← get;
  match usuarioLogado st with
  | None => throw TypeError
  | Some u =>
      let novoPedido :=
        mkPedido ("pedido_" ++ pretty (Date_now t)) (usuario_id u) (dc_nome dados) (dc_email dados)
                 (carrinho st) (calcularTotalCarrinho st) (toISOString t) "confirmado"
                 (dc_endereco dados) (dc_cidade dados) in
      modify (set_produtores (atualizarEstoque (pedido_itens novoPedido) (produtores st)));;
      modify (fun s => set_pedidos (pedidos s ++ [novoPedido]) s);;
      (if String.eqb (role u) "user"
       then modify (set_usuarioLogado (Some (registrarPedido (pedido_id novoPedido) u)))
       else mret tt);;
      modify (set_carrinho []);;
      salvarDados;;
      emit (Mensagem ("Compra realizada com sucesso! Pedido: " ++ pedido_id novoPedido)
                     "success" (Some "checkoutMsg"))
  end.

(** The outcome that [Math.random() < 0.85] decides; [random] is in
    the interval from 0 (included) to 1 (excluded). *)
Definition aprovado (random : Q) : bool := negb (Qle_bool (85 # 100) random).

(** The function that [processarPagamento] hands to [setTimeout]. *)
Definition pagamento_temporizado (dados : DadosCompra) (random : Q) (t : Relogio) : Handler :=
  st ← get;
  if aprovado random then
    (if String.eqb (provedor (configPagamento st)) "stripe"
     then criarPagamentoStripe dados
     else criarPagamentoMercadoPago dados);;
    finalizarCompraComSucesso dados t
  else
    emit (Mensagem "Pagamento recusado. Tente novamente." "error" (Some "checkoutMsg")).

(** [processarPagamento] with its timer run at once: no other handler
    runs between the message and the outcome. *)
Definition processarPagamento (dados : DadosCompra) (random : Q) (t : Relogio) : Handler :=
  emit (Mensagem "Processando pagamento..." "warning" (Some "checkoutMsg"));;
  pagamento_temporizado dados random t.

(** The payload that [handleCheckoutForm] builds from the raw fields. *)
Definition dadosDoFormulario (f : DadosCompra) : DadosCompra :=
  mkDados (sanitizar (dc_nome f)) (sanitizar (dc_email f)) (sanitizar (dc_telefone f))
          (sanitizar (dc_endereco f)) (sanitizar (dc_cidade f)) (sanitizar (dc_cep f))
          (strip_non_digits (dc_cartao f)) (dc_validade f) (dc_cvv f).

Definition handleCheckoutForm (f : DadosCompra) (random : Q) (t : Relogio) : Handler :=
  let dados := dadosDoFormulario f in
  let validacao := validarDadosCompra dados in
  if negb (valido validacao) then
    emit (Mensagem (default "" (erro validacao)) "error" (Some "checkoutMsg"))
  else processarPagamento dados random t.

(** *** Administration *)

Record ProdutorForm := mkProdutorForm {
  novoProductorNome : string;
  novoProductorEmail : string
}.

Record ItemForm := mkItemForm {
  novoItemProductorId : string;
  novoItemNome : string;
  novoItemDescricao : string;
  novoItemPreco : Q
}.

Record ConfigForm := mkConfigForm {
  provedorPagamento : string;
  stripePublicKey_campo : string;
  mercadoPagoPublicKey_campo : string
}.

Definition acessoNegado : Handler := emit (Mensagem "Acesso negado" "error" None).

Definition handleNovoProductorForm (f : ProdutorForm) (t : Relogio) : Handler :=
  st ← get;
  if negb (usuarioAtualEhAdmin st) then acessoNegado
  else
    let nome := sanitizar (novoProductorNome f) in
    let email := sanitizar (novoProductorEmail f) in
    let msgEl := Some "novoProductorMsg" in
    if String.eqb nome "" || (length nome <? 3) then
      emit (Mensagem ("Nome inv" ++ a_agudo ++ "lido") "error" msgEl)
    else if negb (validarEmail email) then emit (Mensagem msg_email_invalido "error" msgEl)
    else if existsb (fun p => String.eqb (produtor_email p) email) (produtores st) then
      emit (Mensagem ("Email j" ++ a_agudo ++ " cadastrado") "error" msgEl)
    else
      let novoProdutor := mkProdutor ("produtor_" ++ pretty (Date_now t)) nome email [] in
      modify (set_produtores (produtores st ++ [novoProdutor]));;
      salvarDados;;
      emit (Mensagem "Produtor cadastrado com sucesso!" "success" msgEl).

(** [produtor.listaDeItens.push(novoItem)] on the first producer of the id. *)
Fixpoint adicionarItem (produtorId : string) (novo : Item) (ps : list Produtor) : list Produtor :=
  match ps with
  | [] => []
  | p :: r =>
      if String.eqb (produtor_id p) produtorId then
        mkProdutor (produtor_id p) (produtor_nome p) (produtor_email p)
                   (listaDeItens p ++ [novo]) :: r
      else p :: adicionarItem produtorId novo r
  end.

(** The price field is taken to hold a number. *)
Definition handleNovoItemForm (f : ItemForm) (t : Relogio) : Handler :=
  st ← get;
  if negb (usuarioAtualEhAdmin st) then acessoNegado
  else
    let produtorId := novoItemProductorId f in
    let nome := sanitizar (novoItemNome f) in
    let descricao := sanitizar (novoItemDescricao f) in
    let preco := novoItemPreco f in
    let msgEl := Some "novoItemMsg" in
    if String.eqb nome "" || String.eqb descricao "" then
      emit (Mensagem "Preencha todos os campos" "error" msgEl)
    else if Qle_bool preco 0 then
      emit (Mensagem ("Pre" ++ c_cedilha ++ "o deve ser maior que zero") "error" msgEl)
    else
      match List.find (fun p => String.eqb (produtor_id p) produtorId) (produtores st) with
      | None => emit (Mensagem ("Produtor n" ++ a_til ++ "o encontrado") "error" msgEl)
      | Some _ =>
          let novoItem :=
            mkItem ("item_" ++ pretty (Date_now t)) nome descricao preco produtorId true in
          modify (set_produtores (adicionarItem produtorId novoItem (produtores st)));;
          salvarDados;;
          emit (Mensagem "Item adicionado com sucesso!" "success" msgEl)
      end.

Definition removerProdutor (produtorId : string) (confirma : bool) : Handler :=
  st ← get;
  if negb (usuarioAtualEhAdmin st) then acessoNegado
  else if confirma then
    modify (set_produtores
              (List.filter (fun p => negb (String.eqb (produtor_id p) produtorId)) (produtores st)));;
    salvarDados
  else mret tt.

Fixpoint removerItemDe (produtorId itemId : string) (ps : list Produtor) : list Produtor :=
  match ps with
  | [] => []
  | p :: r =>
      if String.eqb (produtor_id p) produtorId then
        mkProdutor (produtor_id p) (produtor_nome p) (produtor_email p)
                   (List.filter (fun i => negb (String.eqb (item_id i) itemId)) (listaDeItens p)) :: r
      else p :: removerItemDe produtorId itemId r
  end.

Definition removerItemProdutor (produtorId itemId : string) : Handler :=
  st ← get;
  if negb (usuarioAtualEhAdmin st) then acessoNegado
  else
    match List.find (fun p => String.eqb (produtor_id p) produtorId) (produtores st) with
    | Some _ =>
        modify (set_produtores (removerItemDe produtorId itemId (produtores st)));;
        salvarDados
    | None => mret tt
    end.

(** [a || b] on strings. *)
Definition str_or (a b : string) : string := if String.eqb a "" then b else a.

Definition handleConfigPagamentoForm (f : ConfigForm) : Handler :=
  st ← get;
  if negb (usuarioAtualEhAdmin st) then acessoNegado
  else
    let provedor := provedorPagamento f in
    let stripeKey := sanitizar (stripePublicKey_campo f) in
    let mpKey := sanitizar (mercadoPagoPublicKey_campo f) in
    let msgEl := Some "configPagamentoMsg" in
    if String.eqb provedor "" then emit (Mensagem "Selecione um provedor" "error" msgEl)
    else
      let nova := mkConfig provedor
                           (str_or stripeKey (stripePublicKey (configPagamento st)))
                           (str_or mpKey (mercadoPagoPublicKey (configPagamento st))) in
      modify (set_configPagamento nova);;
      emit (Gravou PAGAMENTO_CONFIG_KEY (DocConfig nova));;
      emit (Mensagem ("Configura" ++ c_cedilha ++ ch 245 ++ "es salvas com sucesso!") "success" msgEl).

(** *** The page as a transition system *)


(** What can happen on the page after it has loaded.  The timer of a
    payment is an event of its own: it may fire after other handlers ran;
    so is the refresh of the page that a purchase schedules. *)
Inductive Evento :=
| EvLogin (f : LoginForm)
| EvRegistro (f : RegistroForm) (t : Relogio)
| EvLoginAdmin (f : LoginForm)
| EvLogout
| EvAdicionar (itemId : string)
| EvRemover (itemId : string)
| EvCheckout (f : DadosCompra) (random : Q) (t : Relogio)
| EvTemporizador (dados : DadosCompra) (random : Q) (t : Relogio)
| EvNovoProdutor (f : ProdutorForm) (t : Relogio)
| EvNovoItem (f : ItemForm) (t : Relogio)
| EvRemoverProdutor (produtorId : string) (confirma : bool)
| EvRemoverItem (produtorId itemId : string)
| EvConfigPagamento (f : ConfigForm)
| EvAtualizarUI.

Definition executar (ev : Evento) : Handler :=
  match ev with
  | EvLogin f => handleLoginForm f
  | EvRegistro f t => handleRegistroForm f t
  | EvLoginAdmin f => handleLoginAdminForm f
  | EvLogout => handleLogout
  | EvAdicionar itemId => adicionarAoCarrinho itemId
  | EvRemover itemId => removerDoCarrinho itemId
  | EvCheckout f random t => handleCheckoutForm f random t
  | EvTemporizador dados random t => pagamento_temporizado dados random t
  | EvNovoProdutor f t => handleNovoProductorForm f t
  | EvNovoItem f t => handleNovoItemForm f t
  | EvRemoverProdutor produtorId confirma => removerProdutor produtorId confirma
  | EvRemoverItem produtorId itemId => removerItemProdutor produtorId itemId
  | EvConfigPagamento f => handleConfigPagamentoForm f
  | EvAtualizarUI => atualizarUI
  end.


End Loja.

(** ** Sequences of calls and derived views *)

Module Vistas.
Import Run.

(** Handlers run one after the other, each to its end. *)
Fixpoint em_sequencia {S E : Type} (hs : list (M S E unit)) (s : S) : S :=
  match hs with
  | [] => s
  | h :: r => em_sequencia r (estado (h s))
  end.

Definition usernames (st : Admin.AppState) : list string :=
  map Admin.username (Admin.users st).

Definition emails (st : Loja.AppState) : list string :=
  map Loja.usuario_email (Loja.usuarios st).

(** The two messages of a payment on the checkout form. *)
Definition msg_processando : Loja.Efeito :=
  Loja.Mensagem "Processando pagamento..." "warning" (Some "checkoutMsg").
Definition msg_recusado : Loja.Efeito :=
  Loja.Mensagem "Pagamento recusado. Tente novamente." "error" (Some "checkoutMsg").

(** The order that a successful checkout of the given cart creates. *)
Definition pedidoDe (u : Loja.Usuario) (dados : Loja.DadosCompra) (t : Loja.Relogio)
    (linhas : list Loja.Linha) (total : Q) : Loja.Pedido :=
  Loja.mkPedido ("pedido_" ++ pretty (Loja.Date_now t)) (Loja.usuario_id u)
                (Loja.dc_nome dados) (Loja.dc_email dados) linhas total
                (Loja.toISOString t) "confirmado" (Loja.dc_endereco dados) (Loja.dc_cidade dados).

(** The state after [finalizarCompraComSucesso] ran for the logged-in
    user [u]. *)
Definition aposCompra (dados : Loja.DadosCompra) (t : Loja.Relogio) (u : Loja.Usuario)
    (st : Loja.AppState) : Loja.AppState :=
  let id := "pedido_" ++ pretty (Loja.Date_now t) in
  Loja.mkApp (Some (if String.eqb (Loja.role u) "user" then Loja.registrarPedido id u else u))
             []
             (Loja.atualizarEstoque (Loja.carrinho st) (Loja.produtores st))
             (Loja.usuarios st)
             (Loja.pedidos st
              ++ [pedidoDe u dados t (Loja.carrinho st) (Loja.calcularTotalCarrinho st)])%list
             (Loja.admin st) (Loja.configPagamento st).


(** The stock as one list of items. *)
Definition itensDoEstoque (ps : list Loja.Produtor) : list Loja.Item :=
  flat_map Loja.listaDeItens ps.

(** An item with its availability flag off. *)
Definition vendido (i : Loja.Item) : Loja.Item :=
  Loja.mkItem (Loja.item_id i) (Loja.item_nome i) (Loja.item_descricao i) (Loja.item_preco i)
              (Loja.item_produtorId i) false.

(** The stock in which every item of the given id is flagged off and
    nothing else differs. *)
Definition desligar (itemId : string) (i : Loja.Item) : Loja.Item :=
  if String.eqb (Loja.item_id i) itemId then vendido i else i.

Definition desligarEm (itemId : string) (ps : list Loja.Produtor) : list Loja.Produtor :=
  map (fun p => Loja.mkProdutor (Loja.produtor_id p) (Loja.produtor_nome p) (Loja.produtor_email p)
                                (map (desligar itemId) (Loja.listaDeItens p))) ps.

(** The data model of the stock: producers have distinct ids, items have
    distinct ids, and an item records the id of the producer that lists
    it. *)
Record estoque_ok (ps : list Loja.Produtor) : Prop := mkEstoqueOk {
  produtores_distintos : NoDup (map Loja.produtor_id ps);
  itens_distintos : NoDup (map Loja.item_id (itensDoEstoque ps));
  dono_registrado : forall p i, In p ps -> In i (Loja.listaDeItens p) ->
                                Loja.item_produtorId i = Loja.produtor_id p
}.

(** The clock gives a new id: the producer or item that the event creates
    has an id that the stock does not hold yet. *)
Definition id_novo (ev : Loja.Evento) (st : Loja.AppState) : Prop :=
  match ev with
  | Loja.EvNovoProdutor _ t =>
      ~ In ("produtor_" ++ pretty (Loja.Date_now t)) (map Loja.produtor_id (Loja.produtores st))
  | Loja.EvNovoItem _ t =>
      ~ In ("item_" ++ pretty (Loja.Date_now t))
           (map Loja.item_id (itensDoEstoque (Loja.produtores st)))
  | _ => True
  end.

(** The checks on a checkout payload as the specification lists them, in
    order: every required field filled in, a well-formed e-mail address,
    a card number of exactly 16 digits once white space is removed, an
    expiry of the shape MM/YY, a CVV of exactly 3 digits.  Each comes with
    the message that names it. *)
Definition n_digitos (n : nat) (s : string) : bool :=
  (String.length s =? n)%nat && Js.all_chars Js.is_digit s.

Definition mm_aa (s : string) : bool :=
  match s with
  | String m1 (String m2 (String sep (String y1 (String y2 EmptyString)))) =>
      Js.is_digit m1 && Js.is_digit m2 && Ascii.eqb sep "/" && Js.is_digit y1 && Js.is_digit y2
  | _ => false
  end.

Definition verificacoes : list ((Loja.DadosCompra -> bool) * string) :=
  map (fun campo => (fun d => negb (Loja.em_branco (snd campo d)), Loja.msg_obrigatorio (fst campo)))
      Loja.requiredFields
  ++ [ (fun d => Loja.validarEmail (Loja.dc_email d), Loja.msg_email_invalido);
       (fun d => n_digitos 16 (Js.strip_spaces (Loja.dc_cartao d)), Loja.msg_cartao_invalido);
       (fun d => mm_aa (Loja.dc_validade d), Loja.msg_validade_invalida);
       (fun d => n_digitos 3 (Loja.dc_cvv d), Loja.msg_cvv_invalido) ].

(** First-fail-wins: the message of the first check that fails. *)
Fixpoint primeira_falha (vs : list ((Loja.DadosCompra -> bool) * string))
    (d : Loja.DadosCompra) : option string :=
  match vs with
  | [] => None
  | (ok, msg) :: r => if ok d then primeira_falha r d else Some msg
  end.

End Vistas.

(** ** More of the role-gated admin panel *)

Module AdminMais.
Import Js Run Planos Admin.

Record LoginForm := mkLogin {
  loginUsername : string;
  loginPassword : string
}.

Definition msg_login_incorreto : string :=
  "Usu" ++ ch 225 ++ "rio ou senha incorretos!".

(** [handleLogin]; the admin page that it shows is not modelled. *)
Definition handleLogin (f : LoginForm) : Handler :=
  let username := trim (loginUsername f) in
  let password := loginPassword f in
  st ← get;
  match List.find (fun u => String.eqb (Admin.username u) username
                            && String.eqb (Admin.password u) password) (users st) with
  | Some user => setCurrentUser user
  | None => emit (Texto "loginError" msg_login_incorreto)
  end.

(** The user has the name, once trimmed, and the password of the form. *)
Definition credenciais (f : LoginForm) (u : User) : Prop :=
  Admin.username u = trim (loginUsername f) /\ Admin.password u = loginPassword f.

(** [handleLogout]; [confirma] is the answer to the [confirm] dialog. *)
Definition handleLogout (confirma : bool) : Handler :=
  if confirma then logout else mret tt.

Definition msg_so_admin_deleta_usuario : string :=
  "Apenas administradores podem deletar usu" ++ ch 225 ++ "rios.".

Definition deleteUser_confirmado (username : string) : Handler :=
  st ← get;
  modify (set_users (List.filter (fun u => negb (String.eqb (Admin.username u) username))
                                 (users st)));;
  saveUsers.

Definition deleteUser (username : string) (confirma : bool) : Handler :=
  st ← get;
  if negb (ehAdmin st) then emit (Alert msg_so_admin_deleta_usuario)
  else if confirma then deleteUser_confirmado username
  else mret tt.

(** What [handleCreatePlan] reads: the name, [parseInt] of the value, the
    unit, and the id that [editPlan] left on the form (the empty string
    when no plan is being edited). *)
Record PlanForm := mkPlanForm {
  planName : string;
  planValue : option Z;
  planUnit : string;
  editId : string
}.

Definition msg_so_admin_planos : string := "Apenas administradores podem gerenciar planos.".
Definition msg_nome_obrigatorio : string :=
  "Nome do plano " ++ ch 233 ++ " obrigat" ++ ch 243 ++ "rio".
Definition msg_plano (name verbo : string) : string :=
  "Plano " ++ ch 34 ++ name ++ ch 34 ++ " " ++ verbo ++ ".".

(** The assignments to the first plan whose id, as a string, is [id]. *)
Fixpoint atualizarPlano (id name : string) (value : Q) (unit_name : string)
    (ps : list Plan) : list Plan :=
  match ps with
  | [] => []
  | p :: r =>
      if String.eqb (pretty (plan_id p)) id then mkPlan (plan_id p) name value unit_name :: r
      else p :: atualizarPlano id name value unit_name r
  end.

Definition criarPlano (name : string) (value : Q) (unit_name : string) (t : Relogio) : Handler :=
  st ← get;
  modify (set_plans (plans st ++ [mkPlan (Date_now t) name value unit_name]));;
  savePlans;;
  emit (Texto "planMsg" (msg_plano name "criado")).

Definition handleCreatePlan (f : PlanForm) (t : Relogio) : Handler :=
  let name := trim (planName f) in
  let value := inject_Z (int_or (planValue f) 1) in
  let unit_name := planUnit f in
  st ← get;
  if negb (ehAdmin st) then emit (Texto "planMsg" msg_so_admin_planos)
  else if String.eqb name "" then emit (Texto "planMsg" msg_nome_obrigatorio)
  else if negb (String.eqb (editId f) "") then
    match List.find (fun p => String.eqb (pretty (plan_id p)) (editId f)) (plans st) with
    | Some _ =>
        modify (set_plans (atualizarPlano (editId f) name value unit_name (plans st)));;
        savePlans;;
        emit (Texto "planMsg" (msg_plano name "atualizado"))
    | None => mret tt
    end
  else criarPlano name value unit_name t.

(** What can happen on the panel after it has loaded, as far as the
    handlers above and those of [Admin] go. *)
Inductive Evento :=
| EvLogin (f : LoginForm)
| EvLogout (confirma : bool)
| EvCriarUsuario (f : CreateUserForm) (t : Relogio)
| EvDeletarUsuario (username : string) (confirma : bool)
| EvCriarPlano (f : PlanForm) (t : Relogio)
| EvDeletarPlano (id : Z) (confirma : bool).

Definition executar (ev : Evento) : Handler :=
  match ev with
  | EvLogin f => handleLogin f
  | EvLogout confirma => handleLogout confirma
  | EvCriarUsuario f t => handleCreateUser f t
  | EvDeletarUsuario username confirma => deleteUser username confirma
  | EvCriarPlano f t => handleCreatePlan f t
  | EvDeletarPlano id confirma => deletePlan id confirma
  end.

(** The users that are administrators. *)
Definition administradores (st : AppState) : list User :=
  List.filter isAdmin (users st).

End AdminMais.

(** ** More of the earlier admin panel *)

Module AdminAnteriorMais.
Import Js Run Planos Admin.

(** [handleLogin]: only an administrator is let in. *)
Definition handleLogin (f : AdminMais.LoginForm) : Handler :=
  let username := trim (AdminMais.loginUsername f) in
  let password := AdminMais.loginPassword f in
  st ← get;
  match List.find (fun u => String.eqb (Admin.username u) username
                            && String.eqb (Admin.password u) password) (users st) with
  | Some user =>
      if isAdmin user then setCurrentUser user
      else emit (Texto "loginError" AdminMais.msg_login_incorreto)
  | None => emit (Texto "loginError" AdminMais.msg_login_incorreto)
  end.

Definition deleteUser (username : string) (confirma : bool) : Handler :=
  if confirma then AdminMais.deleteUser_confirmado username else mret tt.

Definition handleCreatePlan (f : AdminMais.PlanForm) (t : Relogio) : Handler :=
  let name := trim (AdminMais.planName f) in
  let value := inject_Z (int_or (AdminMais.planValue f) 1) in
  let unit_name := AdminMais.planUnit f in
  if String.eqb name "" then emit (Texto "planMsg" AdminMais.msg_nome_obrigatorio)
  else AdminMais.criarPlano name value unit_name t.

End AdminAnteriorMais.

(** ** More of the shop *)

Module LojaMais.
Import Js Run Loja.

(** [abrirCheckout], as far as [appState] and the messages go: an empty
    cart is refused, otherwise the form is shown. *)
Definition abrirCheckout : Handler :=
  st ← get;
  match carrinho st with
  | [] => emit (Mensagem "Carrinho vazio" "warning" None)
  | _ :: _ => mret tt
  end.

(** A cart line is backed by the stock: some producer lists an item with
    the id and the owner that the line records. *)
Definition linha_no_estoque (ps : list Produtor) (l : Linha) : Prop :=
  exists P A, In P ps /\ In A (listaDeItens P)
              /\ item_id A = item_id (linha_item l)
              /\ item_produtorId A = item_produtorId (linha_item l).

(** The item ids of the lines of the cart. *)
Definition ids_do_carrinho (st : AppState) : list string :=
  map (fun l => item_id (linha_item l)) (carrinho st).

(** The sum of the prices of the lines. *)
Definition soma (c : list Linha) : Q :=
  fold_right (fun l acc => (item_preco (linha_item l) + acc)%Q) 0%Q c.

(** What identifies an account: every field but the list of its orders
    (a purchase pushes to that list through [appState.usuarioLogado]). *)
Definition identidade (u : Usuario) : string * string * string * string * string :=
  (usuario_id u, usuario_nome u, usuario_email u, senhaHash u, role u).

(** A non-empty run of characters that are neither white space nor an
    at sign. *)
Definition parte_de_email (s : string) : Prop :=
  s <> "" /\ all_chars fora_de_email s = true.

(** local-part, at sign, domain, dot, rest. *)
Definition forma_de_email (e : string) : Prop :=
  exists l d t, e = l ++ "@" ++ d ++ "." ++ t
                /\ parte_de_email l /\ parte_de_email d /\ parte_de_email t.

(** The four characters that [innerHTML] writes as entities. *)
Definition especial (a : ascii) : bool :=
  (code a =? 38) || (code a =? 160) || (code a =? 60) || (code a =? 62).

(** Nobody but the administrator's account has the administrator's role:
    no registered account has it, and a principal that has it is the
    [admin] of the document. *)
Definition privilegios_ok (st : AppState) : Prop :=
  (forall u, In u (usuarios st) -> role u <> "admin")
  /\ (forall u, usuarioLogado st = Some u -> role u = "admin" -> admin st = Some u).

(** Payment settings with a provider and both keys. *)
Definition config_completa (c : ConfigPagamento) : Prop :=
  provedor c <> "" /\ stripePublicKey c <> "" /\ mercadoPagoPublicKey c <> "".

(** An order whose total is the sum of the prices of its lines. *)
Definition pedido_coerente (p : Pedido) : Prop :=
  (pedido_total p == soma (pedido_itens p))%Q.

End LojaMais.

(** ** Concrete states for the examples *)

Module Exemplos.
Import Js Run.

Definition relogio : Loja.Relogio := Loja.mkRelogio 1700000000000 "2023-11-14T22:13:20.000Z".

Definition ana : Loja.Usuario :=
  Loja.mkUsuario "user_009" "Ana" "ana@example.com" "hash_0" "user" (Some []).

(** The default document with Ana, or the administrator, logged in. *)
Definition loja_de_ana : Loja.AppState := Loja.set_usuarioLogado (Some ana) Loja.dadosPadrao.
Definition loja_do_admin : Loja.AppState :=
  Loja.set_usuarioLogado (Some Loja.adminPadrao) Loja.dadosPadrao.

Definition formulario : Loja.DadosCompra :=
  Loja.mkDados "Ana" "ana@example.com" "11 5555-0000" "Rua A, 1" "Recife" "50000-000"
               "4111 1111 1111 1111" "12/29" "123".

Definition relogio_do_painel : Admin.Relogio :=
  Admin.mkRelogio 1700000000000 "2023-11-14T22:13:20.000Z".

Definition administrador : Admin.User :=
  Admin.mkUser 1 "admin" "admin123" 60 "2023-11-14T22:13:20.000Z" true.
Definition maria : Admin.User :=
  Admin.mkUser 2 "maria" "segredo" 30 "2023-11-14T22:13:20.000Z" false.

(** The panel with two users, as the administrator, as Maria, and with
    nobody logged in. *)
Definition painel (quem : option Admin.User) : Admin.AppState :=
  Admin.mkState [administrador; maria] Admin.getDefaultPlans quem.

End Exemplos.

(** ** Proof steps for handlers *)

(** Unfolds the plumbing of a handler, leaving its tests and data. *)
Ltac run :=
  cbv beta delta [mbind mret Run.M_bind Run.M_ret Run.bind Run.ret Run.get Run.put
                  Run.modify Run.emit Run.throw Run.try_catch Run.estado Run.efeitos
                  Run.terminou] iota.

(** Case analysis on the tests of an unfolded handler. *)
Ltac casos :=
  repeat (simpl;
          match goal with
          | |- context [match ?x with _ => _ end] =>
              lazymatch x with
              | context [match _ with _ => _ end] => fail
              | _ => destruct x eqn:?
              end
          end).

(** Unfolds the handler that an event of the shop runs. *)
Ltac desdobrar :=
  simpl Loja.executar;
  unfold Loja.handleLoginForm, Loja.handleRegistroForm, Loja.handleLoginAdminForm,
    Loja.handleLogout, Loja.adicionarAoCarrinho, Loja.removerDoCarrinho,
    Loja.handleCheckoutForm, Loja.processarPagamento, Loja.pagamento_temporizado,
    Loja.finalizarCompraComSucesso, Loja.criarPagamentoStripe,
    Loja.criarPagamentoMercadoPago, Loja.handleNovoProductorForm, Loja.handleNovoItemForm,
    Loja.removerProdutor, Loja.removerItemProdutor, Loja.handleConfigPagamentoForm,
    Loja.acessoNegado, Loja.salvarDados, Loja.atualizarUI, Loja.usuarioEstaLogado,
    Loja.usuarioAtualEhAdmin;
  run.

(** The five ways [escapeHTML] writes a character. *)
Ltac por_caracter a :=
  destruct (Z.eqb_spec (Js.code a) 38) as [?E|?E];
  [|destruct (Z.eqb_spec (Js.code a) 160) as [?E|?E];
    [|destruct (Z.eqb_spec (Js.code a) 60) as [?E|?E];
      [|destruct (Z.eqb_spec (Js.code a) 62) as [?E|?E]]]].

(** * Properties *)

Local Open Scope list_scope.

(** ** Built-ins *)

Lemma num_or_0 x : (Js.num_or x 0 == x)%Q.
Proof.
  unfold Js.num_or. destruct (Qeq_bool x 0) eqn:E; [|reflexivity].
  apply Qeq_bool_eq in E. symmetry. exact E.
Qed.

Lemma Math_round_comp x y : (x == y)%Q -> Js.Math_round x = Js.Math_round y.
Proof. intros E. unfold Js.Math_round. apply Qfloor_comp. rewrite E. reflexivity. Qed.

Lemma Math_round_le x y : (x <= y)%Q -> Js.Math_round x <= Js.Math_round y.
Proof.
  intros L. unfold Js.Math_round. apply Qfloor_resp_le.
  apply Qplus_le_compat; [exact L | apply Qle_refl].
Qed.

(** ** Plans *)

Section PlanosProps.
Import Js Planos.

Lemma unitFactor_nonneg u : (0 <= unitFactor u)%Q.
Proof.
  unfold unitFactor.
  repeat match goal with |- context [String.eqb ?a ?b] => destruct (String.eqb a b) end;
    discriminate.
Qed.

(** The conversion in one formula: the factors are folded into one. *)
Lemma convertPlanToMinutes_unfold plan :
  convertPlanToMinutes plan
  = Z.max 1 (Math_round (num_or (plan_value plan) 0 * unitFactor (plan_unit plan))).
Proof.
  unfold convertPlanToMinutes, unitFactor, Math_max.
  repeat match goal with |- context [String.eqb ?a ?b] => destruct (String.eqb a b) end;
    f_equal; apply Math_round_comp; ring.
Qed.


(** The scenario of the specification: one week is 10080 minutes. *)
Example convertPlanToMinutes_semanal :
  convertPlanToMinutes (mkPlan 3 "Semanal" 1 "weeks") = 10080.
Proof. reflexivity. Qed.

Example convertPlanToMinutes_fracao :
  convertPlanToMinutes (mkPlan 7 "meia hora e pouco" (7 # 12) "hours") = 35
  /\ convertPlanToMinutes (mkPlan 8 "nada" 0 "days") = 1
  /\ convertPlanToMinutes (mkPlan 9 "outro" (5 # 2) "years") = 3.
Proof. repeat split; reflexivity. Qed.

Lemma Math_round_integer k : Math_round (inject_Z k) = k.
Proof.
  unfold Math_round, Qfloor, Qplus, inject_Z. simpl.
  symmetry. apply Z.div_unique with (r := 1); lia.
Qed.

(** With an integral value, which is what the plan form stores, nothing
    is rounded: the result is the product, or 1 if that is smaller. *)
Lemma convertPlanToMinutes_integer id name n u :
  exists k, unitFactor u = inject_Z k
            /\ convertPlanToMinutes (mkPlan id name (inject_Z n) u) = Z.max 1 (n * k).
Proof.
  assert (Hk : exists k, unitFactor u = inject_Z k).
  { unfold unitFactor.
    repeat match goal with |- context [String.eqb ?a ?b] => destruct (String.eqb a b) end;
      eexists; reflexivity. }
  destruct Hk as [k Hk]. exists k. split; [exact Hk|].
  rewrite convertPlanToMinutes_unfold. simpl plan_value. simpl plan_unit. rewrite Hk.
  f_equal. rewrite <- Math_round_integer. apply Math_round_comp.
  rewrite num_or_0, inject_Z_mult. reflexivity.
Qed.

(** C4.  A plan with a positive value converts to at least one minute, and
    for a fixed unit the conversion is monotone in the value. *)
Theorem convertPlanToMinutes_ge_1_monotone :
  (forall p, (0 < plan_value p)%Q -> 1 <= convertPlanToMinutes p)
  /\ (forall p q, plan_unit p = plan_unit q -> (plan_value p <= plan_value q)%Q ->
                  convertPlanToMinutes p <= convertPlanToMinutes q).
Proof.
  split.
  - intros p _. rewrite convertPlanToMinutes_unfold. apply Z.le_max_l.
  - intros p q Hu Hv. rewrite !convertPlanToMinutes_unfold, Hu.
    apply Z.max_le_compat_l. apply Math_round_le.
    rewrite !num_or_0. apply Qmult_le_compat_r; [exact Hv | apply unitFactor_nonneg].
Qed.

End PlanosProps.


Lemma convertPlanToMinutes_ge_1_monotone_witness :
  1 <= Planos.convertPlanToMinutes (Planos.mkPlan 2 "a" (1 # 3) "hours")
  /\ Planos.convertPlanToMinutes (Planos.mkPlan 2 "a" (1 # 3) "hours")
     <= Planos.convertPlanToMinutes (Planos.mkPlan 5 "b" (3 # 2) "hours").
Proof.
  destruct convertPlanToMinutes_ge_1_monotone as [Hpos Hmono]. split.
  - apply Hpos. reflexivity.
  - apply Hmono; [reflexivity | discriminate].
Defined.

(** ** Running computations *)

Section RunProps.
Import Run.
Context {S E : Type}.

Lemma bind_Fim {A B} (m : M S E A) (k : A -> M S E B) s a s1 l1 :
  m s = Fim a s1 l1 ->
  bind m k s = match k a s1 with
               | Fim b s2 l2 => Fim b s2 (l1 ++ l2)
               | Lancou e s2 l2 => Lancou e s2 (l1 ++ l2)
               end.
Proof. intros H. unfold bind. rewrite H. reflexivity. Qed.

Lemma bind_Lancou {A B} (m : M S E A) (k : A -> M S E B) s e s1 l1 :
  m s = Lancou e s1 l1 -> bind m k s = Lancou e s1 l1.
Proof. intros H. unfold bind. rewrite H. reflexivity. Qed.

Lemma get_bind {B} (k : S -> M S E B) s : (get ≫= k) s = k s s.
Proof.
  cbv beta delta [mbind M_bind bind get] iota.
  destruct (k s s); reflexivity.
Qed.

End RunProps.

(** ** The admin panels *)

Section AdminProps.
Import Js Run Planos Admin.

Lemma convertPlanToMinutes_pos plan : 1 <= convertPlanToMinutes plan.
Proof. rewrite convertPlanToMinutes_unfold. apply Z.le_max_l. Qed.

(** *** Deleting a plan *)

(** C7, as the role-gated panel has it.  [deletePlan] called by anyone who
    is not an administrator, logged in or not, only shows the denial: the
    state, and with it the sequence of plans, is what it was, and nothing
    is stored.  In the earlier panel [deletePlan] has no role check: the
    plans that remain are decided by the confirmation alone. *)
Theorem deletePlan_fail_closed (st : AppState) (id : Z) (confirma : bool) :
  ehAdmin st = false ->
  deletePlan id confirma st = Fim tt st [Alert msg_so_admin_deleta]
  /\ plans (estado (deletePlan id confirma st)) = plans st
  /\ plans (estado (AdminAnterior.deletePlan id confirma st))
     = if confirma then List.filter (fun p => negb (plan_id p =? id)) (plans st) else plans st.
Proof.
  intros H. unfold deletePlan, AdminAnterior.deletePlan, savePlans. run. rewrite H. simpl.
  repeat split. destruct confirma; reflexivity.
Qed.

End AdminProps.

(** The earlier panel deletes a plan for a session without principal. *)
Lemma deletePlan_anterior_counterexample :
  let st := Admin.mkState [] Admin.getDefaultPlans None in
  Admin.ehAdmin st = false
  /\ Admin.plans (Run.estado (AdminAnterior.deletePlan 2 true st)) <> Admin.plans st
  /\ Run.efeitos (AdminAnterior.deletePlan 2 true st)
     = [Admin.LocalSet "plans" (Admin.VPlans (Admin.plans (Run.estado (AdminAnterior.deletePlan 2 true st))))].
Proof.
  split; [reflexivity|]. split; [|reflexivity].
  vm_compute. discriminate.
Qed.

Lemma deletePlan_fail_closed_witness :
  let visitante := Admin.mkUser 7 "ana" "1234" 30 "2024-01-01T00:00:00.000Z" false in
  let st := Admin.mkState [visitante] Admin.getDefaultPlans (Some visitante) in
  Admin.plans (Run.estado (Admin.deletePlan 2 true st)) = Admin.getDefaultPlans.
Proof.
  intros visitante st.
  destruct (deletePlan_fail_closed st 2 true) as (_ & H & _); [reflexivity | exact H].
Defined.

(** *** The allowance chosen in the form *)

Section AllowanceProps.
Import Js Run Planos Admin.

Lemma find_plan_Some sel (ps : list Plan) p :
  In p ps -> sel = pretty (plan_id p) ->
  exists p', List.find (fun p => String.eqb (pretty (plan_id p)) sel) ps = Some p'.
Proof.
  intros Hin ->.
  destruct (List.find _ ps) as [p'|] eqn:F; [eauto|].
  apply (List.find_none _ _ F) in Hin. rewrite String.eqb_refl in Hin. discriminate.
Qed.

Lemma int_or_nonneg n d : 1 <= d -> (forall k, n = Some k -> 0 <= k) -> 1 <= int_or n d.
Proof.
  intros Hd Hn. unfold int_or. destruct n as [k|]; [|exact Hd].
  destruct (Z.eqb_spec k 0); [exact Hd|]. specialize (Hn k eq_refl). lia.
Qed.

(** C9, as the two panels have it.  A selection is one that the plan
    select offers: the custom choice, the empty placeholder, or the id of
    a plan in the list.  In the role-gated panel a custom selection with a
    parsed value of at least 1 yields that value, a custom selection whose
    parsed value is below 1 or is not a number ends in a message, and so
    does the empty placeholder; the result is always a message or at least
    one minute, and a message leaves the state as it was.  In the earlier
    panel the placeholder counts as custom, and a custom value that is
    zero or not a number yields the default of 30 minutes; when the custom
    value is not negative the result is at least one minute. *)
Theorem handleCreateUser_loginTime_total (f : CreateUserForm) (st : AppState) :
  (planSelect f = "custom" \/ planSelect f = ""
   \/ exists p, In p (plans st) /\ planSelect f = pretty (plan_id p)) ->
  (planSelect f = "custom" ->
     forall n, newLoginTime f = Some n -> 1 <= n ->
               handleCreateUser_loginTime f st = inr (Z.max 1 n))
  /\ (planSelect f = "custom" ->
      int_or (newLoginTime f) 0 < 1 -> exists msg, handleCreateUser_loginTime f st = inl msg)
  /\ (planSelect f = "" -> exists msg, handleCreateUser_loginTime f st = inl msg)
  /\ match handleCreateUser_loginTime f st with
     | inl msg => forall t, handleCreateUser f t st = Fim tt st [Texto "createError" msg]
     | inr m => 1 <= m
     end
  /\ (planSelect f = "custom" \/ planSelect f = "" ->
      AdminAnterior.handleCreateUser_loginTime f st = int_or (newLoginTime f) 30)
  /\ ((forall n, newLoginTime f = Some n -> 0 <= n) ->
      1 <= AdminAnterior.handleCreateUser_loginTime f st).
Proof.
  intros Hsel. repeat apply conj.
  - intros Hc n Hn Hge. unfold handleCreateUser_loginTime. rewrite Hc, Hn. simpl.
    destruct (Z.eqb_spec n 0); [lia|]. destruct (Z.ltb_spec n 1); [lia|].
    f_equal. lia.
  - intros Hc Hlt. unfold handleCreateUser_loginTime. rewrite Hc. simpl.
    destruct (Z.ltb_spec (int_or (newLoginTime f) 0) 1); [eauto | lia].
  - intros He. unfold handleCreateUser_loginTime. rewrite He. simpl. eauto.
  - destruct (handleCreateUser_loginTime f st) as [msg|m] eqn:R.
    + intros t. unfold handleCreateUser. run. rewrite R. reflexivity.
    + revert R. unfold handleCreateUser_loginTime.
      destruct (String.eqb_spec (planSelect f) ""); [discriminate|].
      destruct (String.eqb_spec (planSelect f) "custom").
      * destruct (Z.ltb_spec (int_or (newLoginTime f) 0) 1); [discriminate|].
        intros [= <-]. assumption.
      * destruct Hsel as [?|[?|(p & Hin & Hp)]]; try contradiction.
        destruct (find_plan_Some _ _ _ Hin Hp) as [p' ->].
        intros [= <-]. apply convertPlanToMinutes_pos.
  - intros Hc. unfold AdminAnterior.handleCreateUser_loginTime.
    destruct Hc as [-> | ->]; reflexivity.
  - intros Hn. unfold AdminAnterior.handleCreateUser_loginTime.
    destruct (negb (String.eqb (planSelect f) "") && negb (String.eqb (planSelect f) "custom")).
    + destruct (List.find _ (plans st)).
      * apply convertPlanToMinutes_pos.
      * apply int_or_nonneg; [lia | exact Hn].
    + apply int_or_nonneg; [lia | exact Hn].
Qed.

(** The scenario of the specification: an administrator creates a user
    with the weekly plan, and the user gets 10080 minutes. *)
Example handleCreateUser_semanal :
  let t := mkRelogio 1700000000000 "2023-11-14T22:13:20.000Z" in
  let admin := mkUser 1 "admin" "admin123" 60 "2023-11-14T22:13:20.000Z" true in
  let st := mkState [admin] getDefaultPlans (Some admin) in
  users (estado (handleCreateUser (mkForm " maria " "segredo" "3" None) t st))
  = [admin; mkUser 1700000000000 "maria" "segredo" 10080 "2023-11-14T22:13:20.000Z" false].
Proof. reflexivity. Qed.

(** In the role-gated panel every option of the plan select is such a
    selection, and so is every option of the earlier panel. *)
Lemma populatePlanSelect_selection (st : AppState) sel :
  In sel (populatePlanSelect st) \/ In sel (AdminAnterior.populatePlanSelect st) ->
  sel = "custom" \/ sel = "" \/ exists p, In p (plans st) /\ sel = pretty (plan_id p).
Proof.
  unfold populatePlanSelect, AdminAnterior.populatePlanSelect. simpl.
  rewrite !in_app_iff, !in_map_iff. simpl.
  intros [[H|[H|H]] | [H|[H|H]]]; try (destruct H as (p & <- & Hin)); try destruct H as [H|[]];
    eauto 6.
Qed.

End AllowanceProps.

(** In the earlier panel a custom value of zero is not refused: the user
    is created with the default of 30 minutes. *)
Lemma handleCreateUser_anterior_counterexample :
  let t := Admin.mkRelogio 1700000000000 "2023-11-14T22:13:20.000Z" in
  let f := Admin.mkForm "maria" "segredo" "custom" (Some 0) in
  let st := Admin.mkState (Admin.getDefaultUsers t) Admin.getDefaultPlans None in
  AdminAnterior.handleCreateUser_loginTime f st = 30
  /\ Admin.users (Run.estado (AdminAnterior.handleCreateUser f t st))
     = (Admin.getDefaultUsers t
        ++ [Admin.mkUser 1700000000000 "maria" "segredo" 30 "2023-11-14T22:13:20.000Z" false])%list
  /\ forall msg, ~ In (Admin.Texto "createError" msg)
                      (Run.efeitos (AdminAnterior.handleCreateUser f t st)).
Proof.
  split; [reflexivity|]. split; [reflexivity|].
  intros msg. vm_compute. intros [H|[H|[]]]; discriminate.
Qed.

Lemma handleCreateUser_loginTime_total_witness :
  let f := Admin.mkForm "maria" "segredo" "3" None in
  let st := Admin.mkState [] Admin.getDefaultPlans None in
  1 <= AdminAnterior.handleCreateUser_loginTime f st
  /\ Admin.handleCreateUser_loginTime f st = inr 10080.
Proof.
  intros f st.
  assert (Hsel : Admin.planSelect f = "custom" \/ Admin.planSelect f = ""
                 \/ exists p, In p (Admin.plans st) /\ Admin.planSelect f = pretty (Planos.plan_id p)).
  { right. right. exists (Planos.mkPlan 3 "Semanal" 1 "weeks"). split; [|reflexivity].
    simpl. auto. }
  destruct (handleCreateUser_loginTime_total f st Hsel) as (_ & _ & _ & _ & _ & H).
  split; [apply H; intros n Hn; discriminate | reflexivity].
Defined.

(** *** Creating users *)

Section UsuariosProps.
Import Js Run Admin Vistas.

Lemma existsb_username (us : list User) name :
  existsb (fun u => String.eqb (username u) name) us = true <-> In name (map username us).
Proof.
  rewrite existsb_exists, in_map_iff. split.
  - intros (u & Hin & He). apply String.eqb_eq in He. eauto.
  - intros (u & He & Hin). exists u. split; [exact Hin | apply String.eqb_eq; exact He].
Qed.

Lemma NoDup_snoc_fresh (l : list string) x : NoDup l -> ~ In x l -> NoDup (l ++ [x]).
Proof.
  intros Hl Hx. apply NoDup_app. split; [exact Hl|]. split.
  - intros y Hy Hyx. apply list_elem_of_In in Hy. apply list_elem_of_In in Hyx.
    destruct Hyx as [<-|[]]. contradiction.
  - apply NoDup_singleton.
Qed.

(** What the shared tail of [handleCreateUser] can do: refuse with one
    message and no change, or append one user whose name is new. *)
Lemma criar_usuario_cases name pw lt t st :
  (estado (criar_usuario name pw lt t st) = st
   /\ exists msg, efeitos (criar_usuario name pw lt t st) = [Texto "createError" msg])
  \/ (~ In name (usernames st)
      /\ estado (criar_usuario name pw lt t st)
         = set_users (users st ++ [mkUser (Date_now t) name pw lt (toISOString t) false]) st).
Proof.
  unfold criar_usuario, saveUsers. run.
  destruct (length name <? 3); [left; simpl; eauto|].
  destruct (length pw <? 4); [left; simpl; eauto|].
  destruct (existsb _ (users st)) eqn:Ex; [left; simpl; eauto|].
  right. simpl. split; [|reflexivity].
  intros Hin. apply existsb_username in Hin. unfold usernames in Hin. congruence.
Qed.

Lemma criar_usuario_duplicate name pw lt t st :
  In name (usernames st) ->
  estado (criar_usuario name pw lt t st) = st
  /\ exists msg, efeitos (criar_usuario name pw lt t st) = [Texto "createError" msg].
Proof.
  intros Hin. destruct (criar_usuario_cases name pw lt t st) as [H|[Hn _]];
    [exact H | contradiction].
Qed.

Lemma criar_usuario_NoDup name pw lt t st :
  NoDup (usernames st) -> NoDup (usernames (estado (criar_usuario name pw lt t st))).
Proof.
  intros Hnd. destruct (criar_usuario_cases name pw lt t st) as [[-> _]|[Hn ->]];
    [exact Hnd|].
  unfold usernames, set_users. simpl. rewrite map_app. simpl.
  apply NoDup_snoc_fresh; assumption.
Qed.

Lemma handleCreateUser_cases f t st :
  (estado (handleCreateUser f t st) = st
   /\ exists msg, efeitos (handleCreateUser f t st) = [Texto "createError" msg])
  \/ exists lt, handleCreateUser f t st = criar_usuario (trim (newUsername f)) (newPassword f) lt t st.
Proof.
  unfold handleCreateUser. rewrite get_bind.
  destruct (handleCreateUser_loginTime f st) as [msg|lt]; [left; simpl; eauto|].
  destruct (ehAdmin st); simpl.
  - right. exists lt. reflexivity.
  - left. eauto.
Qed.

Lemma handleCreateUser_NoDup f t st :
  NoDup (usernames st) -> NoDup (usernames (estado (handleCreateUser f t st))).
Proof.
  intros Hnd. destruct (handleCreateUser_cases f t st) as [[-> _]|[lt ->]];
    [exact Hnd | apply criar_usuario_NoDup; exact Hnd].
Qed.

Lemma em_sequencia_invariant {S E} (P : S -> Prop) (hs : list (M S E unit)) :
  (forall h s, In h hs -> P s -> P (estado (h s))) ->
  forall s, P s -> P (em_sequencia hs s).
Proof.
  induction hs as [|h r IH]; intros Hstep s Hs; simpl; [exact Hs|].
  apply IH.
  - intros h' s' Hin. apply Hstep. right. exact Hin.
  - apply Hstep; [left; reflexivity | exact Hs].
Qed.

(** The same for registration in the shop, on e-mail addresses. *)
Lemma existsb_email (us : list Loja.Usuario) e :
  existsb (fun u => String.eqb (Loja.usuario_email u) e) us = true
  <-> In e (map Loja.usuario_email us).
Proof.
  rewrite existsb_exists, in_map_iff. split.
  - intros (u & Hin & He). apply String.eqb_eq in He. eauto.
  - intros (u & He & Hin). exists u. split; [exact Hin | apply String.eqb_eq; exact He].
Qed.

Lemma handleRegistroForm_cases f t st :
  (estado (Loja.handleRegistroForm f t st) = st
   /\ exists msg, efeitos (Loja.handleRegistroForm f t st)
                  = [Loja.Mensagem msg "error" (Some "registroMsg")])
  \/ (~ In (Loja.sanitizar (Loja.registroEmail f)) (emails st)
      /\ exists novo, Loja.usuario_email novo = Loja.sanitizar (Loja.registroEmail f)
           /\ Loja.usuarios (estado (Loja.handleRegistroForm f t st))
              = (Loja.usuarios st ++ [novo])%list).
Proof.
  unfold Loja.handleRegistroForm, Loja.salvarDados, Loja.atualizarUI. run.
  destruct (_ || _); [left; simpl; eauto|].
  destruct (negb (Loja.validarEmail _)); [left; simpl; eauto|].
  destruct (negb (Loja.validarSenha _)); [left; simpl; eauto|].
  destruct (negb (String.eqb _ _)); [left; simpl; eauto|].
  destruct (existsb _ (Loja.usuarios st)) eqn:Ex; [left; simpl; eauto|].
  right. split.
  - intros Hin. apply existsb_email in Hin. unfold emails in Hin. congruence.
  - simpl. eexists. split; [|reflexivity]. reflexivity.
Qed.

Lemma handleRegistroForm_NoDup f t st :
  NoDup (emails st) -> NoDup (emails (estado (Loja.handleRegistroForm f t st))).
Proof.
  intros Hnd. destruct (handleRegistroForm_cases f t st) as [[-> _]|(Hn & novo & He & Hu)];
    [exact Hnd|].
  unfold emails. rewrite Hu, map_app. simpl. rewrite He.
  apply NoDup_snoc_fresh; assumption.
Qed.

(** C6.  From a state whose user names are pairwise distinct, any sequence
    of [handleCreateUser] calls, with any forms, ends in a state whose user
    names are pairwise distinct; a call whose (trimmed) name is already
    present, compared exactly, changes nothing and shows one error
    message.  The same holds for registrations in the shop, where the
    e-mail address is the name. *)
Theorem usernames_unique :
  (forall (calls : list (CreateUserForm * Relogio)) (st : AppState),
     NoDup (usernames st) ->
     NoDup (usernames (em_sequencia (map (fun c => handleCreateUser (fst c) (snd c)) calls) st)))
  /\ (forall f t (st : AppState),
        In (trim (newUsername f)) (usernames st) ->
        estado (handleCreateUser f t st) = st
        /\ exists msg, efeitos (handleCreateUser f t st) = [Texto "createError" msg])
  /\ (forall (calls : list (Loja.RegistroForm * Loja.Relogio)) (st : Loja.AppState),
        NoDup (emails st) ->
        NoDup (emails (em_sequencia
                         (map (fun c => Loja.handleRegistroForm (fst c) (snd c)) calls) st)))
  /\ (forall f t (st : Loja.AppState),
        In (Loja.sanitizar (Loja.registroEmail f)) (emails st) ->
        estado (Loja.handleRegistroForm f t st) = st
        /\ exists msg, efeitos (Loja.handleRegistroForm f t st)
                       = [Loja.Mensagem msg "error" (Some "registroMsg")]).
Proof.
  repeat apply conj.
  - intros calls st. apply (em_sequencia_invariant (fun s => NoDup (usernames s))).
    intros h s Hin. apply in_map_iff in Hin. destruct Hin as (c & <- & _).
    apply handleCreateUser_NoDup.
  - intros f t st Hin. destruct (handleCreateUser_cases f t st) as [H|[lt ->]]; [exact H|].
    apply criar_usuario_duplicate. exact Hin.
  - intros calls st. apply (em_sequencia_invariant (fun s => NoDup (emails s))).
    intros h s Hin. apply in_map_iff in Hin. destruct Hin as (c & <- & _).
    apply handleRegistroForm_NoDup.
  - intros f t st Hin. destruct (handleRegistroForm_cases f t st) as [H|[Hn _]];
      [exact H | contradiction].
Qed.

(** With the guard and the other checks passed, the message is the one
    for a name that exists. *)
Lemma handleCreateUser_duplicate_message f t st lt :
  handleCreateUser_loginTime f st = inr lt -> ehAdmin st = true ->
  (length (trim (newUsername f)) <? 3) = false -> (length (newPassword f) <? 4) = false ->
  In (trim (newUsername f)) (usernames st) ->
  handleCreateUser f t st = Fim tt st [Texto "createError" msg_ja_existe].
Proof.
  intros Hlt Hadm Hu Hp Hin. unfold handleCreateUser, criar_usuario. run.
  rewrite Hlt, Hadm. simpl. rewrite Hu, Hp.
  apply existsb_username in Hin. unfold usernames in Hin. rewrite Hin. reflexivity.
Qed.

(** The two earlier panels create users through the same checks. *)
Lemma handleCreateUser_earlier_NoDup f t st :
  NoDup (usernames st) ->
  NoDup (usernames (estado (AdminAnterior.handleCreateUser f t st)))
  /\ NoDup (usernames (estado (AdminPrimeiro.handleCreateUser f t st))).
Proof.
  intros Hnd. split.
  - unfold AdminAnterior.handleCreateUser. rewrite get_bind.
    apply criar_usuario_NoDup. exact Hnd.
  - unfold AdminPrimeiro.handleCreateUser. apply criar_usuario_NoDup. exact Hnd.
Qed.

End UsuariosProps.

Lemma usernames_unique_witness :
  let t := Admin.mkRelogio 1700000000000 "2023-11-14T22:13:20.000Z" in
  let admin := Admin.mkUser 1 "admin" "admin123" 60 "2023-11-14T22:13:20.000Z" true in
  let st := Admin.mkState [admin] Admin.getDefaultPlans (Some admin) in
  let f1 := Admin.mkForm " maria " "segredo" "3" None in
  let f2 := Admin.mkForm "maria" "outra senha" "custom" (Some 45) in
  NoDup (Vistas.usernames (Vistas.em_sequencia
           (map (fun c => Admin.handleCreateUser (fst c) (snd c)) [(f1, t); (f2, t)]) st))
  /\ Vistas.usernames (Vistas.em_sequencia
           (map (fun c => Admin.handleCreateUser (fst c) (snd c)) [(f1, t); (f2, t)]) st)
     = ["admin"; "maria"].
Proof.
  intros t admin st f1 f2. split; [|reflexivity].
  destruct usernames_unique as (H & _). apply H.
  unfold Vistas.usernames. simpl. apply NoDup_cons. split; [|apply NoDup_nil; exact I].
  intros Hin. apply list_elem_of_In in Hin. destruct Hin.
Defined.

(** ** Loading the stored documents *)

Section CargaProps.
Import Js Run Json.

Lemma inicializarDadosParaao_run st :
  Loja.inicializarDadosParaao st
  = Fim tt Loja.dadosPadrao [Loja.Gravou Loja.STORAGE_KEY (Loja.DocEstado Loja.dadosPadrao)].
Proof. reflexivity. Qed.





End CargaProps.



(** ** The checkout payload *)

Section ValidacaoProps.
Import Js Run Loja Vistas.

Lemma test_times_digit n s : test (times n is_digit) s = n_digitos n s.
Proof.
  unfold n_digitos, times. revert s.
  induction n as [|n IH]; intros [|a r]; simpl; try reflexivity.
  - rewrite IH. destruct (is_digit a); simpl; [reflexivity|].
    rewrite andb_false_r. reflexivity.
Qed.

Lemma test_mm_aa s :
  test (times 2 is_digit ++ [One (is_char "/")] ++ times 2 is_digit) s = mm_aa s.
Proof.
  unfold mm_aa, times, is_char. simpl.
  destruct s as [|m1 [|m2 [|sep [|y1 [|y2 [|x r]]]]]]; simpl;
    rewrite ?andb_false_r, ?andb_true_r, ?andb_assoc; reflexivity.
Qed.

Lemma em_branco_empty v : v = "" -> em_branco v = true.
Proof. intros ->. reflexivity. Qed.

(** The validation in terms of the ordered checks. *)
Lemma validarDadosCompra_first_fail d :
  validarDadosCompra d
  = match primeira_falha verificacoes d with
    | Some msg => invalido msg
    | None => mkValidacao true None
    end.
Proof.
  unfold validarDadosCompra. rewrite test_times_digit, test_mm_aa, test_times_digit.
  unfold verificacoes, requiredFields. simpl.
  repeat (match goal with |- context [em_branco ?v] => destruct (em_branco v) end;
          simpl; [reflexivity|]).
  destruct (validarEmail (dc_email d)); simpl; [|reflexivity].
  destruct (n_digitos 16 _); simpl; [|reflexivity].
  destruct (mm_aa _); simpl; [|reflexivity].
  destruct (n_digitos 3 _); reflexivity.
Qed.

Lemma primeira_falha_None vs d :
  primeira_falha vs d = None <-> forall v, In v vs -> fst v d = true.
Proof.
  induction vs as [|[ok msg] r IH]; simpl.
  - split; [intros _ v [] | reflexivity].
  - destruct (ok d) eqn:Hok.
    + rewrite IH. split.
      * intros H v [<-|Hin]; [exact Hok | apply H; exact Hin].
      * intros H v Hin. apply H. right. exact Hin.
    + split; [discriminate|]. intros H. specialize (H (ok, msg) (or_introl eq_refl)).
      simpl in H. congruence.
Qed.

(** The message is that of a failing check before which every check
    passes. *)
Lemma primeira_falha_Some vs d msg :
  primeira_falha vs d = Some msg ->
  exists antes ok depois,
    vs = antes ++ (ok, msg) :: depois /\ ok d = false /\ forall v, In v antes -> fst v d = true.
Proof.
  induction vs as [|[ok m] r IH]; simpl; [discriminate|].
  destruct (ok d) eqn:Hok.
  - intros H. destruct (IH H) as (antes & ok' & depois & -> & Hf & Hb).
    exists ((ok, m) :: antes), ok', depois. repeat split; [exact Hf|].
    intros v [<-|Hin]; [exact Hok | apply Hb; exact Hin].
  - intros [= ->]. exists [], ok, r. repeat split; [exact Hok|]. intros v [].
Qed.

(** C8.  [validarDadosCompra] accepts a payload only when every required
    field is non-empty, the card number has exactly 16 digits once white
    space is removed, the expiry has the shape of two digits, a slash and
    two digits, and the CVV has exactly 3 digits; when one of these fails
    the payload is refused; and a refusal carries one message, that of the
    first check, in the order of the code, that fails.  [handleCheckoutForm]
    applies it to the payload built from the form and on refusal shows
    that message and changes nothing. *)
Theorem validarDadosCompra_first_fail_wins :
  (forall d, valido (validarDadosCompra d) = true ->
     (forall campo, In campo requiredFields -> snd campo d <> "")
     /\ n_digitos 16 (strip_spaces (dc_cartao d)) = true
     /\ mm_aa (dc_validade d) = true
     /\ n_digitos 3 (dc_cvv d) = true)
  /\ (forall d,
        (exists campo, In campo requiredFields /\ snd campo d = "")
        \/ n_digitos 16 (strip_spaces (dc_cartao d)) = false
        \/ mm_aa (dc_validade d) = false
        \/ n_digitos 3 (dc_cvv d) = false ->
        valido (validarDadosCompra d) = false)
  /\ (forall d, valido (validarDadosCompra d) = false ->
        exists antes ok msg depois,
          verificacoes = antes ++ (ok, msg) :: depois
          /\ ok d = false
          /\ (forall v, In v antes -> fst v d = true)
          /\ validarDadosCompra d = mkValidacao false (Some msg))
  /\ (forall f random t st,
        valido (validarDadosCompra (dadosDoFormulario f)) = false ->
        exists msg,
          erro (validarDadosCompra (dadosDoFormulario f)) = Some msg
          /\ handleCheckoutForm f random t st
             = Fim tt st [Mensagem msg "error" (Some "checkoutMsg")]).
Proof.
  assert (Hacc : forall d, valido (validarDadosCompra d) = true ->
                           forall v, In v verificacoes -> fst v d = true).
  { intros d Hv. apply primeira_falha_None. rewrite validarDadosCompra_first_fail in Hv.
    destruct (primeira_falha verificacoes d); [discriminate | reflexivity]. }
  assert (Hcampo : forall d, valido (validarDadosCompra d) = true ->
                   forall campo, In campo requiredFields -> snd campo d <> "").
  { intros d Hv campo Hin He.
    assert (Hc : negb (em_branco (snd campo d)) = true).
    { apply (Hacc d Hv (fun d => negb (em_branco (snd campo d)), msg_obrigatorio (fst campo))).
      unfold verificacoes. apply in_or_app. left.
      apply (in_map (fun campo => (fun d => negb (em_branco (snd campo d)),
                                   msg_obrigatorio (fst campo)))). exact Hin. }
    rewrite (em_branco_empty _ He) in Hc. discriminate. }
  assert (Hrest : forall d, valido (validarDadosCompra d) = true ->
                  n_digitos 16 (strip_spaces (dc_cartao d)) = true
                  /\ mm_aa (dc_validade d) = true /\ n_digitos 3 (dc_cvv d) = true).
  { intros d Hv. repeat split.
    - apply (Hacc d Hv (fun d => n_digitos 16 (strip_spaces (dc_cartao d)), msg_cartao_invalido)).
      unfold verificacoes. apply in_or_app. right. simpl. auto.
    - apply (Hacc d Hv (fun d => mm_aa (dc_validade d), msg_validade_invalida)).
      unfold verificacoes. apply in_or_app. right. simpl. auto.
    - apply (Hacc d Hv (fun d => n_digitos 3 (dc_cvv d), msg_cvv_invalido)).
      unfold verificacoes. apply in_or_app. right. simpl. auto. }
  repeat apply conj.
  - intros d Hv. split; [apply Hcampo; exact Hv | apply Hrest; exact Hv].
  - intros d Hviol. destruct (valido (validarDadosCompra d)) eqn:Hv; [|reflexivity].
    destruct (Hrest d Hv) as (H1 & H2 & H3).
    destruct Hviol as [(campo & Hin & He) | [H|[H|H]]]; try congruence.
    exfalso. exact (Hcampo d Hv campo Hin He).
  - intros d Hv. rewrite validarDadosCompra_first_fail in Hv |- *.
    destruct (primeira_falha verificacoes d) as [msg|] eqn:F; [|discriminate].
    destruct (primeira_falha_Some _ _ _ F) as (antes & ok & depois & E & Hf & Hb).
    exists antes, ok, msg, depois. repeat split; assumption.
  - intros f random t st Hv. unfold handleCheckoutForm. rewrite Hv. simpl.
    rewrite validarDadosCompra_first_fail in Hv |- *.
    destruct (primeira_falha verificacoes (dadosDoFormulario f)) as [msg|]; [|discriminate].
    exists msg. split; reflexivity.
Qed.

Example validarDadosCompra_ordem :
  let bom := mkDados "Ana" "ana@example.com" "11 5555-0000" "Rua A, 1" "Recife" "50000-000"
                     "4111 1111 1111 1111" "12/29" "123" in
  validarDadosCompra bom = mkValidacao true None
  /\ validarDadosCompra (mkDados "Ana" "ana@example.com" "11 5555-0000" "Rua A, 1" "  " "50000-000"
                                 "4111" "1/29" "12")
     = invalido (msg_obrigatorio "cidade")
  /\ validarDadosCompra (mkDados "Ana" "ana@example.com" "11 5555-0000" "Rua A, 1" "Recife"
                                 "50000-000" "4111-1111-1111-1111" "1/29" "12")
     = invalido msg_cartao_invalido
  /\ valido (validarDadosCompra (dadosDoFormulario
       (mkDados "Ana" "ana@example.com" "11 5555-0000" "Rua A, 1" "Recife" "50000-000"
                "4111-1111-1111-1111" "12/29" "123"))) = true.
Proof. repeat split; vm_compute; reflexivity. Qed.

End ValidacaoProps.

Lemma validarDadosCompra_first_fail_wins_witness :
  let d := Loja.mkDados "Ana" "ana@example.com" "11 5555-0000" "Rua A, 1" "Recife" "50000-000"
                        "4111 1111 1111 111" "12/29" "123" in
  Loja.valido (Loja.validarDadosCompra d) = false.
Proof.
  intros d. destruct validarDadosCompra_first_fail_wins as (_ & H & _).
  apply H. right. left. vm_compute. reflexivity.
Defined.

(** ** The stock *)

Section EstoqueProps.
Import Js Run Loja Vistas.

Lemma find_item_none x (l : list Item) :
  ~ In x (map item_id l) -> List.find (fun i => String.eqb (item_id i) x) l = None.
Proof.
  induction l as [|i r IH]; simpl; [reflexivity|]. intros Hn.
  destruct (String.eqb_spec (item_id i) x) as [E|_]; [exfalso; auto|].
  apply IH. intros H. apply Hn. right. exact H.
Qed.

Lemma find_item_unique A (l : list Item) :
  NoDup (map item_id l) -> In A l ->
  List.find (fun i => String.eqb (item_id i) (item_id A)) l = Some A.
Proof.
  induction l as [|i r IH]; simpl; [intros _ []|].
  intros Hnd Hin. apply NoDup_cons in Hnd. destruct Hnd as [Hni Hnd].
  rewrite list_elem_of_In in Hni.
  destruct Hin as [->|Hin].
  - rewrite String.eqb_refl. reflexivity.
  - destruct (String.eqb_spec (item_id i) (item_id A)) as [E|_].
    + exfalso. apply Hni. rewrite E. apply in_map. exact Hin.
    + apply IH; assumption.
Qed.

Lemma desligar_absent x (l : list Item) :
  ~ In x (map item_id l) -> map (desligar x) l = l.
Proof.
  induction l as [|i r IH]; simpl; [reflexivity|]. intros Hn. unfold desligar at 1.
  destruct (String.eqb_spec (item_id i) x) as [E|_]; [exfalso; auto|].
  f_equal. apply IH. intros H. apply Hn. right. exact H.
Qed.

Lemma marcarItem_desligar x (l : list Item) :
  NoDup (map item_id l) -> marcarItem x l = map (desligar x) l.
Proof.
  induction l as [|i r IH]; simpl; [reflexivity|].
  intros Hnd. apply NoDup_cons in Hnd. destruct Hnd as [Hni Hnd].
  rewrite list_elem_of_In in Hni. unfold desligar at 1.
  destruct (String.eqb_spec (item_id i) x) as [E|_].
  - f_equal. symmetry. apply desligar_absent. rewrite <- E. exact Hni.
  - f_equal. apply IH. exact Hnd.
Qed.

Lemma desligarEm_absent x (ps : list Produtor) :
  ~ In x (map item_id (itensDoEstoque ps)) -> desligarEm x ps = ps.
Proof.
  unfold desligarEm, itensDoEstoque.
  induction ps as [|p r IH]; simpl; [reflexivity|]. rewrite map_app, in_app_iff. intros Hn.
  f_equal.
  - rewrite desligar_absent by tauto. destruct p; reflexivity.
  - apply IH. tauto.
Qed.

Lemma item_id_desligar x i : item_id (desligar x i) = item_id i.
Proof. unfold desligar. destruct (String.eqb _ _); reflexivity. Qed.

Lemma item_produtorId_desligar x i : item_produtorId (desligar x i) = item_produtorId i.
Proof. unfold desligar. destruct (String.eqb _ _); reflexivity. Qed.

Lemma itensDoEstoque_desligarEm x ps :
  itensDoEstoque (desligarEm x ps) = map (desligar x) (itensDoEstoque ps).
Proof.
  unfold itensDoEstoque, desligarEm.
  induction ps as [|p r IH]; simpl; [reflexivity|]. rewrite map_app, IH. reflexivity.
Qed.

Lemma ids_desligarEm x ps :
  map produtor_id (desligarEm x ps) = map produtor_id ps
  /\ map item_id (itensDoEstoque (desligarEm x ps)) = map item_id (itensDoEstoque ps).
Proof.
  split.
  - unfold desligarEm. rewrite map_map. reflexivity.
  - rewrite itensDoEstoque_desligarEm, map_map. apply map_ext. apply item_id_desligar.
Qed.

Lemma estoque_ok_desligarEm x ps : estoque_ok ps -> estoque_ok (desligarEm x ps).
Proof.
  intros [Hp Hi Hd]. destruct (ids_desligarEm x ps) as [Ep Ei]. split.
  - rewrite Ep. exact Hp.
  - rewrite Ei. exact Hi.
  - intros p' i' Hp' Hi'. unfold desligarEm in Hp'. apply in_map_iff in Hp'.
    destruct Hp' as (p & <- & Hin). simpl in Hi' |- *. apply in_map_iff in Hi'.
    destruct Hi' as (i & <- & Hini). rewrite item_produtorId_desligar. apply Hd; assumption.
Qed.

Lemma estoque_ok_tail p r : estoque_ok (p :: r) -> estoque_ok r.
Proof.
  intros [Hp Hi Hd]. split.
  - simpl in Hp. apply NoDup_cons in Hp. tauto.
  - unfold itensDoEstoque in Hi |- *. simpl in Hi. rewrite map_app in Hi.
    apply NoDup_app in Hi. tauto.
  - intros q i Hq. apply Hd. right. exact Hq.
Qed.

(** An item listed further down has an id that the head producer lacks,
    and the other way round. *)
Lemma ids_disjoint p r A :
  NoDup (map item_id (itensDoEstoque (p :: r))) ->
  (In A (itensDoEstoque r) -> ~ In (item_id A) (map item_id (listaDeItens p)))
  /\ (In A (listaDeItens p) -> ~ In (item_id A) (map item_id (itensDoEstoque r))).
Proof.
  unfold itensDoEstoque. simpl. rewrite map_app. intros Hnd.
  apply NoDup_app in Hnd. destruct Hnd as (_ & Hdis & _). split.
  - intros HA Hin. apply (Hdis (item_id A)); apply list_elem_of_In; [exact Hin|].
    apply in_map. exact HA.
  - intros HA Hin. apply (Hdis (item_id A)); apply list_elem_of_In; [|exact Hin].
    apply in_map. exact HA.
Qed.

Lemma In_itensDoEstoque P A ps : In P ps -> In A (listaDeItens P) -> In A (itensDoEstoque ps).
Proof. intros HP HA. unfold itensDoEstoque. apply in_flat_map. eauto. Qed.

(** The search of [adicionarAoCarrinho] finds an available item of a
    well-formed stock, with the name of its producer. *)
Lemma buscarItem_found ps P A :
  NoDup (map item_id (itensDoEstoque ps)) ->
  In P ps -> In A (listaDeItens P) -> item_disponivel A = true ->
  buscarItem ps (item_id A) = Some (mkLinha A (produtor_nome P)).
Proof.
  induction ps as [|p r IH]; simpl; [intros _ []|].
  intros Hnd HP HA Hd. destruct (ids_disjoint p r A Hnd) as [Hr Hp].
  assert (Hndp : NoDup (map item_id (listaDeItens p)) /\ NoDup (map item_id (itensDoEstoque r))).
  { unfold itensDoEstoque in Hnd |- *. simpl in Hnd. rewrite map_app in Hnd.
    apply NoDup_app in Hnd. tauto. }
  destruct HP as [->|HP].
  - rewrite (find_item_unique A) by tauto. rewrite Hd. reflexivity.
  - rewrite find_item_none by (apply Hr; eapply In_itensDoEstoque; eassumption).
    apply IH; tauto.
Qed.

(** The stock update of [finalizarCompraComSucesso] for one line flags
    the item of that id and nothing else. *)
Lemma marcarNoProdutor_desligarEm ps P A :
  estoque_ok ps -> In P ps -> In A (listaDeItens P) ->
  marcarNoProdutor (item_produtorId A) (item_id A) ps = desligarEm (item_id A) ps.
Proof.
  intros Hok HP HA. rewrite (dono_registrado _ Hok P A HP HA).
  induction ps as [|p r IH]; simpl; [destruct HP|].
  destruct (ids_disjoint p r A (itens_distintos _ Hok)) as [Hr Hp].
  assert (Hndp : NoDup (map item_id (listaDeItens p))).
  { pose proof (itens_distintos _ Hok) as Hnd. unfold itensDoEstoque in Hnd. simpl in Hnd.
    rewrite map_app in Hnd. apply NoDup_app in Hnd. tauto. }
  pose proof (produtores_distintos _ Hok) as Hpd. simpl in Hpd.
  apply NoDup_cons in Hpd. destruct Hpd as [Hfresh _]. rewrite list_elem_of_In in Hfresh.
  destruct HP as [->|HP].
  - rewrite String.eqb_refl. f_equal.
    + f_equal. apply marcarItem_desligar. exact Hndp.
    + symmetry. apply desligarEm_absent. apply Hp. exact HA.
  - destruct (String.eqb_spec (produtor_id p) (produtor_id P)) as [E|_].
    + exfalso. apply Hfresh. rewrite E. apply in_map. exact HP.
    + f_equal.
      * rewrite desligar_absent by (apply Hr; eapply In_itensDoEstoque; eassumption).
        destruct p; reflexivity.
      * apply IH; [eapply estoque_ok_tail; exact Hok | exact HP].
Qed.

Lemma In_desligarEm x ps P A :
  In P ps -> In A (listaDeItens P) ->
  exists P', In P' (desligarEm x ps) /\ In (desligar x A) (listaDeItens P').
Proof.
  intros HP HA. eexists. split.
  - unfold desligarEm. apply in_map. exact HP.
  - simpl. apply in_map. exact HA.
Qed.

(** *** The stock stays well formed *)

Lemma sublist_map {X Y} (g : X -> Y) l1 l2 : sublist l1 l2 -> sublist (map g l1) (map g l2).
Proof. induction 1; simpl; constructor; assumption. Qed.

Lemma sublist_List_filter {X} (keep : X -> bool) l : sublist (List.filter keep l) l.
Proof.
  induction l as [|x r IH]; simpl; [constructor|].
  destruct (keep x); constructor; exact IH.
Qed.

Lemma sublist_flat_map {X Y} (g : X -> list Y) l1 l2 :
  sublist l1 l2 -> sublist (flat_map g l1) (flat_map g l2).
Proof.
  induction 1; simpl.
  - constructor.
  - apply sublist_app; [reflexivity | assumption].
  - apply sublist_inserts_l. assumption.
Qed.

Lemma estoque_ok_nil : estoque_ok [].
Proof. split; simpl; [constructor | constructor | intros p i []]. Qed.

Lemma estoque_ok_novo_produtor ps id nome email :
  estoque_ok ps -> ~ In id (map produtor_id ps) ->
  estoque_ok (ps ++ [mkProdutor id nome email []]).
Proof.
  intros [Hp Hi Hd] Hn. split.
  - rewrite map_app. simpl. apply NoDup_app. split; [exact Hp|]. split.
    + intros x Hx Hx'. apply list_elem_of_In in Hx. apply list_elem_of_In in Hx'.
      destruct Hx' as [<-|[]]. contradiction.
    + apply NoDup_singleton.
  - unfold itensDoEstoque. rewrite flat_map_app. simpl. rewrite app_nil_r. exact Hi.
  - intros p i Hin. apply in_app_iff in Hin. destruct Hin as [Hin|[<-|[]]].
    + apply Hd. exact Hin.
    + intros [].
Qed.

Lemma estoque_ok_filter keep ps : estoque_ok ps -> estoque_ok (List.filter keep ps).
Proof.
  intros [Hp Hi Hd]. pose proof (sublist_List_filter keep ps) as Hs. split.
  - eapply sublist_NoDup; [exact Hp | apply sublist_map; exact Hs].
  - eapply sublist_NoDup; [exact Hi | apply sublist_map, sublist_flat_map; exact Hs].
  - intros p i Hin. apply filter_In in Hin. apply Hd. tauto.
Qed.

Lemma removerItemDe_shape pid iid ps :
  map produtor_id (removerItemDe pid iid ps) = map produtor_id ps
  /\ sublist (itensDoEstoque (removerItemDe pid iid ps)) (itensDoEstoque ps)
  /\ forall p' i, In p' (removerItemDe pid iid ps) -> In i (listaDeItens p') ->
       exists p, In p ps /\ produtor_id p' = produtor_id p /\ In i (listaDeItens p).
Proof.
  unfold itensDoEstoque.
  induction ps as [|p r (IH1 & IH2 & IH3)]; simpl.
  - repeat split; [constructor | intros p' i []].
  - destruct (String.eqb (produtor_id p) pid); simpl.
    + repeat split.
      * apply sublist_app; [apply sublist_List_filter | reflexivity].
      * intros p' i [<-|Hin] Hi; simpl in *.
        -- exists p. apply filter_In in Hi. tauto.
        -- exists p'. auto.
    + repeat split.
      * f_equal. exact IH1.
      * apply sublist_app; [reflexivity | exact IH2].
      * intros p' i [<-|Hin] Hi.
        -- exists p. auto.
        -- destruct (IH3 p' i Hin Hi) as (q & Hq & E & Hiq). exists q. auto.
Qed.

Lemma estoque_ok_removerItemDe pid iid ps :
  estoque_ok ps -> estoque_ok (removerItemDe pid iid ps).
Proof.
  intros [Hp Hi Hd]. destruct (removerItemDe_shape pid iid ps) as (E & Hs & Ho). split.
  - rewrite E. exact Hp.
  - eapply sublist_NoDup; [exact Hi | apply sublist_map; exact Hs].
  - intros p' i Hp' Hi'. destruct (Ho p' i Hp' Hi') as (q & Hq & -> & Hiq).
    apply Hd; assumption.
Qed.

Lemma marcarItem_shape x l :
  map item_id (marcarItem x l) = map item_id l
  /\ map item_produtorId (marcarItem x l) = map item_produtorId l.
Proof.
  induction l as [|i r [IH1 IH2]]; simpl; [split; reflexivity|].
  destruct (String.eqb (item_id i) x); simpl; split; try reflexivity; f_equal; assumption.
Qed.

(** A stock is well formed when its ids are: the ids of the producers,
    and for each producer the ids of its items and the owners they
    record. *)
Lemma estoque_ok_same_ids ps ps' :
  Forall2 (fun p p' => produtor_id p' = produtor_id p
                       /\ map item_id (listaDeItens p') = map item_id (listaDeItens p)
                       /\ map item_produtorId (listaDeItens p')
                          = map item_produtorId (listaDeItens p)) ps ps' ->
  estoque_ok ps -> estoque_ok ps'.
Proof.
  intros HF.
  assert (E1 : map produtor_id ps' = map produtor_id ps).
  { induction HF as [|p p' r r' (E & _ & _) _ IH]; simpl; [reflexivity|]. f_equal; assumption. }
  assert (E2 : map item_id (itensDoEstoque ps') = map item_id (itensDoEstoque ps)).
  { clear E1. unfold itensDoEstoque.
    induction HF as [|p p' r r' (_ & E & _) _ IH]; simpl; [reflexivity|].
    rewrite !map_app. f_equal; assumption. }
  intros [Hp Hi Hd]. split.
  - rewrite E1. exact Hp.
  - rewrite E2. exact Hi.
  - clear E1 E2 Hp Hi. induction HF as [|p p' r r' (Ep & _ & Eo) _ IH]; [intros ? ? []|].
    intros q i [<-|Hq] Hin.
    + rewrite Ep.
      assert (Ho : Forall (fun o => o = produtor_id p) (map item_produtorId (listaDeItens p))).
      { apply Forall_forall. intros o Ho. apply list_elem_of_In, in_map_iff in Ho.
        destruct Ho as (j & <- & Hj). apply Hd; [left; reflexivity | exact Hj]. }
      rewrite <- Eo in Ho. rewrite Forall_forall in Ho. apply Ho.
      apply list_elem_of_In, in_map. exact Hin.
    + apply IH; [|exact Hq|exact Hin]. intros q' i' Hq'. apply Hd. right. exact Hq'.
Qed.

Lemma Forall2_same_ids_refl (ps : list Produtor) :
  Forall2 (fun p p' => produtor_id p' = produtor_id p
                       /\ map item_id (listaDeItens p') = map item_id (listaDeItens p)
                       /\ map item_produtorId (listaDeItens p')
                          = map item_produtorId (listaDeItens p)) ps ps.
Proof. induction ps; constructor; auto. Qed.

Lemma estoque_ok_marcarNoProdutor pid iid ps :
  estoque_ok ps -> estoque_ok (marcarNoProdutor pid iid ps).
Proof.
  apply estoque_ok_same_ids.
  induction ps as [|p r IH]; simpl; [constructor|].
  destruct (String.eqb (produtor_id p) pid).
  - constructor; [|apply Forall2_same_ids_refl]. simpl.
    destruct (marcarItem_shape iid (listaDeItens p)). auto.
  - constructor; [auto | exact IH].
Qed.

Lemma estoque_ok_atualizarEstoque itens ps :
  estoque_ok ps -> estoque_ok (atualizarEstoque itens ps).
Proof.
  unfold atualizarEstoque. revert ps.
  induction itens as [|l r IH]; intros ps Hok; simpl; [exact Hok|].
  apply IH, estoque_ok_marcarNoProdutor, Hok.
Qed.

Lemma adicionarItem_shape pid novo ps :
  map produtor_id (adicionarItem pid novo ps) = map produtor_id ps
  /\ (forall x, In x (map item_id (itensDoEstoque (adicionarItem pid novo ps))) ->
                x = item_id novo \/ In x (map item_id (itensDoEstoque ps)))
  /\ (NoDup (map item_id (itensDoEstoque ps)) ->
      ~ In (item_id novo) (map item_id (itensDoEstoque ps)) ->
      NoDup (map item_id (itensDoEstoque (adicionarItem pid novo ps))))
  /\ forall p' i, In p' (adicionarItem pid novo ps) -> In i (listaDeItens p') ->
       (i = novo /\ produtor_id p' = pid)
       \/ exists p, In p ps /\ produtor_id p' = produtor_id p /\ In i (listaDeItens p).
Proof.
  unfold itensDoEstoque.
  induction ps as [|p r (IH1 & IH2 & IH3 & IH4)]; simpl.
  - repeat split; [intros x [] | constructor | intros p' i []].
  - destruct (String.eqb_spec (produtor_id p) pid) as [E|_]; simpl.
    + repeat split.
      * intros x. rewrite !map_app, !in_app_iff. simpl. intuition auto.
      * rewrite !map_app. simpl. intros Hnd Hn. rewrite in_app_iff in Hn.
        apply NoDup_app in Hnd. destruct Hnd as (Hl & Hdis & Hr).
        apply NoDup_app. repeat split.
        -- apply NoDup_snoc_fresh; tauto.
        -- intros x Hx Hx'. apply list_elem_of_In, in_app_iff in Hx.
           destruct Hx as [Hx|[<-|[]]].
           ++ apply (Hdis x); [apply list_elem_of_In; exact Hx | exact Hx'].
           ++ apply list_elem_of_In in Hx'. tauto.
        -- exact Hr.
      * intros p' i [<-|Hin] Hi; simpl in *.
        -- apply in_app_iff in Hi. destruct Hi as [Hi|[<-|[]]]; [right; exists p; auto | left; auto].
        -- right. exists p'. auto.
    + repeat split.
      * f_equal. exact IH1.
      * intros x. rewrite !map_app, !in_app_iff. intros [Hx|Hx]; [tauto|].
        destruct (IH2 x Hx); tauto.
      * rewrite !map_app. intros Hnd Hn. rewrite in_app_iff in Hn.
        apply NoDup_app in Hnd. destruct Hnd as (Hl & Hdis & Hr).
        apply NoDup_app. repeat split; [exact Hl | | apply IH3; tauto].
        intros x Hx Hx'. apply list_elem_of_In in Hx'.
        destruct (IH2 x Hx') as [->|Hx''].
        -- apply list_elem_of_In in Hx. tauto.
        -- apply (Hdis x); [exact Hx | apply list_elem_of_In; exact Hx''].
      * intros p' i [<-|Hin] Hi.
        -- right. exists p. auto.
        -- destruct (IH4 p' i Hin Hi) as [?|(q & Hq & Eq & Hiq)]; [left; assumption|].
           right. exists q. auto.
Qed.

Lemma estoque_ok_adicionarItem pid novo ps :
  estoque_ok ps -> item_produtorId novo = pid ->
  ~ In (item_id novo) (map item_id (itensDoEstoque ps)) ->
  estoque_ok (adicionarItem pid novo ps).
Proof.
  intros [Hp Hi Hd] Ho Hn. destruct (adicionarItem_shape pid novo ps) as (E & _ & Hnd & Hown).
  split.
  - rewrite E. exact Hp.
  - apply Hnd; assumption.
  - intros p' i Hp' Hi'. destruct (Hown p' i Hp' Hi') as [[-> ->]|(q & Hq & -> & Hiq)].
    + exact Ho.
    + apply Hd; assumption.
Qed.

End EstoqueProps.

(** ** Checkout *)

Section CheckoutProps.
Import Js Run Loja Vistas.

(** C2.  For every state, whatever the cart holds, and every form whose
    payload passes the validation, a declined payment leaves [appState] as
    it was: the availability flags, the cart and the orders are unchanged;
    nothing is stored; the page shows that the payment was refused.  The
    same holds for the timer of the payment taken alone. *)
Theorem checkout_recusado (f : DadosCompra) (random : Q) (t : Relogio) (st : AppState) :
  valido (validarDadosCompra (dadosDoFormulario f)) = true ->
  aprovado random = false ->
  handleCheckoutForm f random t st = Fim tt st [msg_processando; msg_recusado]
  /\ pagamento_temporizado (dadosDoFormulario f) random t st = Fim tt st [msg_recusado]
  /\ produtores (estado (handleCheckoutForm f random t st)) = produtores st
  /\ carrinho (estado (handleCheckoutForm f random t st)) = carrinho st
  /\ pedidos (estado (handleCheckoutForm f random t st)) = pedidos st.
Proof.
  intros Hv Hr.
  assert (E : handleCheckoutForm f random t st = Fim tt st [msg_processando; msg_recusado]).
  { unfold handleCheckoutForm, processarPagamento, pagamento_temporizado. rewrite Hv. run.
    rewrite Hr. reflexivity. }
  rewrite E. repeat split.
  unfold pagamento_temporizado. run. rewrite Hr. reflexivity.
Qed.

Lemma adicionarAoCarrinho_novo st u itemId linha :
  usuarioLogado st = Some u ->
  buscarItem (produtores st) itemId = Some linha ->
  List.find (fun c => String.eqb (item_id (linha_item c)) itemId) (carrinho st) = None ->
  estado (adicionarAoCarrinho itemId st) = set_carrinho (carrinho st ++ [linha]) st.
Proof.
  intros Hu Hb Hc. unfold adicionarAoCarrinho, usuarioEstaLogado. run.
  rewrite Hu, Hb, Hc. reflexivity.
Qed.

Lemma atualizarEstoque_duas_linhas ps P Q0 A B nP nQ :
  estoque_ok ps -> In P ps -> In A (listaDeItens P) -> In Q0 ps -> In B (listaDeItens Q0) ->
  item_id A <> item_id B ->
  atualizarEstoque [mkLinha A nP; mkLinha B nQ] ps
  = desligarEm (item_id B) (desligarEm (item_id A) ps).
Proof.
  intros Hok HP HA HQ HB Hne. unfold atualizarEstoque. simpl.
  rewrite (marcarNoProdutor_desligarEm ps P A Hok HP HA).
  destruct (In_desligarEm (item_id A) ps Q0 B HQ HB) as (Q' & HQ' & HB').
  assert (Ed : desligar (item_id A) B = B).
  { unfold desligar. destruct (String.eqb_spec (item_id B) (item_id A)); congruence. }
  rewrite Ed in HB'.
  apply (marcarNoProdutor_desligarEm _ Q' B); [apply estoque_ok_desligarEm; exact Hok | | ];
    assumption.
Qed.

Lemma desligar_flag x y i :
  item_id i = x \/ item_id i = y -> item_disponivel (desligar y (desligar x i)) = false.
Proof.
  intros H. unfold desligar at 2.
  destruct (String.eqb_spec (item_id i) x) as [Ex|Nx].
  - unfold desligar. simpl. destruct (String.eqb _ _); reflexivity.
  - destruct H as [H|H]; [contradiction|]. unfold desligar.
    rewrite <- H, String.eqb_refl. reflexivity.
Qed.

Lemma finalizarCompraComSucesso_run dados t st u :
  usuarioLogado st = Some u ->
  finalizarCompraComSucesso dados t st
  = Fim tt (aposCompra dados t u st)
        [Gravou STORAGE_KEY (DocEstado (aposCompra dados t u st));
         Mensagem ("Compra realizada com sucesso! Pedido: " ++ "pedido_" ++ pretty (Date_now t))%string
                  "success" (Some "checkoutMsg")].
Proof.
  intros Hu. unfold finalizarCompraComSucesso, salvarDados, aposCompra. run. rewrite Hu.
  destruct (String.eqb (role u) "user"); simpl; unfold set_carrinho, set_pedidos, set_produtores,
    set_usuarioLogado; simpl; rewrite ?Hu; reflexivity.
Qed.

Lemma handleCheckoutForm_aprovado f random t st u :
  valido (validarDadosCompra (dadosDoFormulario f)) = true -> aprovado random = true ->
  usuarioLogado st = Some u ->
  exists console,
    handleCheckoutForm f random t st
    = Fim tt (aposCompra (dadosDoFormulario f) t u st)
          [msg_processando; Console console;
           Gravou STORAGE_KEY (DocEstado (aposCompra (dadosDoFormulario f) t u st));
           Mensagem ("Compra realizada com sucesso! Pedido: " ++ "pedido_" ++ pretty (Date_now t))%string
                    "success" (Some "checkoutMsg")].
Proof.
  intros Hv Hr Hu.
  unfold handleCheckoutForm, processarPagamento, pagamento_temporizado,
    criarPagamentoStripe, criarPagamentoMercadoPago.
  rewrite Hv. cbv beta delta [mbind M_bind bind get emit negb] iota. rewrite Hr.
  destruct (String.eqb (provedor (configPagamento st)) "stripe");
    rewrite (finalizarCompraComSucesso_run _ t st u Hu); eexists; reflexivity.
Qed.

(** C1.  A logged-in user with an empty cart adds two distinct available
    items A and B of a well-formed stock and checks out with a payload that
    passes the validation and a payment that is approved.  Then the cart
    held the snapshots of A and B taken when they were added; the checkout
    ends normally; the stock is the old one with A and B flagged
    unavailable and nothing else changed; exactly one order is appended,
    whose lines are the two snapshots and whose total is the sum of the two
    prices; the cart is empty; and the state that results is stored. *)
Theorem checkout_aprovado (st0 : AppState) (u : Usuario) (P Q0 : Produtor) (A B : Item)
    (f : DadosCompra) (random : Q) (t : Relogio) :
  usuarioLogado st0 = Some u -> carrinho st0 = [] -> estoque_ok (produtores st0) ->
  In P (produtores st0) -> In A (listaDeItens P) -> item_disponivel A = true ->
  In Q0 (produtores st0) -> In B (listaDeItens Q0) -> item_disponivel B = true ->
  item_id A <> item_id B ->
  valido (validarDadosCompra (dadosDoFormulario f)) = true ->
  aprovado random = true ->
  let linhaA := mkLinha A (produtor_nome P) in
  let linhaB := mkLinha B (produtor_nome Q0) in
  let st2 := em_sequencia [adicionarAoCarrinho (item_id A); adicionarAoCarrinho (item_id B)] st0 in
  let fim := handleCheckoutForm f random t st2 in
  carrinho st2 = [linhaA; linhaB]
  /\ terminou fim = true
  /\ produtores (estado fim) = desligarEm (item_id B) (desligarEm (item_id A) (produtores st0))
  /\ In (vendido A) (itensDoEstoque (produtores (estado fim)))
  /\ In (vendido B) (itensDoEstoque (produtores (estado fim)))
  /\ (forall i, In i (itensDoEstoque (produtores (estado fim))) ->
                item_id i = item_id A \/ item_id i = item_id B -> item_disponivel i = false)
  /\ pedidos (estado fim)
     = pedidos st0 ++ [pedidoDe u (dadosDoFormulario f) t [linhaA; linhaB]
                                (0 + item_preco A + item_preco B)%Q]
  /\ carrinho (estado fim) = []
  /\ In (Gravou STORAGE_KEY (DocEstado (estado fim))) (efeitos fim).
Proof.
  intros Hu Hc Hok HP HA HdA HQ HB HdB Hne Hv Hr linhaA linhaB st2 fim.
  pose proof (itens_distintos _ Hok) as Hnd.
  assert (E1 : estado (adicionarAoCarrinho (item_id A) st0) = set_carrinho [linhaA] st0).
  { rewrite (adicionarAoCarrinho_novo st0 u (item_id A) linhaA Hu).
    - rewrite Hc. reflexivity.
    - apply buscarItem_found; assumption.
    - rewrite Hc. reflexivity. }
  assert (E2 : st2 = set_carrinho [linhaA; linhaB] st0).
  { unfold st2. simpl. rewrite E1.
    rewrite (adicionarAoCarrinho_novo _ u (item_id B) linhaB); simpl.
    - reflexivity.
    - exact Hu.
    - apply buscarItem_found; assumption.
    - destruct (String.eqb_spec (item_id A) (item_id B)); [contradiction | reflexivity]. }
  assert (Es : atualizarEstoque [linhaA; linhaB] (produtores st0)
               = desligarEm (item_id B) (desligarEm (item_id A) (produtores st0))).
  { apply (atualizarEstoque_duas_linhas _ P Q0); assumption. }
  assert (Ef : exists log u',
             fim = Fim tt (mkApp (Some u') [] (desligarEm (item_id B) (desligarEm (item_id A) (produtores st0)))
                                 (usuarios st0)
                                 (pedidos st0 ++ [pedidoDe u (dadosDoFormulario f) t [linhaA; linhaB]
                                                           (0 + item_preco A + item_preco B)%Q])
                                 (admin st0) (configPagamento st0)) log
             /\ In (Gravou STORAGE_KEY (DocEstado (estado fim))) log).
  { destruct (handleCheckoutForm_aprovado f random t st2 u Hv Hr) as (c & E).
    { rewrite E2. exact Hu. }
    unfold fim. rewrite E, E2. unfold aposCompra, set_carrinho, calcularTotalCarrinho.
    cbn [carrinho produtores usuarios pedidos admin configPagamento usuarioLogado estado
         fold_left linha_item].
    rewrite Es. eexists. eexists. split; [reflexivity|]. simpl. auto. }
  destruct Ef as (log & u' & Ef & Hlog). rewrite Ef in Hlog |- *. simpl.
  split; [rewrite E2; reflexivity|]. split; [reflexivity|]. split; [reflexivity|].
  assert (HvA : In (vendido A) (itensDoEstoque (desligarEm (item_id B)
                                  (desligarEm (item_id A) (produtores st0))))).
  { rewrite !itensDoEstoque_desligarEm.
    replace (vendido A) with (desligar (item_id B) (desligar (item_id A) A)).
    - apply in_map, in_map. apply (In_itensDoEstoque P A); assumption.
    - unfold desligar at 2. rewrite String.eqb_refl. unfold desligar. simpl.
      destruct (String.eqb _ _); reflexivity. }
  assert (HvB : In (vendido B) (itensDoEstoque (desligarEm (item_id B)
                                  (desligarEm (item_id A) (produtores st0))))).
  { rewrite !itensDoEstoque_desligarEm.
    replace (vendido B) with (desligar (item_id B) (desligar (item_id A) B)).
    - apply in_map, in_map. apply (In_itensDoEstoque Q0 B); assumption.
    - unfold desligar at 2.
      destruct (String.eqb_spec (item_id B) (item_id A)); [congruence|].
      unfold desligar. rewrite String.eqb_refl. reflexivity. }
  repeat split; try assumption.
  intros i Hi Hid. rewrite !itensDoEstoque_desligarEm in Hi.
  apply in_map_iff in Hi. destruct Hi as (i1 & <- & Hi). apply in_map_iff in Hi.
  destruct Hi as (i0 & <- & Hi).
  rewrite !item_id_desligar in Hid. apply desligar_flag. exact Hid.
Qed.

End CheckoutProps.

Lemma produtoresDemo_ok : Vistas.estoque_ok Loja.produtoresDemo.
Proof.
  split.
  - apply (bool_decide_unpack _). vm_compute. exact I.
  - apply (bool_decide_unpack _). vm_compute. exact I.
  - intros p i Hp Hi. simpl in Hp.
    repeat (destruct Hp as [<-|Hp]; [simpl in Hi; intuition (subst; reflexivity)|]).
    destruct Hp.
Qed.

Lemma checkout_recusado_witness :
  let f := Loja.mkDados "Ana" "ana@example.com" "11 5555-0000" "Rua A, 1" "Recife" "50000-000"
                        "4111 1111 1111 1111" "12/29" "123" in
  let t := Loja.mkRelogio 1700000000000 "2023-11-14T22:13:20.000Z" in
  let ana := Loja.mkUsuario "user_009" "Ana" "ana@example.com" "hash_0" "user" (Some []) in
  let st := Vistas.em_sequencia [Loja.adicionarAoCarrinho "item_002"]
                                (Loja.set_usuarioLogado (Some ana) Loja.dadosPadrao) in
  length (Loja.carrinho st) = 1%nat
  /\ Run.estado (Loja.handleCheckoutForm f (9 # 10) t st) = st.
Proof.
  intros f t ana st. split; [reflexivity|].
  destruct (checkout_recusado f (9 # 10) t st) as (E & _).
  - vm_compute. reflexivity.
  - reflexivity.
  - rewrite E. reflexivity.
Defined.

Lemma checkout_aprovado_witness :
  let f := Loja.mkDados "Ana" "ana@example.com" "11 5555-0000" "Rua A, 1" "Recife" "50000-000"
                        "4111 1111 1111 1111" "12/29" "123" in
  let t := Loja.mkRelogio 1700000000000 "2023-11-14T22:13:20.000Z" in
  let ana := Loja.mkUsuario "user_009" "Ana" "ana@example.com" "hash_0" "user" (Some []) in
  let st0 := Loja.set_usuarioLogado (Some ana) Loja.dadosPadrao in
  let st2 := Vistas.em_sequencia [Loja.adicionarAoCarrinho "item_002";
                                  Loja.adicionarAoCarrinho "item_003"] st0 in
  let fim := Loja.handleCheckoutForm f (1 # 2) t st2 in
  Loja.carrinho (Run.estado fim) = []
  /\ map Loja.pedido_total (Loja.pedidos (Run.estado fim)) = [(0 + 8 + 35)%Q]
  /\ map Loja.item_disponivel (Vistas.itensDoEstoque (Loja.produtores (Run.estado fim)))
     = [true; false; false; true; true].
Proof.
  intros f t ana st0 st2 fim.
  pose (P := Loja.mkProdutor "produtor_001" ("Fazenda Org" ++ Loja.a_circ ++ "nica Verde")%string
               "contato@fazendaverde.com"
               [ Loja.mkItem "item_001" ("Ma" ++ Loja.c_cedilha ++ Loja.a_til ++ " Org" ++ Loja.a_circ ++ "nica")%string
                   ("Ma" ++ Loja.c_cedilha ++ Loja.a_til ++ " vermelha fresca, colheita do m" ++ Loja.e_circ ++ "s")%string
                   (25 # 2) "produtor_001" true;
                 Loja.mkItem "item_002" ("Cenoura Org" ++ Loja.a_circ ++ "nica")%string
                   "Cenoura doce e crocante" 8 "produtor_001" true ]).
  pose (Q0 := Loja.mkProdutor "produtor_002" ("Latic" ++ Loja.i_agudo ++ "nios Naturais")%string
                "vendas@lacticinionaturais.com"
                [ Loja.mkItem "item_003" "Queijo Meia Cura" "Queijo artesanal, 500g" 35
                    "produtor_002" true;
                  Loja.mkItem "item_004" "Leite Integral" "Leite fresco, 1 litro" (13 # 2)
                    "produtor_002" true ]).
  pose (A := Loja.mkItem "item_002" ("Cenoura Org" ++ Loja.a_circ ++ "nica")%string
               "Cenoura doce e crocante" 8 "produtor_001" true).
  pose (B := Loja.mkItem "item_003" "Queijo Meia Cura" "Queijo artesanal, 500g" 35
               "produtor_002" true).
  destruct (checkout_aprovado st0 ana P Q0 A B f (1 # 2) t)
    as (_ & _ & Hst & _ & _ & _ & Hped & Hcar & _).
  - reflexivity.
  - reflexivity.
  - exact produtoresDemo_ok.
  - simpl. auto.
  - simpl. auto.
  - reflexivity.
  - simpl. auto.
  - simpl. auto.
  - reflexivity.
  - discriminate.
  - vm_compute. reflexivity.
  - reflexivity.
  - split; [exact Hcar|]. split.
    + change (Loja.pedidos (Run.estado fim)) with
        (Loja.pedidos (Run.estado (Loja.handleCheckoutForm f (1 # 2) t
           (Vistas.em_sequencia [Loja.adicionarAoCarrinho (Loja.item_id A);
                                 Loja.adicionarAoCarrinho (Loja.item_id B)] st0)))).
      rewrite Hped. reflexivity.
    + change (Loja.produtores (Run.estado fim)) with
        (Loja.produtores (Run.estado (Loja.handleCheckoutForm f (1 # 2) t
           (Vistas.em_sequencia [Loja.adicionarAoCarrinho (Loja.item_id A);
                                 Loja.adicionarAoCarrinho (Loja.item_id B)] st0)))).
      rewrite Hst. reflexivity.
Defined.

(** ** The session and the cart *)

Section SessaoProps.
Import Js Run Json Loja Vistas.

Local Opaque validarEmail validarSenha hashSenhaSimples sanitizar validarDadosCompra
  dadosDoFormulario aprovado buscarItem atualizarEstoque calcularTotalCarrinho pretty
  adicionarItem removerItemDe length.






(** The stock stays well formed under every handler, as long as the
    clock gives new ids. *)
Lemma executar_estoque_ok ev st :
  estoque_ok (produtores st) -> id_novo ev st ->
  estoque_ok (produtores (estado (executar ev st))).
Proof.
  intros Hok Hnovo.
  destruct ev; simpl executar; simpl in Hnovo;
    unfold handleLoginForm, handleRegistroForm, handleLoginAdminForm, handleLogout,
      adicionarAoCarrinho, removerDoCarrinho, handleCheckoutForm, processarPagamento,
      pagamento_temporizado, finalizarCompraComSucesso, criarPagamentoStripe,
      criarPagamentoMercadoPago, handleNovoProductorForm, handleNovoItemForm, removerProdutor,
      removerItemProdutor, handleConfigPagamentoForm, acessoNegado, salvarDados, atualizarUI,
      usuarioEstaLogado, usuarioAtualEhAdmin;
    run; casos; simpl; try assumption.
  all: first [ apply estoque_ok_atualizarEstoque; assumption
             | apply estoque_ok_novo_produtor; assumption
             | apply estoque_ok_adicionarItem; [assumption | reflexivity | assumption]
             | apply estoque_ok_filter; assumption
             | apply estoque_ok_removerItemDe; assumption ].
Qed.

Example hashSenhaSimples_admin123 : hashSenhaSimples "admin123" = "hash_g10hvh".
Proof. vm_compute. reflexivity. Qed.

(** The principal becomes null in the logout, which empties the cart. *)
Lemma handleLogout_run st :
  handleLogout st
  = Fim tt (set_carrinho [] (set_usuarioLogado None st))
        [Gravou STORAGE_KEY (DocEstado (set_carrinho [] (set_usuarioLogado None st)))].
Proof. reflexivity. Qed.

End SessaoProps.


(** * More properties of the shop *)

(** ** The cart *)

Section CarrinhoProps.
Import Js Run Loja LojaMais Vistas.

Lemma set_carrinho_same st : set_carrinho (carrinho st) st = st.
Proof. destruct st; reflexivity. Qed.

Lemma filter_absent itemId (c : list Linha) :
  ~ In itemId (map (fun l => item_id (linha_item l)) c) ->
  List.filter (fun item => negb (String.eqb (item_id (linha_item item)) itemId)) c = c.
Proof.
  induction c as [|l r IH]; simpl; [reflexivity|]. intros Hn.
  destruct (String.eqb_spec (item_id (linha_item l)) itemId) as [E|_]; [exfalso; auto|].
  simpl. f_equal. apply IH. intros H. apply Hn. right. exact H.
Qed.

Lemma filter_removes itemId (c : list Linha) :
  ~ In itemId (map (fun l => item_id (linha_item l))
                   (List.filter (fun item => negb (String.eqb (item_id (linha_item item)) itemId)) c)).
Proof.
  intros Hin. apply in_map_iff in Hin. destruct Hin as (l & E & Hl).
  apply filter_In in Hl. destruct Hl as [_ Hl]. rewrite E, String.eqb_refl in Hl. discriminate.
Qed.

(** X1.  [removerDoCarrinho] touches the cart only; afterwards no line has
    the given id and the other lines are there in their order; removing
    an id that the cart does not hold changes nothing, and so does
    removing the same id a second time. *)
Theorem removerDoCarrinho_idempotent (itemId : string) (st : AppState) :
  let st1 := estado (removerDoCarrinho itemId st) in
  set_carrinho (carrinho st) st1 = st
  /\ ~ In itemId (ids_do_carrinho st1)
  /\ (forall l, In l (carrinho st1) <->
                In l (carrinho st) /\ item_id (linha_item l) <> itemId)
  /\ sublist (carrinho st1) (carrinho st)
  /\ (~ In itemId (ids_do_carrinho st) -> st1 = st)
  /\ estado (removerDoCarrinho itemId st1) = st1.
Proof.
  unfold removerDoCarrinho, ids_do_carrinho. run. simpl. repeat apply conj.
  - destruct st; reflexivity.
  - apply filter_removes.
  - intros l. rewrite filter_In, negb_true_iff, String.eqb_neq. reflexivity.
  - apply sublist_List_filter.
  - intros Hn. rewrite filter_absent by exact Hn. apply set_carrinho_same.
  - unfold set_carrinho. simpl. f_equal. apply filter_absent, filter_removes.
Qed.

(** The search of [adicionarAoCarrinho] only returns what the stock holds:
    an available item of the id asked for, with the name of a producer
    that lists it. *)
Lemma buscarItem_sound ps itemId l :
  buscarItem ps itemId = Some l ->
  item_id (linha_item l) = itemId
  /\ item_disponivel (linha_item l) = true
  /\ exists P, In P ps /\ In (linha_item l) (listaDeItens P) /\ produtorNome l = produtor_nome P.
Proof.
  induction ps as [|p r IH]; simpl; [discriminate|].
  destruct (List.find _ (listaDeItens p)) as [item|] eqn:F.
  - destruct (item_disponivel item) eqn:D.
    + intros [= <-]. simpl. apply List.find_some in F. destruct F as [Hin He].
      apply String.eqb_eq in He. repeat split; try assumption. exists p. auto.
    + intros H. destruct (IH H) as (? & ? & P & ? & ? & ?). repeat split; try assumption.
      exists P. auto.
  - intros H. destruct (IH H) as (? & ? & P & ? & ? & ?). repeat split; try assumption.
    exists P. auto.
Qed.

(** The two ways [adicionarAoCarrinho] can end: with a message and no
    change, or with one line appended. *)
Lemma adicionarAoCarrinho_cases itemId st :
  (exists msg tipo alvo, adicionarAoCarrinho itemId st = Fim tt st [Mensagem msg tipo alvo])
  \/ (exists l, usuarioLogado st <> None
                /\ buscarItem (produtores st) itemId = Some l
                /\ ~ In itemId (ids_do_carrinho st)
                /\ estado (adicionarAoCarrinho itemId st) = set_carrinho (carrinho st ++ [l]) st).
Proof.
  unfold adicionarAoCarrinho, usuarioEstaLogado. run.
  destruct (usuarioLogado st) eqn:Hu; simpl; [|left; eauto].
  destruct (buscarItem (produtores st) itemId) as [l|] eqn:Hb; [|left; eauto].
  destruct (List.find _ (carrinho st)) eqn:Hf; simpl; [left; eauto|].
  right. exists l. repeat split; try assumption; [discriminate|].
  unfold ids_do_carrinho. intros Hin. apply in_map_iff in Hin. destruct Hin as (c & E & Hc).
  apply (List.find_none _ _ Hf) in Hc. rewrite E, String.eqb_refl in Hc. discriminate.
Qed.

(** X3.  Without a principal [adicionarAoCarrinho] changes nothing and
    asks for a login.  Whatever it adds is a copy of an item that the
    stock lists under the id asked for and that is available, with the
    name of the producer that lists it. *)
Theorem adicionarAoCarrinho_sound (itemId : string) (st : AppState) :
  (usuarioLogado st = None ->
   adicionarAoCarrinho itemId st
   = Fim tt st [Mensagem msg_precisa_login "warning" (Some "carrinhoMsg")])
  /\ set_carrinho (carrinho st) (estado (adicionarAoCarrinho itemId st)) = st
  /\ forall l, In l (carrinho (estado (adicionarAoCarrinho itemId st))) ->
       In l (carrinho st)
       \/ (item_id (linha_item l) = itemId
           /\ item_disponivel (linha_item l) = true
           /\ exists P, In P (produtores st) /\ In (linha_item l) (listaDeItens P)
                        /\ produtorNome l = produtor_nome P).
Proof.
  split; [|split].
  - intros Hu. unfold adicionarAoCarrinho, usuarioEstaLogado. run. rewrite Hu. reflexivity.
  - destruct (adicionarAoCarrinho_cases itemId st) as [(m & ti & a & ->)|(l & _ & _ & _ & ->)];
      simpl; [apply set_carrinho_same | destruct st; reflexivity].
  - intros l.
    destruct (adicionarAoCarrinho_cases itemId st) as [(m & ti & a & ->)|(l' & _ & Hb & _ & ->)];
      simpl; [auto|].
    rewrite in_app_iff. intros [H|[<-|[]]]; [auto|]. right. apply buscarItem_sound. exact Hb.
Qed.

End CarrinhoProps.

Section CarrinhoInvariantes.
Import Js Run Loja LojaMais Vistas.

Local Opaque validarEmail validarSenha hashSenhaSimples sanitizar validarDadosCompra
  dadosDoFormulario aprovado buscarItem atualizarEstoque calcularTotalCarrinho pretty
  adicionarItem removerItemDe length.

(** What an event can do to the cart. *)
Lemma executar_carrinho ev st :
  carrinho (estado (executar ev st)) = carrinho st
  \/ carrinho (estado (executar ev st)) = []
  \/ (exists itemId, carrinho (estado (executar ev st))
        = List.filter (fun item => negb (String.eqb (item_id (linha_item item)) itemId))
                      (carrinho st))
  \/ (exists itemId, ev = EvAdicionar itemId
        /\ exists l, estado (executar ev st) = set_carrinho (carrinho st ++ [l]) st
                     /\ buscarItem (produtores st) itemId = Some l
                     /\ ~ In itemId (ids_do_carrinho st)).
Proof.
  destruct ev; try (
    simpl executar;
    unfold handleLoginForm, handleRegistroForm, handleLoginAdminForm, handleLogout,
      removerDoCarrinho, handleCheckoutForm, processarPagamento,
      pagamento_temporizado, finalizarCompraComSucesso, criarPagamentoStripe,
      criarPagamentoMercadoPago, handleNovoProductorForm, handleNovoItemForm, removerProdutor,
      removerItemProdutor, handleConfigPagamentoForm, acessoNegado, salvarDados, atualizarUI,
      usuarioEstaLogado, usuarioAtualEhAdmin;
    run; casos; simpl;
    first [ left; reflexivity | right; left; reflexivity
          | right; right; left; eexists; reflexivity ]).
  simpl executar.
  destruct (adicionarAoCarrinho_cases itemId st) as [(m & ti & a & ->)|(l & _ & Hb & Hn & E)].
  - left. reflexivity.
  - right. right. right. exists itemId. split; [reflexivity|]. exists l. auto.
Qed.

(** X2.  The cart never holds two lines of the same item id: every
    handler keeps the ids of the lines pairwise distinct, and so does any
    sequence of handlers. *)
Theorem executar_carrinho_NoDup (evs : list Evento) (st : AppState) :
  NoDup (ids_do_carrinho st) ->
  NoDup (ids_do_carrinho (em_sequencia (map executar evs) st)).
Proof.
  apply (em_sequencia_invariant (fun s => NoDup (ids_do_carrinho s))).
  intros h s Hin Hnd. apply in_map_iff in Hin. destruct Hin as (ev & <- & _).
  unfold ids_do_carrinho in *.
  destruct (executar_carrinho ev s) as [->|[->|[(x & ->)|(x & _ & l & -> & Hb & Hn)]]].
  - exact Hnd.
  - constructor.
  - eapply sublist_NoDup; [exact Hnd | apply sublist_map, sublist_List_filter].
  - simpl. rewrite map_app. simpl. apply NoDup_snoc_fresh; [exact Hnd|].
    destruct (buscarItem_sound _ _ _ Hb) as (-> & _). exact Hn.
Qed.

End CarrinhoInvariantes.

(** ** No item is sold twice *)

Section VendaDuplaProps.
Import Js Run Loja LojaMais Vistas.

Lemma linha_no_estoque_desligarEm x ps l :
  linha_no_estoque ps l -> linha_no_estoque (desligarEm x ps) l.
Proof.
  intros (P & A & HP & HA & Ei & Eo).
  destruct (In_desligarEm x ps P A HP HA) as (P' & HP' & HA').
  exists P', (desligar x A). repeat split; try assumption.
  - rewrite item_id_desligar. exact Ei.
  - rewrite item_produtorId_desligar. exact Eo.
Qed.

(** For lines that the stock backs, the stock update of a purchase flags
    the items of their ids and changes nothing else. *)
Lemma atualizarEstoque_desligarEm c ps :
  estoque_ok ps -> (forall l, In l c -> linha_no_estoque ps l) ->
  atualizarEstoque c ps
  = fold_left (fun ps l => desligarEm (item_id (linha_item l)) ps) c ps.
Proof.
  unfold atualizarEstoque. revert ps.
  induction c as [|l r IH]; intros ps Hok Hb; simpl; [reflexivity|].
  destruct (Hb l (or_introl eq_refl)) as (P & A & HP & HA & Ei & Eo).
  rewrite <- Ei, <- Eo, (marcarNoProdutor_desligarEm ps P A Hok HP HA).
  apply IH.
  - apply estoque_ok_desligarEm. exact Hok.
  - intros l' Hl'. apply linha_no_estoque_desligarEm. apply Hb. right. exact Hl'.
Qed.

Lemma desligar_keeps_off x i : item_disponivel i = false -> item_disponivel (desligar x i) = false.
Proof. unfold desligar. destruct (String.eqb _ _); [reflexivity | tauto]. Qed.

Lemma fold_desligarEm_flags c ps i :
  In i (itensDoEstoque (fold_left (fun ps l => desligarEm (item_id (linha_item l)) ps) c ps)) ->
  (In (item_id i) (map (fun l => item_id (linha_item l)) c) -> item_disponivel i = false)
  /\ exists i0, In i0 (itensDoEstoque ps) /\ item_id i0 = item_id i
                /\ (item_disponivel i0 = false -> item_disponivel i = false).
Proof.
  revert ps i. induction c as [|l r IH]; intros ps i; simpl.
  - intros Hi. split; [intros []|]. exists i. auto.
  - intros Hi. destruct (IH _ _ Hi) as (Hr & i1 & Hi1 & E1 & Hoff).
    rewrite itensDoEstoque_desligarEm in Hi1. apply in_map_iff in Hi1.
    destruct Hi1 as (i0 & <- & Hi0). rewrite item_id_desligar in E1. split.
    + intros [E|Hin]; [|apply Hr; exact Hin].
      apply Hoff. unfold desligar. rewrite E1, E, String.eqb_refl. reflexivity.
    + exists i0. repeat split; try assumption.
      intros H0. apply Hoff, desligar_keeps_off, H0.
Qed.

Lemma buscarItem_none ps x :
  (forall i, In i (itensDoEstoque ps) -> item_id i = x -> item_disponivel i = false) ->
  buscarItem ps x = None.
Proof.
  unfold itensDoEstoque. induction ps as [|p r IH]; simpl; [reflexivity|]. intros H.
  assert (Hr : buscarItem r x = None).
  { apply IH. intros i Hi. apply H. apply in_app_iff. right. exact Hi. }
  destruct (List.find _ (listaDeItens p)) as [item|] eqn:F; [|exact Hr].
  apply List.find_some in F. destruct F as [Hin He]. apply String.eqb_eq in He.
  rewrite (H item) by (try apply in_app_iff; auto). exact Hr.
Qed.

(** X4.  After a purchase none of its items can be put in a cart again.
    When the stock is well formed and backs every line of the cart, an
    approved checkout leaves a well-formed stock in which every item with
    the id of a purchased line is unavailable, and [adicionarAoCarrinho]
    of such an id is refused as not available. *)
Theorem checkout_impede_venda_dupla (st : AppState) (u : Usuario) (f : DadosCompra)
    (random : Q) (t : Relogio) :
  usuarioLogado st = Some u ->
  estoque_ok (produtores st) ->
  (forall l, In l (carrinho st) -> linha_no_estoque (produtores st) l) ->
  valido (validarDadosCompra (dadosDoFormulario f)) = true ->
  aprovado random = true ->
  let st' := estado (handleCheckoutForm f random t st) in
  estoque_ok (produtores st')
  /\ (forall i, In i (itensDoEstoque (produtores st')) ->
                In (item_id i) (ids_do_carrinho st) -> item_disponivel i = false)
  /\ forall itemId, In itemId (ids_do_carrinho st) ->
       adicionarAoCarrinho itemId st' = Fim tt st' [Mensagem msg_indisponivel "error" None].
Proof.
  intros Hu Hok Hb Hv Hr st'.
  destruct (handleCheckoutForm_aprovado f random t st u Hv Hr Hu) as (c & E).
  assert (Es : produtores st'
               = fold_left (fun ps l => desligarEm (item_id (linha_item l)) ps)
                           (carrinho st) (produtores st)).
  { unfold st'. rewrite E. simpl. apply atualizarEstoque_desligarEm; assumption. }
  assert (Hflag : forall i, In i (itensDoEstoque (produtores st')) ->
                            In (item_id i) (ids_do_carrinho st) -> item_disponivel i = false).
  { intros i Hi. rewrite Es in Hi. apply (fold_desligarEm_flags _ _ _ Hi). }
  split; [|split].
  - unfold st'. rewrite E. simpl. apply estoque_ok_atualizarEstoque. exact Hok.
  - exact Hflag.
  - intros itemId Hin. unfold adicionarAoCarrinho, usuarioEstaLogado. run.
    assert (Hu' : exists u', usuarioLogado st' = Some u').
    { unfold st'. rewrite E. simpl. eauto. }
    destruct Hu' as [u' ->]. simpl.
    rewrite buscarItem_none; [reflexivity|].
    intros i Hi <-. apply Hflag; assumption.
Qed.

End VendaDuplaProps.

(** ** What the handlers never do *)

Section NuncaProps.
Import Js Run Loja LojaMais Vistas.

Local Opaque validarEmail validarSenha hashSenhaSimples sanitizar validarDadosCompra
  dadosDoFormulario aprovado buscarItem atualizarEstoque calcularTotalCarrinho pretty
  adicionarItem removerItemDe length.

Lemma executar_prefix ev st :
  pedidos st `prefix_of` pedidos (estado (executar ev st))
  /\ usuarios st `prefix_of` usuarios (estado (executar ev st)).
Proof.
  destruct ev; desdobrar; casos; simpl; split;
    first [ reflexivity | apply prefix_app_r; reflexivity ].
Qed.

Lemma prefix_map {X Y} (g : X -> Y) (l1 l2 : list X) :
  l1 `prefix_of` l2 -> map g l1 `prefix_of` map g l2.
Proof. intros [k ->]. exists (map g k). apply map_app. Qed.

(** X5.  Orders and accounts are only ever appended: after any sequence
    of handlers the orders that were there are still there, unchanged and
    in the same places, and so are the accounts, each with the id, name,
    e-mail address, password hash and role it had. *)
Theorem pedidos_so_crescem (evs : list Evento) (st : AppState) :
  pedidos st `prefix_of` pedidos (em_sequencia (map executar evs) st)
  /\ map identidade (usuarios st)
     `prefix_of` map identidade (usuarios (em_sequencia (map executar evs) st)).
Proof.
  revert st. induction evs as [|ev r IH]; intros st; simpl; [split; reflexivity|].
  destruct (executar_prefix ev st) as [H1 H2].
  destruct (IH (estado (executar ev st))) as [H3 H4].
  split; etransitivity; try eassumption. apply prefix_map. exact H2.
Qed.

(** X6.  A session whose principal is not the administrator cannot
    administer the shop: whatever handler runs, the payment settings stay
    as they are, and the producers and their items are either untouched or
    changed by the stock update of the session's own purchase. *)
Theorem visitante_nao_administra (ev : Evento) (st : AppState) :
  usuarioAtualEhAdmin st = false ->
  configPagamento (estado (executar ev st)) = configPagamento st
  /\ (produtores (estado (executar ev st)) = produtores st
      \/ produtores (estado (executar ev st)) = atualizarEstoque (carrinho st) (produtores st)).
Proof.
  unfold usuarioAtualEhAdmin. intros Hna.
  destruct (usuarioLogado st) as [u|] eqn:Hu;
    destruct ev; desdobrar; rewrite ?Hu; simpl; rewrite ?Hna; casos; simpl;
    (split; [reflexivity | first [left; reflexivity | right; reflexivity]]).
Qed.

(** The five handlers of the administration refuse such a session with
    one message and no change. *)
Lemma administracao_negada st :
  usuarioAtualEhAdmin st = false ->
  (forall f t, handleNovoProductorForm f t st = Fim tt st [Mensagem "Acesso negado" "error" None])
  /\ (forall f t, handleNovoItemForm f t st = Fim tt st [Mensagem "Acesso negado" "error" None])
  /\ (forall id c, removerProdutor id c st = Fim tt st [Mensagem "Acesso negado" "error" None])
  /\ (forall p i, removerItemProdutor p i st = Fim tt st [Mensagem "Acesso negado" "error" None])
  /\ (forall f, handleConfigPagamentoForm f st = Fim tt st [Mensagem "Acesso negado" "error" None]).
Proof.
  intros Hna. repeat split; intros;
    unfold handleNovoProductorForm, handleNovoItemForm, removerProdutor, removerItemProdutor,
      handleConfigPagamentoForm, acessoNegado; run; rewrite Hna; reflexivity.
Qed.

End NuncaProps.

(** ** Logging in *)

Section LoginProps.
Import Js Run Loja LojaMais Vistas.

Lemma find_app_none {X} (f : X -> bool) l1 l2 :
  List.find f l1 = None -> List.find f (l1 ++ l2) = List.find f l2.
Proof.
  induction l1 as [|x r IH]; simpl; [reflexivity|].
  destruct (f x); [discriminate | exact IH].
Qed.

Lemma find_email_none (us : list Usuario) e :
  existsb (fun u => String.eqb (usuario_email u) e) us = false ->
  List.find (fun u => String.eqb (usuario_email u) e) us = None.
Proof.
  induction us as [|u r IH]; simpl; [reflexivity|].
  destruct (String.eqb (usuario_email u) e); simpl; [discriminate | exact IH].
Qed.

(** X8.  A login either changes nothing and shows one error, or makes the
    principal a registered user whose e-mail address is the sanitized one
    of the form and whose stored hash is the hash of the password given;
    nothing else of the state changes.  The administrator's login either
    changes nothing (with an error, or with a [TypeError] when the
    document has no administrator) or makes the administrator of the
    document the principal, under the same two conditions. *)
Theorem handleLoginForm_sound (f : LoginForm) (st : AppState) :
  ((exists msg, handleLoginForm f st = Fim tt st [Mensagem msg "error" (Some "loginMsg")])
   \/ exists u, In u (usuarios st)
        /\ validarEmail (sanitizar (loginEmail f)) = true
        /\ usuario_email u = sanitizar (loginEmail f)
        /\ senhaHash u = hashSenhaSimples (loginPassword f)
        /\ estado (handleLoginForm f st) = set_usuarioLogado (Some u) st)
  /\ ((exists msg, handleLoginAdminForm f st
                   = Fim tt st [Mensagem msg "error" (Some "loginAdminMsg")])
      \/ (admin st = None /\ handleLoginAdminForm f st = Lancou TypeError st [])
      \/ exists a, admin st = Some a
           /\ usuario_email a = sanitizar (loginEmail f)
           /\ senhaHash a = hashSenhaSimples (loginPassword f)
           /\ estado (handleLoginAdminForm f st) = set_usuarioLogado (Some a) st).
Proof.
  split.
  - unfold handleLoginForm, salvarDados, atualizarUI, usuarioEstaLogado. run.
    destruct (validarEmail (sanitizar (loginEmail f))) eqn:Hv; simpl; [|left; eauto].
    destruct (List.find _ (usuarios st)) as [u|] eqn:F; [|left; eauto].
    apply List.find_some in F. destruct F as [Hin He]. apply String.eqb_eq in He.
    destruct (String.eqb_spec (senhaHash u) (hashSenhaSimples (loginPassword f))) as [Eh|_];
      simpl; [|left; eauto].
    right. exists u. repeat split; assumption.
  - unfold handleLoginAdminForm, salvarDados, atualizarUI, usuarioEstaLogado. run.
    destruct (validarEmail (sanitizar (loginEmail f))) eqn:Hv; simpl; [|left; eauto].
    destruct (admin st) as [a|] eqn:Ha; [|right; left; auto].
    destruct (String.eqb_spec (usuario_email a) (sanitizar (loginEmail f))) as [Ee|_];
      simpl; [|left; eauto].
    destruct (String.eqb_spec (senhaHash a) (hashSenhaSimples (loginPassword f))) as [Eh|_];
      simpl; [|left; eauto].
    right. right. exists a. repeat split; assumption.
Qed.

(** X7.  Register, log out, log in.  A registration that passes its checks
    appends the new user and makes it the principal; after a logout there
    is no principal; a login with the same e-mail address and password
    then makes that same user the principal again. *)
Theorem registro_logout_login (f : RegistroForm) (t : Relogio) (st : AppState) :
  3 <= length (sanitizar (registroNome f)) ->
  validarEmail (sanitizar (registroEmail f)) = true ->
  validarSenha (registroSenha f) = true ->
  registroSenha f = registroConfirm f ->
  ~ In (sanitizar (registroEmail f)) (emails st) ->
  let novo := mkUsuario ("user_" ++ pretty (Date_now t))%string (sanitizar (registroNome f))
                        (sanitizar (registroEmail f)) (hashSenhaSimples (registroSenha f))
                        "user" (Some []) in
  let st1 := estado (handleRegistroForm f t st) in
  let st2 := estado (handleLogout st1) in
  let st3 := estado (handleLoginForm (mkLogin (registroEmail f) (registroSenha f)) st2) in
  usuarios st1 = usuarios st ++ [novo]
  /\ usuarioLogado st1 = Some novo
  /\ usuarioLogado st2 = None /\ carrinho st2 = [] /\ usuarios st2 = usuarios st1
  /\ usuarioLogado st3 = Some novo /\ usuarios st3 = usuarios st1.
Proof.
  intros Hn Hv Hs Hc He novo st1 st2 st3.
  assert (Hex : existsb (fun u => String.eqb (usuario_email u) (sanitizar (registroEmail f)))
                        (usuarios st) = false).
  { destruct (existsb _ (usuarios st)) eqn:Ex; [|reflexivity].
    apply existsb_email in Ex. contradiction. }
  assert (Hnome : (String.eqb (sanitizar (registroNome f)) "" || (length (sanitizar (registroNome f)) <? 3))
                  = false).
  { destruct (sanitizar (registroNome f)) eqn:En; [simpl in Hn; unfold length in Hn; simpl in Hn; lia|].
    simpl. apply Z.ltb_ge. exact Hn. }
  assert (E1 : st1 = set_usuarioLogado (Some novo) (set_usuarios (usuarios st ++ [novo]) st)).
  { unfold st1, handleRegistroForm, salvarDados, atualizarUI, usuarioEstaLogado. run.
    rewrite Hnome, Hv, Hs, <- Hc, String.eqb_refl, Hex. reflexivity. }
  assert (E2 : st2 = set_carrinho [] (set_usuarioLogado None st1)).
  { reflexivity. }
  assert (E3 : st3 = set_usuarioLogado (Some novo) st2).
  { unfold st3. rewrite E2, E1.
    unfold handleLoginForm, salvarDados, atualizarUI, usuarioEstaLogado. run.
    cbn [loginEmail loginPassword]. rewrite Hv.
    cbn [negb usuarios set_carrinho set_usuarioLogado set_usuarios].
    rewrite find_app_none by (apply find_email_none; exact Hex).
    simpl. rewrite !String.eqb_refl. reflexivity. }
  rewrite E3, E2, E1. simpl. repeat split; reflexivity.
Qed.

End LoginProps.

(** ** The password hash *)

Section HashProps.
Import Js Run Loja LojaMais Vistas.

Lemma toInt32_mod a b : a mod 2 ^ 32 = b mod 2 ^ 32 -> toInt32 a = toInt32 b.
Proof.
  intros H. unfold toInt32. f_equal.
  rewrite <- (Zplus_mod_idemp_l a), <- (Zplus_mod_idemp_l b), H. reflexivity.
Qed.

Lemma toInt32_eqm a : toInt32 a mod 2 ^ 32 = a mod 2 ^ 32.
Proof.
  unfold toInt32. rewrite Zminus_mod, Z.mod_mod by lia.
  rewrite <- Zminus_mod. f_equal. lia.
Qed.

Lemma toInt32_range a : - 2 ^ 31 <= toInt32 a < 2 ^ 31.
Proof. unfold toInt32. pose proof (Z.mod_pos_bound (a + 2 ^ 31) (2 ^ 32)). lia. Qed.

Lemma toInt32_idem a : toInt32 (toInt32 a) = toInt32 a.
Proof. apply toInt32_mod, toInt32_eqm. Qed.

(** One round of the loop is [31 * hash + char], wrapped to 32 bits. *)
Lemma hash_step h c :
  band (shl h 5 - h + c) (shl h 5 - h + c) = toInt32 (31 * h + c).
Proof.
  unfold band. rewrite Z.land_diag, toInt32_idem.
  apply toInt32_mod. unfold shl. rewrite Z.shiftl_mul_pow2 by lia.
  rewrite <- Z.add_sub_swap, Zminus_mod, Zplus_mod, toInt32_eqm.
  rewrite Zmult_mod, toInt32_eqm, <- Zmult_mod, <- Zplus_mod, <- Zminus_mod.
  f_equal. lia.
Qed.

Lemma hash_loop_unfold a r h :
  hash_loop (String a r) h =
  hash_loop r (band (shl h 5 - h + code a) (shl h 5 - h + code a)).
Proof.
  let f := eval cbv delta [hash_loop] in hash_loop in
  exact (eq_refl (f (String a r) h)).
Qed.

Lemma hash_loop_cons a r h :
  hash_loop (String a r) h = hash_loop r (toInt32 (31 * h + code a)).
Proof. rewrite hash_loop_unfold, hash_step. reflexivity. Qed.

Lemma hash_loop_app a b h : hash_loop (a ++ b)%string h = hash_loop b (hash_loop a h).
Proof.
  revert h. induction a as [|x r IH]; intros h; [reflexivity|].
  change (String x r ++ b)%string with (String x (r ++ b)%string).
  rewrite !hash_loop_cons. apply IH.
Qed.

Lemma hash_loop_range s h : - 2 ^ 31 <= h < 2 ^ 31 -> - 2 ^ 31 <= hash_loop s h < 2 ^ 31.
Proof.
  revert h. induction s as [|a r IH]; intros h Hh; [exact Hh|].
  rewrite hash_loop_cons. apply IH. apply toInt32_range.
Qed.

(** X9.  The hash is a 32-bit polynomial hash, [31 * hash + char] per
    character, so it has collisions: replacing "Aa" by "BB" anywhere in a
    password gives the same hash, and [handleLoginForm] cannot tell the two
    passwords apart.  The number behind the prefix is within 32 bits. *)
Theorem hashSenhaSimples_colisao (antes depois : string) :
  hashSenhaSimples (antes ++ "Aa" ++ depois) = hashSenhaSimples (antes ++ "BB" ++ depois)
  /\ (forall email st,
        handleLoginForm (mkLogin email (antes ++ "Aa" ++ depois)) st
        = handleLoginForm (mkLogin email (antes ++ "BB" ++ depois)) st)
  /\ - 2 ^ 31 <= hash_loop (antes ++ "Aa" ++ depois) 0 < 2 ^ 31.
Proof.
  assert (E : hashSenhaSimples (antes ++ "Aa" ++ depois)
              = hashSenhaSimples (antes ++ "BB" ++ depois)).
  { unfold hashSenhaSimples. do 3 f_equal. rewrite !hash_loop_app. f_equal.
    rewrite !hash_loop_cons. change (hash_loop "" ?x) with x. apply toInt32_mod.
    change (code "A") with 65. change (code "a") with 97. change (code "B") with 66.
    rewrite (Zplus_mod (31 * toInt32 _)), (Zmult_mod 31 (toInt32 _)), toInt32_eqm,
      <- Zmult_mod, <- Zplus_mod.
    symmetry.
    rewrite (Zplus_mod (31 * toInt32 _)), (Zmult_mod 31 (toInt32 _)), toInt32_eqm,
      <- Zmult_mod, <- Zplus_mod.
    f_equal. lia. }
  split; [exact E|]. split.
  - intros email st. unfold handleLoginForm. cbn [loginEmail loginPassword]. rewrite E.
    reflexivity.
  - apply hash_loop_range. lia.
Qed.

End HashProps.

(** ** E-mail addresses and sanitised text *)

Section EmailProps.
Import Js Run Loja LojaMais Vistas.
Local Open Scope string_scope.

Lemma test_nil s : test [] s = true <-> s = "".
Proof. destruct s; simpl; split; congruence. Qed.

Lemma test_One c re s :
  test (One c :: re) s = true <-> exists a r, s = String a r /\ c a = true /\ test re r = true.
Proof.
  destruct s as [|a r]; simpl.
  - split; [discriminate | intros (? & ? & ? & _); discriminate].
  - rewrite andb_true_iff. split.
    + intros [H1 H2]. eauto.
    + intros (a' & r' & [= -> ->] & H1 & H2). auto.
Qed.

Lemma test_Plus_cons c re a r :
  test (Plus c :: re) (String a r) = c a && (test re r || test (Plus c :: re) r).
Proof. reflexivity. Qed.

(** [c+] followed by [re]: a non-empty run of [c], then a match of [re]. *)
Lemma test_Plus c re s :
  test (Plus c :: re) s = true
  <-> exists u v, s = u ++ v /\ u <> "" /\ all_chars c u = true /\ test re v = true.
Proof.
  split.
  - induction s as [|a r IH]; [simpl; discriminate|].
    rewrite test_Plus_cons, andb_true_iff, orb_true_iff. intros [Ha [Hr|Hr]].
    + exists (String a ""), r. simpl. rewrite Ha. repeat split; auto; discriminate.
    + destruct (IH Hr) as (u & v & -> & _ & Hu & Hv).
      exists (String a u), v. simpl. rewrite Ha, Hu. repeat split; auto; discriminate.
  - intros (u & v & -> & Hne & Hu & Hv). revert Hne Hu.
    induction u as [|a u IH]; [congruence|]. intros _. simpl all_chars.
    rewrite andb_true_iff. intros [Ha Hu].
    change (String a u ++ v) with (String a (u ++ v)).
    rewrite test_Plus_cons, Ha. cbn [andb]. destruct u as [|b u'].
    + change ("" ++ v) with v. rewrite Hv. reflexivity.
    + rewrite IH by (discriminate || exact Hu). apply orb_true_r.
Qed.

Lemma append_vazio (s : string) : s ++ "" = s.
Proof.
  induction s as [|a r IH]; [reflexivity|].
  change (String a (r ++ "") = String a r). congruence.
Qed.

Lemma comprimento_app (a b : string) :
  String.length (a ++ b) = (String.length a + String.length b)%nat.
Proof.
  induction a as [|x r IH]; [reflexivity|].
  change (S (String.length (r ++ b)) = S (String.length r + String.length b)). congruence.
Qed.

Lemma anexar_assoc (a b c : string) : (a ++ b) ++ c = a ++ b ++ c.
Proof.
  induction a as [|x r IH]; [reflexivity|].
  change (String x ((r ++ b) ++ c) = String x (r ++ b ++ c)). congruence.
Qed.

Lemma is_char_eq x a : is_char x a = true <-> a = x.
Proof. unfold is_char. apply Ascii.eqb_eq. Qed.

(** The expression of [validarEmail], read as a shape. *)
Lemma validarEmail_iff (e : string) :
  validarEmail e = true <-> forma_de_email e.
Proof.
  unfold validarEmail, forma_de_email, parte_de_email. rewrite test_Plus. split.
  - intros (l & v & -> & Hl & Hcl & Hv).
    apply test_One in Hv. destruct Hv as (a & v1 & -> & Ha & Hv).
    apply is_char_eq in Ha. subst a.
    apply test_Plus in Hv. destruct Hv as (d & v2 & -> & Hd & Hcd & Hv).
    apply test_One in Hv. destruct Hv as (b & v3 & -> & Hb & Hv).
    apply is_char_eq in Hb. subst b.
    apply test_Plus in Hv. destruct Hv as (t & v4 & -> & Ht & Hct & Hv).
    apply test_nil in Hv. subst v4.
    exists l, d, t. repeat split; try assumption.
    rewrite append_vazio. reflexivity.
  - intros (l & d & t & -> & [Hl Hcl] & [Hd Hcd] & [Ht Hct]).
    exists l, ("@" ++ d ++ "." ++ t). repeat split; try assumption.
    apply test_One. exists "@"%char, (d ++ "." ++ t). repeat split.
    apply test_Plus. exists d, ("." ++ t). repeat split; try assumption.
    apply test_One. exists "."%char, t. repeat split.
    apply test_Plus. exists t, "". repeat split; try assumption.
    symmetry. apply append_vazio.
Qed.

Lemma all_chars_app p a b : all_chars p (a ++ b) = all_chars p a && all_chars p b.
Proof. induction a as [|x r IH]; simpl; [reflexivity|]. rewrite IH. apply andb_assoc. Qed.

Lemma filter_chars_app p a b : filter_chars p (a ++ b) = filter_chars p a ++ filter_chars p b.
Proof.
  induction a as [|x r IH]; [reflexivity|].
  change (String x r ++ b) with (String x (r ++ b)). simpl. rewrite IH.
  destruct (p x); reflexivity.
Qed.

Lemma parte_de_email_limpa s :
  all_chars fora_de_email s = true ->
  all_chars (fun a => negb (is_space a)) s = true /\ filter_chars (is_char "@") s = "".
Proof.
  induction s as [|a r IH]; [split; reflexivity|]. simpl.
  rewrite andb_true_iff. unfold fora_de_email at 1.
  rewrite negb_true_iff, orb_false_iff. intros [[E1 E2] Hr].
  destruct (IH Hr) as [H1 H2]. rewrite E1, E2, H1, H2. split; reflexivity.
Qed.

(** X10.  [validarEmail] accepts exactly the strings made of a local part,
    one at sign, a domain, a dot and a rest, where each of the three parts
    is non-empty and has neither white space nor an at sign.  So an
    accepted address has no white space and exactly one at sign. *)
Theorem validarEmail_forma (e : string) :
  (validarEmail e = true <-> forma_de_email e)
  /\ (validarEmail e = true ->
      all_chars (fun a => negb (is_space a)) e = true
      /\ filter_chars (is_char "@") e = "@").
Proof.
  split; [apply validarEmail_iff|]. intros H. apply validarEmail_iff in H.
  destruct H as (l & d & t & -> & [_ Hl] & [_ Hd] & [_ Ht]).
  destruct (parte_de_email_limpa l Hl) as [L1 L2].
  destruct (parte_de_email_limpa d Hd) as [D1 D2].
  destruct (parte_de_email_limpa t Ht) as [T1 T2].
  rewrite !all_chars_app, !filter_chars_app, L1, L2, D1, D2, T1, T2. split; reflexivity.
Qed.

Lemma code_inj a b : code a = code b -> a = b.
Proof.
  unfold code. intros H. apply N2Z.inj in H.
  rewrite <- (ascii_N_embedding a), <- (ascii_N_embedding b), H. reflexivity.
Qed.

Lemma escapeHTML_cons a r :
  escapeHTML (String a r)
  = (if (code a =? 38)%Z then "&amp;"
     else if (code a =? 160)%Z then "&nbsp;"
     else if (code a =? 60)%Z then "&lt;"
     else if (code a =? 62)%Z then "&gt;"
     else String a "") ++ escapeHTML r.
Proof. reflexivity. Qed.

Lemma escapeHTML_app a b : escapeHTML (a ++ b) = escapeHTML a ++ escapeHTML b.
Proof.
  induction a as [|x r IH]; [reflexivity|].
  change (String x r ++ b) with (String x (r ++ b)).
  rewrite !escapeHTML_cons, IH.
  repeat match goal with |- context [if ?c then _ else _] => destruct c end; reflexivity.
Qed.

Lemma escapeHTML_inj a b : escapeHTML a = escapeHTML b -> a = b.
Proof.
  revert b. induction a as [|x r IH]; intros [|y q].
  - reflexivity.
  - rewrite escapeHTML_cons; por_caracter y; discriminate.
  - rewrite escapeHTML_cons; por_caracter x; discriminate.
  - rewrite !escapeHTML_cons; por_caracter x; por_caracter y; intros H;
      cbv beta iota delta [String.append] in H;
      try discriminate H;
      injection H; clear H; intros; subst;
      first [ solve [exfalso; match goal with
                              | E : _ <> _ |- _ => solve [apply E; reflexivity]
                              end]
            | f_equal; first [apply code_inj; congruence | apply IH; assumption] ].
Qed.

(** X11.  What [sanitizar] returns has no angle bracket and no no-break
    space, so no tag can start in it; it is at least as long as the text
    given and is empty only for the empty text; text without any of the
    four characters comes back as it is; sanitising goes piece by piece;
    and two different texts never give the same result. *)
Theorem sanitizar_seguro (s : string) :
  all_chars (fun a => negb ((code a =? 60)%Z || (code a =? 62)%Z || (code a =? 160)%Z)) (sanitizar s)
  = true
  /\ (String.length s <= String.length (sanitizar s))%nat
  /\ (sanitizar s = "" <-> s = "")
  /\ (all_chars (fun a => negb (especial a)) s = true -> sanitizar s = s)
  /\ (forall s', sanitizar (s ++ s') = sanitizar s ++ sanitizar s')
  /\ (forall s', sanitizar s = sanitizar s' -> s = s').
Proof.
  unfold sanitizar. repeat apply conj.
  - induction s as [|a r IH]; [reflexivity|].
    rewrite escapeHTML_cons; por_caracter a; rewrite all_chars_app, IH, andb_true_r; try reflexivity.
    simpl. rewrite andb_true_r.
    repeat match goal with
           | E : code a <> _ |- _ => apply Z.eqb_neq in E; rewrite E
           end. reflexivity.
  - induction s as [|a r IH]; [simpl; lia|].
    rewrite escapeHTML_cons, comprimento_app; por_caracter a; simpl; lia.
  - destruct s as [|a r]; [reflexivity|]. rewrite escapeHTML_cons; por_caracter a; discriminate.
  - intros ->. reflexivity.
  - unfold especial. induction s as [|a r IH]; [reflexivity|]. simpl all_chars.
    rewrite andb_true_iff, negb_true_iff, !orb_false_iff.
    intros [(((E1 & E2) & E3) & E4) Hr].
    rewrite escapeHTML_cons, E1, E2, E3, E4, IH by exact Hr. reflexivity.
  - intros s'. apply escapeHTML_app.
  - intros s'. apply escapeHTML_inj.
Qed.

Lemma fora_de_email_escapeHTML s :
  all_chars fora_de_email s = true -> all_chars fora_de_email (escapeHTML s) = true.
Proof.
  induction s as [|a r IH]; [reflexivity|]. intros H.
  simpl in H. apply andb_true_iff in H. destruct H as [Ha Hr].
  rewrite escapeHTML_cons; por_caracter a; rewrite all_chars_app, IH, andb_true_r by exact Hr;
    try reflexivity.
  simpl. rewrite Ha. reflexivity.
Qed.

Lemma parte_de_email_escapeHTML s : parte_de_email s -> parte_de_email (escapeHTML s).
Proof.
  intros [Hne Hc]. split; [|apply fora_de_email_escapeHTML; exact Hc].
  destruct s as [|a r]; [congruence|]. rewrite escapeHTML_cons; por_caracter a; discriminate.
Qed.

(** X12.  The handlers validate the sanitised address, and sanitising
    keeps a valid address valid.  It can also make one: an address that
    [validarEmail] refuses because it starts with a no-break space is
    accepted once sanitised, the space having become an entity. *)
Theorem validarEmail_sanitizar (e : string) :
  validarEmail e = true ->
  validarEmail (sanitizar e) = true
  /\ validarEmail (ch 160 ++ e) = false
  /\ validarEmail (sanitizar (ch 160 ++ e)) = true.
Proof.
  intros He. apply validarEmail_iff in He.
  destruct He as (l & d & t & -> & Hl & Hd & Ht).
  assert (Hs : forall pre, parte_de_email pre \/ pre = "" ->
               forma_de_email (pre ++ escapeHTML (l ++ "@" ++ d ++ "." ++ t))).
  { intros pre Hpre. exists (pre ++ escapeHTML l), (escapeHTML d), (escapeHTML t).
    rewrite !escapeHTML_app.
    change (escapeHTML "@") with "@". change (escapeHTML ".") with ".".
    split; [symmetry; apply anexar_assoc|].
    split; [|split; apply parte_de_email_escapeHTML; assumption].
    apply parte_de_email_escapeHTML in Hl. destruct Hl as [Hne Hc].
    destruct Hpre as [[Hp1 Hp2]| ->]; [|split; assumption].
    split; [destruct pre; [congruence | discriminate]|].
    rewrite all_chars_app, Hp2, Hc. reflexivity. }
  unfold sanitizar. repeat split.
  - apply validarEmail_iff. apply (Hs ""). right. reflexivity.
  - apply validarEmail_iff. rewrite escapeHTML_app.
    change (escapeHTML (ch 160)) with "&nbsp;".
    apply (Hs "&nbsp;"). left. split; [discriminate | reflexivity].
Qed.

End EmailProps.

(** ** More on the checkout *)

Section CheckoutMais.
Import Js Run Json Loja LojaMais Vistas.

Lemma marcarNoProdutor_ausente pid iid ps :
  ~ In pid (map produtor_id ps) -> marcarNoProdutor pid iid ps = ps.
Proof.
  induction ps as [|p r IH]; simpl; [reflexivity|]. intros Hn.
  destruct (String.eqb_spec (produtor_id p) pid) as [E|_]; [exfalso; auto|].
  f_equal. apply IH. auto.
Qed.

(** Lines whose producer the stock no longer has leave the stock alone. *)
Lemma atualizarEstoque_ausente c ps :
  (forall l, In l c -> ~ In (item_produtorId (linha_item l)) (map produtor_id ps)) ->
  atualizarEstoque c ps = ps.
Proof.
  unfold atualizarEstoque. induction c as [|l r IH]; simpl; [reflexivity|]. intros H.
  rewrite marcarNoProdutor_ausente by (apply H; left; reflexivity).
  apply IH. intros l' Hl'. apply H. right. exact Hl'.
Qed.

(** X13.  The checkout form does not look at the cart.  [abrirCheckout]
    refuses to open the form on an empty cart, but a valid form that is
    submitted with an empty cart and approved records an order with no
    lines and total 0, and leaves the stock as it is. *)
Theorem checkout_carrinho_vazio (st : AppState) (u : Usuario) (f : DadosCompra)
    (random : Q) (t : Relogio) :
  usuarioLogado st = Some u ->
  carrinho st = [] ->
  valido (validarDadosCompra (dadosDoFormulario f)) = true ->
  aprovado random = true ->
  let st' := estado (handleCheckoutForm f random t st) in
  abrirCheckout st = Fim tt st [Mensagem "Carrinho vazio" "warning" None]
  /\ pedidos st' = pedidos st ++ [pedidoDe u (dadosDoFormulario f) t [] 0]
  /\ produtores st' = produtores st
  /\ carrinho st' = [].
Proof.
  intros Hu Hc Hv Hr st'.
  destruct (handleCheckoutForm_aprovado f random t st u Hv Hr Hu) as (c & E).
  unfold st'. rewrite E. unfold aposCompra, calcularTotalCarrinho. simpl. rewrite Hc.
  repeat split. unfold abrirCheckout. run. rewrite Hc. reflexivity.
Qed.

(** X14.  The timer of a payment that fires when nobody is logged in (the
    user logged out during the 1500 ms) records nothing: a declined
    payment shows its message; an approved one writes its console line and
    then ends in a [TypeError], before any change to the state and before
    anything is stored. *)
Theorem temporizador_sem_sessao (dados : DadosCompra) (random : Q) (t : Relogio)
    (st : AppState) :
  usuarioLogado st = None ->
  pagamento_temporizado dados random t st
  = if aprovado random
    then Lancou TypeError st
           [Console (if String.eqb (provedor (configPagamento st)) "stripe"
                     then "Integrando com Stripe..." else "Integrando com Mercado Pago...")]
    else Fim tt st [msg_recusado].
Proof.
  intros Hu. unfold pagamento_temporizado, finalizarCompraComSucesso, criarPagamentoStripe,
    criarPagamentoMercadoPago. run.
  destruct (aprovado random); [|reflexivity].
  destruct (String.eqb (provedor (configPagamento st)) "stripe"); simpl; rewrite Hu; reflexivity.
Qed.


(** X16.  Removing a producer leaves the cart alone, so its items can
    still be bought.  When the administrator removes the producer of the
    lines of the cart and then checks out, the order is recorded with
    those lines and their total, and the stock, which no longer has that
    producer, is not changed by the purchase. *)
Theorem compra_de_produtor_removido (st : AppState) (u : Usuario) (pid : string)
    (f : DadosCompra) (random : Q) (t : Relogio) :
  usuarioLogado st = Some u ->
  role u = "admin"%string ->
  (forall l, In l (carrinho st) -> item_produtorId (linha_item l) = pid) ->
  valido (validarDadosCompra (dadosDoFormulario f)) = true ->
  aprovado random = true ->
  let st1 := estado (removerProdutor pid true st) in
  let st2 := estado (handleCheckoutForm f random t st1) in
  ~ In pid (map produtor_id (produtores st1))
  /\ carrinho st1 = carrinho st
  /\ produtores st2 = produtores st1
  /\ pedidos st2
     = pedidos st ++ [pedidoDe u (dadosDoFormulario f) t (carrinho st) (calcularTotalCarrinho st)].
Proof.
  intros Hu Hrole Hl Hv Hr st1 st2.
  assert (E1 : st1 = set_produtores
                       (List.filter (fun p => negb (String.eqb (produtor_id p) pid)) (produtores st))
                       st).
  { unfold st1, removerProdutor, usuarioAtualEhAdmin, salvarDados. run.
    rewrite Hu, Hrole. reflexivity. }
  assert (Hn : ~ In pid (map produtor_id (produtores st1))).
  { rewrite E1. simpl. intros Hin. apply in_map_iff in Hin. destruct Hin as (p & E & Hp).
    apply filter_In in Hp. destruct Hp as [_ Hp]. rewrite E, String.eqb_refl in Hp.
    discriminate. }
  assert (Hu1 : usuarioLogado st1 = Some u) by (rewrite E1; exact Hu).
  destruct (handleCheckoutForm_aprovado f random t st1 u Hv Hr Hu1) as (c & E2).
  split; [exact Hn|]. split; [rewrite E1; reflexivity|].
  unfold st2. rewrite E2. unfold aposCompra. simpl. split.
  - apply atualizarEstoque_ausente. intros l Hin.
    rewrite E1 in Hin. simpl in Hin. rewrite (Hl l Hin). exact Hn.
  - rewrite E1. reflexivity.
Qed.

Lemma calcularTotalCarrinho_soma_de c a :
  (fold_left (fun total item => total + item_preco (linha_item item)) c a == a + soma c)%Q.
Proof.
  revert a. induction c as [|l r IH]; intros a; simpl.
  - ring.
  - rewrite IH. ring.
Qed.

Lemma calcularTotalCarrinho_soma st : (calcularTotalCarrinho st == soma (carrinho st))%Q.
Proof. unfold calcularTotalCarrinho. rewrite calcularTotalCarrinho_soma_de. ring. Qed.

End CheckoutMais.

Section PedidosProps.
Import Js Run Json Loja LojaMais Vistas.

Local Opaque validarEmail validarSenha hashSenhaSimples sanitizar validarDadosCompra
  dadosDoFormulario aprovado buscarItem atualizarEstoque calcularTotalCarrinho pretty
  adicionarItem removerItemDe length.

(** What an event can do to the orders. *)
Lemma executar_pedidos ev st :
  pedidos (estado (executar ev st)) = pedidos st
  \/ exists u d t,
       usuarioLogado st = Some u
       /\ pedidos (estado (executar ev st))
          = pedidos st ++ [pedidoDe u d t (carrinho st) (calcularTotalCarrinho st)].
Proof.
  destruct ev; desdobrar; casos; simpl;
    first [ left; reflexivity
          | right; do 3 eexists; split; [eassumption || reflexivity | reflexivity] ].
Qed.

(** X17.  The total of an order is the sum of the prices of its lines, for
    every order that the handlers record: the property holds of all orders
    after any sequence of handlers when it holds of the orders before, and
    each new order carries the cart and the id of the principal of the
    moment. *)
Theorem pedidos_coerentes (evs : list Evento) (st : AppState) :
  Forall pedido_coerente (pedidos st) ->
  Forall pedido_coerente (pedidos (em_sequencia (map executar evs) st)).
Proof.
  apply (em_sequencia_invariant (fun s => Forall pedido_coerente (pedidos s))).
  intros h s Hin HF. apply in_map_iff in Hin. destruct Hin as (ev & <- & _).
  destruct (executar_pedidos ev s) as [->|(u & d & t & _ & ->)]; [exact HF|].
  apply Forall_app. split; [exact HF|]. constructor; [|constructor].
  unfold pedido_coerente, pedidoDe. simpl. apply calcularTotalCarrinho_soma.
Qed.

End PedidosProps.

(** ** Producers *)

Section ProdutoresProps.
Import Js Run Json Loja LojaMais Vistas.

Lemma existsb_produtor_email (ps : list Produtor) e :
  existsb (fun p => String.eqb (produtor_email p) e) ps = true
  <-> In e (map produtor_email ps).
Proof.
  rewrite existsb_exists, in_map_iff. split.
  - intros (p & Hp & E). apply String.eqb_eq in E. eauto.
  - intros (p & E & Hp). exists p. split; [exact Hp|]. apply String.eqb_eq. exact E.
Qed.

Lemma email_marcarNoProdutor pid iid ps :
  map produtor_email (marcarNoProdutor pid iid ps) = map produtor_email ps.
Proof.
  induction ps as [|p r IH]; simpl; [reflexivity|].
  destruct (String.eqb _ _); simpl; [reflexivity | f_equal; exact IH].
Qed.

Lemma email_atualizarEstoque c ps :
  map produtor_email (atualizarEstoque c ps) = map produtor_email ps.
Proof.
  unfold atualizarEstoque. revert ps. induction c as [|l r IH]; intros ps; simpl; [reflexivity|].
  rewrite IH. apply email_marcarNoProdutor.
Qed.

Lemma email_adicionarItem pid novo ps :
  map produtor_email (adicionarItem pid novo ps) = map produtor_email ps.
Proof.
  induction ps as [|p r IH]; simpl; [reflexivity|].
  destruct (String.eqb _ _); simpl; [reflexivity | f_equal; exact IH].
Qed.

Lemma email_removerItemDe pid iid ps :
  map produtor_email (removerItemDe pid iid ps) = map produtor_email ps.
Proof.
  induction ps as [|p r IH]; simpl; [reflexivity|].
  destruct (String.eqb _ _); simpl; [reflexivity | f_equal; exact IH].
Qed.

End ProdutoresProps.

Section ProdutoresInvariantes.
Import Js Run Json Loja LojaMais Vistas.

Local Opaque validarEmail validarSenha hashSenhaSimples sanitizar validarDadosCompra
  dadosDoFormulario aprovado buscarItem atualizarEstoque calcularTotalCarrinho pretty
  adicionarItem removerItemDe length.

(** What an event can do to the e-mail addresses of the producers. *)
Lemma executar_emails_de_produtores ev st :
  let antes := map produtor_email (produtores st) in
  let depois := map produtor_email (produtores (estado (executar ev st))) in
  depois = antes
  \/ (exists keep, depois = map produtor_email (List.filter keep (produtores st)))
  \/ (exists e, depois = antes ++ [e] /\ ~ In e antes).
Proof.
  destruct ev; desdobrar; casos; simpl;
    rewrite ?email_atualizarEstoque, ?email_adicionarItem, ?email_removerItemDe;
    first [ left; reflexivity
          | right; left; eexists; reflexivity
          | right; right; rewrite map_app; simpl; eexists; split; [reflexivity|];
            simpl; intros Hin; apply existsb_produtor_email in Hin; congruence ].
Qed.

(** X18.  The e-mail addresses of the producers stay pairwise distinct
    under every handler, hence under any sequence of handlers: a producer
    is added only under an address that no producer has, and no handler
    changes the address of a producer. *)
Theorem emails_de_produtores_unicos (evs : list Evento) (st : AppState) :
  NoDup (map produtor_email (produtores st)) ->
  NoDup (map produtor_email (produtores (em_sequencia (map executar evs) st))).
Proof.
  apply (em_sequencia_invariant (fun s => NoDup (map produtor_email (produtores s)))).
  intros h s Hin Hnd. apply in_map_iff in Hin. destruct Hin as (ev & <- & _).
  destruct (executar_emails_de_produtores ev s) as [E|[(keep & E)|(e & E & Hn)]]; rewrite E.
  - exact Hnd.
  - eapply sublist_NoDup; [exact Hnd | apply sublist_map, sublist_List_filter].
  - apply NoDup_snoc_fresh; assumption.
Qed.

End ProdutoresInvariantes.

(** * More properties of the admin panels *)

Section PainelProps.
Import Js Run Planos Admin AdminMais Vistas.

Lemma find_credenciais (f : LoginForm) (us : list User) :
  match List.find (fun u => String.eqb (username u) (trim (loginUsername f))
                            && String.eqb (password u) (loginPassword f)) us with
  | Some u => In u us /\ credenciais f u
  | None => forall u, In u us -> ~ credenciais f u
  end.
Proof.
  destruct (List.find _ us) as [u|] eqn:F.
  - apply List.find_some in F. destruct F as [Hin He].
    apply andb_true_iff in He. destruct He as [E1 E2].
    apply String.eqb_eq in E1, E2. repeat split; assumption.
  - intros u Hin [E1 E2]. apply (List.find_none _ _ F) in Hin.
    rewrite E1, E2, !String.eqb_refl in Hin. discriminate.
Qed.

(** X19.  Logging in to the admin panels.  In the role-gated panel a
    login succeeds exactly when some user has the trimmed name and the
    password of the form, and makes such a user the principal, whatever
    its role; otherwise the state is unchanged and the error is shown.  In
    the earlier panel a login that succeeds makes an administrator the
    principal; any other attempt leaves the state unchanged. *)
Theorem handleLogin_sound (f : LoginForm) (st : AppState) :
  ((exists u, In u (users st) /\ credenciais f u
      /\ handleLogin f st
         = Fim tt (set_currentUser (Some u) st) [SessionSet "currentUser" (VUser u)])
   \/ ((forall u, In u (users st) -> ~ credenciais f u)
       /\ handleLogin f st = Fim tt st [Texto "loginError" msg_login_incorreto]))
  /\ ((exists u, In u (users st) /\ credenciais f u /\ isAdmin u = true
         /\ AdminAnteriorMais.handleLogin f st
            = Fim tt (set_currentUser (Some u) st) [SessionSet "currentUser" (VUser u)])
      \/ AdminAnteriorMais.handleLogin f st
         = Fim tt st [Texto "loginError" msg_login_incorreto]).
Proof.
  pose proof (find_credenciais f (users st)) as H.
  unfold handleLogin, AdminAnteriorMais.handleLogin, setCurrentUser. run.
  destruct (List.find _ (users st)) as [u|].
  - destruct H as [Hin Hc]. split.
    + left. exists u. auto.
    + destruct (isAdmin u) eqn:Ha; [left; exists u; auto | right; reflexivity].
  - split; [right; auto | right; reflexivity].
Qed.

(** X20.  Without an administrator as principal the role-gated panel
    changes nothing and stores nothing: [handleCreateUser], [deleteUser]
    and [handleCreatePlan] each end with one message, whatever the form
    or the answer to the dialog. *)
Theorem sem_admin_nada_muda (st : AppState) (f : CreateUserForm) (pf : PlanForm)
    (name : string) (confirma : bool) (t : Relogio) :
  ehAdmin st = false ->
  (exists msg, handleCreateUser f t st = Fim tt st [Texto "createError" msg])
  /\ deleteUser name confirma st = Fim tt st [Alert msg_so_admin_deleta_usuario]
  /\ handleCreatePlan pf t st = Fim tt st [Texto "planMsg" msg_so_admin_planos].
Proof.
  intros Ha. split; [|split].
  - unfold handleCreateUser. run. rewrite Ha.
    destruct (handleCreateUser_loginTime f st); simpl; eauto.
  - unfold deleteUser. run. rewrite Ha. reflexivity.
  - unfold handleCreatePlan. run. rewrite Ha. reflexivity.
Qed.

Lemma filter_username_absent name (us : list User) :
  ~ In name (map username us) ->
  List.filter (fun u => negb (String.eqb (username u) name)) us = us.
Proof.
  induction us as [|u r IH]; simpl; [reflexivity|]. intros Hn.
  destruct (String.eqb_spec (username u) name) as [E|_]; [exfalso; auto|].
  simpl. f_equal. apply IH. auto.
Qed.

Lemma filter_username_removes name (us : list User) :
  ~ In name (map username (List.filter (fun u => negb (String.eqb (username u) name)) us)).
Proof.
  intros Hin. apply in_map_iff in Hin. destruct Hin as (u & E & Hu).
  apply filter_In in Hu. destruct Hu as [_ Hu]. rewrite E, String.eqb_refl in Hu. discriminate.
Qed.

Lemma deleteUser_run name st :
  ehAdmin st = true ->
  deleteUser name true st
  = let us := List.filter (fun u => negb (String.eqb (username u) name)) (users st) in
    Fim tt (set_users us st) [LocalSet "users" (VUsers us)].
Proof. intros Ha. unfold deleteUser, deleteUser_confirmado, saveUsers. run. rewrite Ha. reflexivity. Qed.

(** X21.  An administrator's confirmed [deleteUser] removes every user of
    that name and nothing else: the other users stay, in their order, the
    principal and the plans are untouched, distinct names stay distinct,
    and the new list is what is stored.  A declined dialog changes
    nothing. *)
Theorem deleteUser_remove (name : string) (st : AppState) :
  ehAdmin st = true ->
  let r := deleteUser name true st in
  ~ In name (usernames (estado r))
  /\ (forall u, In u (users (estado r)) <-> In u (users st) /\ username u <> name)
  /\ sublist (users (estado r)) (users st)
  /\ (NoDup (usernames st) -> NoDup (usernames (estado r)))
  /\ currentUser (estado r) = currentUser st
  /\ plans (estado r) = plans st
  /\ efeitos r = [LocalSet "users" (VUsers (users (estado r)))]
  /\ deleteUser name false st = Fim tt st [].
Proof.
  intros Ha r. unfold r. rewrite deleteUser_run by exact Ha. unfold usernames. simpl.
  repeat apply conj; try reflexivity.
  - apply filter_username_removes.
  - intros u. rewrite filter_In, negb_true_iff, String.eqb_neq. reflexivity.
  - apply sublist_List_filter.
  - intros Hnd. eapply sublist_NoDup; [exact Hnd | apply sublist_map, sublist_List_filter].
  - unfold deleteUser. run. rewrite Ha. reflexivity.
Qed.

(** X22.  Create, then delete.  When an administrator creates a user
    under a name that nobody has and then deletes the user of that name,
    the list of users is the one from before, and that list is what the
    store holds in the end. *)
Theorem criar_e_deletar (f : CreateUserForm) (t : Relogio) (st : AppState) (minutos : Z) :
  ehAdmin st = true ->
  handleCreateUser_loginTime f st = inr minutos ->
  3 <= length (trim (newUsername f)) ->
  4 <= length (newPassword f) ->
  ~ In (trim (newUsername f)) (usernames st) ->
  let novo := mkUser (Date_now t) (trim (newUsername f)) (newPassword f) minutos
                     (toISOString t) false in
  let st1 := estado (handleCreateUser f t st) in
  let r2 := deleteUser (trim (newUsername f)) true st1 in
  users st1 = users st ++ [novo]
  /\ users (estado r2) = users st
  /\ estado r2 = st
  /\ efeitos r2 = [LocalSet "users" (VUsers (users st))].
Proof.
  intros Ha Hlt Hn Hp Hfresh novo st1 r2.
  assert (Hex : existsb (fun u => String.eqb (username u) (trim (newUsername f))) (users st)
                = false).
  { destruct (existsb _ (users st)) eqn:Ex; [|reflexivity].
    apply existsb_username in Ex. contradiction. }
  assert (E1 : st1 = set_users (users st ++ [novo]) st).
  { unfold st1, handleCreateUser, criar_usuario, saveUsers. run. rewrite Hlt, Ha. simpl.
    apply Z.ltb_ge in Hn, Hp. rewrite Hn, Hp, Hex. reflexivity. }
  assert (Ha1 : ehAdmin st1 = true) by (rewrite E1; exact Ha).
  assert (Ef : List.filter (fun u => negb (String.eqb (username u) (trim (newUsername f))))
                 (users st ++ [novo]) = users st).
  { rewrite List.filter_app, filter_username_absent by exact Hfresh.
    simpl. rewrite String.eqb_refl. simpl. apply app_nil_r. }
  unfold r2. rewrite deleteUser_run by exact Ha1. rewrite E1. simpl. rewrite Ef.
  repeat split; try reflexivity. destruct st; reflexivity.
Qed.

(** X23.  The panel lets the administrator delete the account it is logged
    in with.  The session goes on with the rights it had; once it is
    closed, no login under that name succeeds, whatever the password. *)
Theorem deleteUser_proprio (a : User) (st : AppState) :
  currentUser st = Some a ->
  isAdmin a = true ->
  let st1 := estado (deleteUser (username a) true st) in
  let st2 := estado (handleLogout true st1) in
  currentUser st1 = Some a
  /\ ehAdmin st1 = true
  /\ currentUser st2 = None
  /\ forall f, trim (loginUsername f) = username a ->
       handleLogin f st2 = Fim tt st2 [Texto "loginError" msg_login_incorreto].
Proof.
  intros Hc Ha st1 st2.
  assert (Hadm : ehAdmin st = true) by (unfold ehAdmin; rewrite Hc; exact Ha).
  assert (E1 : st1 = set_users (List.filter (fun u => negb (String.eqb (username u) (username a)))
                                            (users st)) st).
  { unfold st1. rewrite deleteUser_run by exact Hadm. reflexivity. }
  assert (E2 : st2 = set_currentUser None st1) by reflexivity.
  split; [rewrite E1; exact Hc|]. split; [rewrite E1; exact Hadm|].
  split; [rewrite E2; reflexivity|]. intros f Hf.
  pose proof (find_credenciais f (users st2)) as H.
  unfold handleLogin. run. destruct (List.find _ (users st2)) as [u|]; [|reflexivity].
  exfalso. destruct H as [Hin [Hu _]]. rewrite E2, E1 in Hin. simpl in Hin.
  apply (filter_username_removes (username a) (users st)).
  apply in_map_iff. exists u. split; [congruence | exact Hin].
Qed.

End PainelProps.

(** ** Plans in the admin panels *)

Section PlanosMais.
Import Js Run Planos Admin AdminMais Vistas.
Local Open Scope string_scope.

Lemma pretty_N_char_digit n : is_digit (pretty_N_char n) = true.
Proof.
  destruct n as [|p]; [reflexivity|].
  do 4 (try destruct p as [p|p|]); reflexivity.
Qed.

(** The decimal numeral of a positive number starts with a digit. *)
Lemma pretty_N_go_digit x s :
  (0 < x)%N -> exists a r, pretty_N_go x s = String a r /\ is_digit a = true.
Proof.
  revert s. induction (N.lt_wf_0 x) as [x _ IH]. intros s Hx.
  rewrite pretty_N_go_step by exact Hx.
  destruct (N.eq_dec (x `div` 10)%N 0%N) as [E|E].
  - rewrite E, pretty_N_go_0. eexists _, _. split; [reflexivity|]. apply pretty_N_char_digit.
  - apply IH; [apply N.div_lt; lia | apply N.neq_0_lt_0; exact E].
Qed.

Lemma pretty_Z_head (z : Z) :
  exists a r, pretty z = String a r /\ (is_digit a = true \/ a = "-"%char).
Proof.
  destruct z as [|p|p].
  - exists "0"%char, "". auto.
  - destruct (pretty_N_go_digit (N.pos p) "") as (a & r & E & Hd); [lia|].
    exists a, r. split; [exact E | left; exact Hd].
  - eexists "-"%char, _. split; [reflexivity | right; reflexivity].
Qed.

Lemma pretty_Z_not_option (z : Z) : pretty z <> "" /\ pretty z <> "custom".
Proof.
  destruct (pretty_Z_head z) as (a & r & -> & [Hd| ->]); split; try discriminate.
  intros [= -> _]. discriminate Hd.
Qed.

Lemma find_plan_fresh sel (ps : list Plan) :
  (forall p, In p ps -> pretty (plan_id p) <> sel) ->
  List.find (fun p => String.eqb (pretty (plan_id p)) sel) ps = None.
Proof.
  induction ps as [|p r IH]; simpl; [reflexivity|]. intros H.
  destruct (String.eqb_spec (pretty (plan_id p)) sel) as [E|_].
  - exfalso. apply (H p); auto.
  - apply IH. intros q Hq. apply H. right. exact Hq.
Qed.

(** X24.  Create a plan, then select it.  A plan that an administrator
    creates under a new id is appended with the trimmed name, the value
    of the form (1 when the field holds no number or zero) and the unit;
    its id is among the options of the plan select; and creating a user
    with that option selected gives the allowance of the new plan, the
    larger of 1 and the value times the factor of the unit. *)
Theorem plano_criado_selecionavel (pf : PlanForm) (t : Relogio) (st : AppState) :
  ehAdmin st = true ->
  trim (planName pf) <> "" ->
  editId pf = "" ->
  ~ In (Date_now t) (map plan_id (plans st)) ->
  let valor := int_or (planValue pf) 1 in
  let novo := mkPlan (Date_now t) (trim (planName pf)) (inject_Z valor) (planUnit pf) in
  let st1 := estado (handleCreatePlan pf t st) in
  plans st1 = (plans st ++ [novo])%list
  /\ users st1 = users st
  /\ In (pretty (Date_now t)) (populatePlanSelect st1)
  /\ exists k, unitFactor (planUnit pf) = inject_Z k
       /\ forall f, planSelect f = pretty (Date_now t) ->
            handleCreateUser_loginTime f st1 = inr (Z.max 1 (valor * k)).
Proof.
  intros Ha Hn He Hfresh valor novo st1.
  assert (E1 : st1 = set_plans (plans st ++ [novo])%list st).
  { unfold st1, handleCreatePlan, criarPlano, savePlans. run. rewrite Ha, He.
    destruct (String.eqb_spec (trim (planName pf)) "") as [E|_]; [contradiction|].
    reflexivity. }
  rewrite E1. simpl. split; [reflexivity|]. split; [reflexivity|]. split.
  - unfold populatePlanSelect. simpl. right. apply in_app_iff. left.
    rewrite map_app. apply in_app_iff. right. left. reflexivity.
  - destruct (convertPlanToMinutes_integer (Date_now t) (trim (planName pf)) valor (planUnit pf))
      as (k & Hk & Hc).
    exists k. split; [exact Hk|]. intros f Hf.
    unfold handleCreateUser_loginTime. rewrite Hf.
    destruct (pretty_Z_not_option (Date_now t)) as [N1 N2].
    apply String.eqb_neq in N1, N2. rewrite N1, N2. simpl.
    rewrite find_app_none.
    + simpl. rewrite String.eqb_refl. f_equal. exact Hc.
    + apply find_plan_fresh. intros p Hp E. apply Hfresh.
      apply (inj pretty) in E. rewrite <- E. apply in_map. exact Hp.
Qed.

Lemma atualizarPlano_ids id name value unit_name ps :
  map plan_id (atualizarPlano id name value unit_name ps) = map plan_id ps.
Proof.
  induction ps as [|p r IH]; simpl; [reflexivity|].
  destruct (String.eqb _ _); simpl; [reflexivity | f_equal; exact IH].
Qed.

Lemma atualizarPlano_In id name value unit_name ps p :
  In p (atualizarPlano id name value unit_name ps) ->
  In p ps \/ (pretty (plan_id p) = id /\ plan_name p = name
              /\ plan_value p = value /\ plan_unit p = unit_name).
Proof.
  induction ps as [|q r IH]; simpl; [tauto|].
  destruct (String.eqb_spec (pretty (plan_id q)) id) as [E|_]; simpl.
  - intros [<-|H]; [right; simpl; auto | left; auto].
  - intros [<-|H]; [left; auto|]. destruct (IH H) as [H'|H']; auto.
Qed.

(** X25.  Editing a plan never changes the ids or the number of the
    plans, nor the users: every plan afterwards is one from before or has
    the edited id and the name, value and unit of the form.  When no plan
    has the id that the form carries, nothing happens at all, not even a
    message. *)
Theorem editar_plano (pf : PlanForm) (t : Relogio) (st : AppState) :
  ehAdmin st = true ->
  trim (planName pf) <> "" ->
  editId pf <> "" ->
  let r := handleCreatePlan pf t st in
  map plan_id (plans (estado r)) = map plan_id (plans st)
  /\ users (estado r) = users st
  /\ currentUser (estado r) = currentUser st
  /\ (forall p, In p (plans (estado r)) ->
        In p (plans st)
        \/ (pretty (plan_id p) = editId pf /\ plan_name p = trim (planName pf)
            /\ plan_value p = inject_Z (int_or (planValue pf) 1)
            /\ plan_unit p = planUnit pf))
  /\ ((forall p, In p (plans st) -> pretty (plan_id p) <> editId pf) -> r = Fim tt st []).
Proof.
  intros Ha Hn He r. unfold r, handleCreatePlan, savePlans. run. rewrite Ha.
  destruct (String.eqb_spec (trim (planName pf)) "") as [E|_]; [contradiction|].
  destruct (String.eqb_spec (editId pf) "") as [E|_]; [contradiction|]. simpl.
  destruct (List.find _ (plans st)) as [q|] eqn:F; simpl.
  - repeat apply conj; try reflexivity.
    + apply atualizarPlano_ids.
    + apply atualizarPlano_In.
    + intros H. apply List.find_some in F. destruct F as [Hin Hq].
      apply String.eqb_eq in Hq. exfalso. apply (H q Hin Hq).
  - repeat apply conj; try reflexivity. intros p Hp. left. exact Hp.
Qed.

(** X26.  No handler of the earlier panel reads the principal: run with
    another principal, or with none, [handleCreateUser], [deleteUser],
    [handleCreatePlan] and [deletePlan] make the same changes to the users
    and the plans and have the same effects outside the state. *)
Theorem painel_anterior_ignora_principal (cu : option User) (st : AppState)
    (f : CreateUserForm) (pf : PlanForm) (name : string) (id : Z) (confirma : bool)
    (t : Relogio) :
  let mesmo (h : Handler) :=
    estado (h (set_currentUser cu st)) = set_currentUser cu (estado (h st))
    /\ efeitos (h (set_currentUser cu st)) = efeitos (h st) in
  mesmo (AdminAnterior.handleCreateUser f t)
  /\ mesmo (AdminAnteriorMais.deleteUser name confirma)
  /\ mesmo (AdminAnteriorMais.handleCreatePlan pf t)
  /\ mesmo (AdminAnterior.deletePlan id confirma).
Proof.
  unfold AdminAnterior.handleCreateUser, AdminAnterior.handleCreateUser_loginTime,
    AdminAnteriorMais.deleteUser, AdminAnteriorMais.handleCreatePlan, AdminAnterior.deletePlan,
    criar_usuario, deleteUser_confirmado, criarPlano, saveUsers, savePlans.
  run. simpl. repeat apply conj;
    repeat match goal with
           | |- context [if ?c then _ else _] => destruct c
           end; reflexivity.
Qed.

End PlanosMais.

(** ** Who can be the administrator *)

Section PrivilegiosProps.
Import Js Run Json Loja LojaMais Vistas.

Local Opaque validarEmail validarSenha hashSenhaSimples sanitizar validarDadosCompra
  dadosDoFormulario aprovado buscarItem atualizarEstoque calcularTotalCarrinho pretty
  adicionarItem removerItemDe length.

Lemma executar_privilegios ev st :
  privilegios_ok st -> privilegios_ok (estado (executar ev st)).
Proof.
  intros [H1 H2].
  destruct ev; desdobrar; casos; simpl; (split; simpl; [try exact H1 | try exact H2]).
  all: try (intros u0 Hin; apply in_app_iff in Hin; destruct Hin as [Hin|[<-|[]]];
            [apply H1; exact Hin | discriminate]).
  all: intros u0 Hu0 Hr; try discriminate Hu0;
       try (apply H2; assumption);
       try (injection Hu0 as <-); simpl in Hr;
       try discriminate Hr;
       try (apply H2; assumption);
       try congruence;
       try (apply H2; congruence).
  all: try match goal with
           | F : List.find _ _ = Some ?u |- _ =>
               apply List.find_some in F; destruct F as [Hin _]; exfalso; exact (H1 _ Hin Hr)
           | E : admin _ = _ |- _ => rewrite E; apply H2; assumption
           | E : String.eqb (role ?u) "user" = true |- _ =>
               apply String.eqb_eq in E; congruence
           end.
Qed.

(** X27.  Only the administrator's account administers.  When no
    registered account has the role of the administrator, no sequence of
    handlers gives that role to one, and a principal with that role is
    always the [admin] of the document: registering gives the role of a
    user, and a purchase keeps the role of the buyer. *)
Theorem so_o_admin_administra (evs : list Evento) (st : AppState) :
  privilegios_ok st ->
  privilegios_ok (em_sequencia (map executar evs) st).
Proof.
  apply (em_sequencia_invariant privilegios_ok).
  intros h s Hin Hp. apply in_map_iff in Hin. destruct Hin as (ev & <- & _).
  apply executar_privilegios. exact Hp.
Qed.

End PrivilegiosProps.

(** ** The users of the role-gated panel, over any sequence of handlers *)

Section PainelInvariantes.
Import Js Run Planos Admin AdminMais Vistas.

(** What an event can do to the users. *)
Lemma executar_users ev st :
  users (estado (executar ev st)) = users st
  \/ (exists name, users (estado (executar ev st))
                   = List.filter (fun u => negb (String.eqb (username u) name)) (users st))
  \/ (exists novo, users (estado (executar ev st)) = users st ++ [novo]
                   /\ isAdmin novo = false /\ ~ In (username novo) (usernames st)).
Proof.
  destruct ev; simpl executar.
  - left. unfold handleLogin, setCurrentUser. run.
    destruct (List.find _ (users st)); reflexivity.
  - left. destruct confirma; reflexivity.
  - destruct (handleCreateUser_cases f t st) as [[-> _]|[lt ->]]; [left; reflexivity|].
    destruct (criar_usuario_cases (trim (newUsername f)) (newPassword f) lt t st)
      as [[-> _]|[Hn ->]]; [left; reflexivity|].
    right. right. eexists. simpl. split; [reflexivity|]. split; [reflexivity | exact Hn].
  - unfold deleteUser, deleteUser_confirmado, saveUsers. run.
    destruct (ehAdmin st); simpl; [|left; reflexivity].
    destruct confirma; simpl; [right; left; eexists; reflexivity | left; reflexivity].
  - left. unfold handleCreatePlan, criarPlano, savePlans. run.
    repeat match goal with
           | |- context [if ?c then _ else _] => destruct c; simpl
           | |- context [match List.find ?g ?l with _ => _ end] => destruct (List.find g l); simpl
           end; reflexivity.
  - left. unfold deletePlan, savePlans. run.
    destruct (ehAdmin st); simpl; [|reflexivity]. destruct confirma; reflexivity.
Qed.

Lemma sublist_filter_filter {X} (g keep : X -> bool) (l : list X) :
  sublist (List.filter g (List.filter keep l)) (List.filter g l).
Proof.
  induction l as [|x r IH]; simpl; [constructor|].
  destruct (keep x); simpl; destruct (g x); try (constructor; exact IH); exact IH.
Qed.

(** X28.  The panel cannot make an administrator, and user names stay
    distinct.  After any sequence of handlers the administrators among
    the users are administrators that were there before, in their order
    (a created user is never one), and the names of the users are pairwise
    distinct when they were so before. *)
Theorem administradores_nao_aumentam (evs : list Evento) (st : AppState) :
  NoDup (usernames st) ->
  sublist (administradores (em_sequencia (map executar evs) st)) (administradores st)
  /\ NoDup (usernames (em_sequencia (map executar evs) st)).
Proof.
  revert st. induction evs as [|ev r IH]; intros st Hnd; simpl; [split; [reflexivity | exact Hnd]|].
  assert (H : sublist (administradores (estado (executar ev st))) (administradores st)
              /\ NoDup (usernames (estado (executar ev st)))).
  { unfold administradores, usernames.
    destruct (executar_users ev st) as [->|[(name & ->)|(novo & -> & Ha & Hn)]].
    - split; [reflexivity | exact Hnd].
    - split; [apply sublist_filter_filter|].
      eapply sublist_NoDup; [exact Hnd | apply sublist_map, sublist_List_filter].
    - split.
      + rewrite List.filter_app. simpl. rewrite Ha, app_nil_r. reflexivity.
      + rewrite map_app. simpl. apply NoDup_snoc_fresh; assumption. }
  destruct H as [Hs Hnd']. destruct (IH _ Hnd') as [Hs' Hnd''].
  split; [etransitivity; eassumption | exact Hnd''].
Qed.

End PainelInvariantes.

(** ** A new item, and the payment settings *)

Section ItemNovoProps.
Import Js Run Json Loja LojaMais Vistas.

(** The search finds an item that was just added under a new id. *)
Lemma buscarItem_adicionarItem pid novo ps :
  ~ In (item_id novo) (map item_id (itensDoEstoque ps)) ->
  item_disponivel novo = true ->
  In pid (map produtor_id ps) ->
  exists P, In P ps /\ produtor_id P = pid
            /\ buscarItem (adicionarItem pid novo ps) (item_id novo)
               = Some (mkLinha novo (produtor_nome P)).
Proof.
  unfold itensDoEstoque. induction ps as [|p r IH]; simpl; [intros _ _ []|].
  rewrite map_app, in_app_iff. intros Hn Hd Hin.
  assert (Hp : List.find (fun i => String.eqb (item_id i) (item_id novo)) (listaDeItens p) = None).
  { apply find_item_none. tauto. }
  destruct (String.eqb_spec (produtor_id p) pid) as [E|Ne]; simpl.
  - exists p. split; [left; reflexivity|]. split; [exact E|].
    rewrite find_app_none by exact Hp. simpl. rewrite String.eqb_refl, Hd. reflexivity.
  - rewrite Hp. destruct Hin as [E|Hin]; [contradiction|].
    destruct (IH (fun H => Hn (or_intror H)) Hd Hin) as (P & HP & EP & Hb).
    exists P. split; [right; exact HP|]. split; [exact EP | exact Hb].
Qed.

(** X29.  Add an item, then buy it.  When the administrator adds an item
    (non-empty sanitised name and description, a price above zero, an
    existing producer, a clock value that gives a new item id), the stock
    lists it as available, and [adicionarAoCarrinho] of its id then puts
    in the cart a line with exactly the fields of the form and the name of
    a producer of the id chosen. *)
Theorem item_novo_compravel (f : ItemForm) (t : Relogio) (u : Usuario) (st : AppState) :
  usuarioLogado st = Some u ->
  role u = "admin"%string ->
  sanitizar (novoItemNome f) <> ""%string ->
  sanitizar (novoItemDescricao f) <> ""%string ->
  Qle_bool (novoItemPreco f) 0 = false ->
  In (novoItemProductorId f) (map produtor_id (produtores st)) ->
  let id := ("item_" ++ pretty (Date_now t))%string in
  ~ In id (map item_id (itensDoEstoque (produtores st))) ->
  ~ In id (ids_do_carrinho st) ->
  let novo := mkItem id (sanitizar (novoItemNome f)) (sanitizar (novoItemDescricao f))
                     (novoItemPreco f) (novoItemProductorId f) true in
  let st1 := estado (handleNovoItemForm f t st) in
  let st2 := estado (adicionarAoCarrinho id st1) in
  produtores st1 = adicionarItem (novoItemProductorId f) novo (produtores st)
  /\ exists P, In P (produtores st) /\ produtor_id P = novoItemProductorId f
       /\ carrinho st2 = carrinho st ++ [mkLinha novo (produtor_nome P)].
Proof.
  intros Hu Hrole Hn Hd Hp Hin id Hfresh Hcart novo st1 st2.
  assert (Hf : exists q, List.find (fun p => String.eqb (produtor_id p) (novoItemProductorId f))
                                   (produtores st) = Some q).
  { destruct (List.find _ (produtores st)) as [q|] eqn:F; [eauto|]. exfalso.
    apply in_map_iff in Hin. destruct Hin as (q & E & Hq).
    apply (List.find_none _ _ F) in Hq. rewrite E, String.eqb_refl in Hq. discriminate. }
  destruct Hf as (q & Hf).
  assert (E1 : st1 = set_produtores (adicionarItem (novoItemProductorId f) novo (produtores st)) st).
  { unfold st1, handleNovoItemForm, usuarioAtualEhAdmin, salvarDados. run.
    rewrite Hu, Hrole. apply String.eqb_neq in Hn, Hd. simpl. rewrite Hn, Hd, Hp, Hf.
    reflexivity. }
  split; [rewrite E1; reflexivity|].
  destruct (buscarItem_adicionarItem (novoItemProductorId f) novo (produtores st) Hfresh eq_refl Hin)
    as (P & HP & EP & Hb).
  exists P. split; [exact HP|]. split; [exact EP|].
  unfold st2. rewrite (adicionarAoCarrinho_novo st1 u id (mkLinha novo (produtor_nome P))).
  - rewrite E1. reflexivity.
  - rewrite E1. exact Hu.
  - rewrite E1. exact Hb.
  - rewrite E1. simpl. destruct (List.find _ (carrinho st)) as [c|] eqn:F; [|reflexivity].
    exfalso. apply Hcart. apply List.find_some in F. destruct F as [Hc He].
    apply String.eqb_eq in He. unfold ids_do_carrinho. apply in_map_iff. eauto.
Qed.

End ItemNovoProps.

Section ConfigProps.
Import Js Run Json Loja LojaMais Vistas.

Local Opaque validarEmail validarSenha hashSenhaSimples sanitizar validarDadosCompra
  dadosDoFormulario aprovado buscarItem atualizarEstoque calcularTotalCarrinho pretty
  adicionarItem removerItemDe length.

Lemma str_or_nao_vazio a b : b <> ""%string -> str_or a b <> ""%string.
Proof. unfold str_or. destruct (String.eqb_spec a ""); auto. Qed.

Lemma executar_config ev st :
  config_completa (configPagamento st) ->
  config_completa (configPagamento (estado (executar ev st))).
Proof.
  intros (H1 & H2 & H3).
  destruct ev; desdobrar; casos; simpl; try (repeat split; assumption).
  repeat split; simpl.
  - apply String.eqb_neq. assumption.
  - apply str_or_nao_vazio. exact H2.
  - apply str_or_nao_vazio. exact H3.
Qed.

(** X30.  Payment settings that have a provider and both keys keep having
    them under any sequence of handlers: [handleConfigPagamentoForm]
    refuses an empty provider, and a key field left empty keeps the key
    that was there. *)
Theorem config_sempre_completa (evs : list Evento) (st : AppState) :
  config_completa (configPagamento st) ->
  config_completa (configPagamento (em_sequencia (map executar evs) st)).
Proof.
  apply (em_sequencia_invariant (fun s => config_completa (configPagamento s))).
  intros h s Hin Hc. apply in_map_iff in Hin. destruct Hin as (ev & <- & _).
  apply executar_config. exact Hc.
Qed.

End ConfigProps.

(** * Examples

    The properties of the last two parts at concrete states of the shop
    and of the panels. *)

Section ExemplosDaLoja.
Import Js Run Loja LojaMais Vistas Exemplos.

Lemma removerDoCarrinho_idempotent_witness :
  estado (removerDoCarrinho "item_009" dadosPadrao) = dadosPadrao.
Proof.
  destruct (removerDoCarrinho_idempotent "item_009" dadosPadrao) as (_ & _ & _ & _ & H & _).
  apply H. simpl. tauto.
Defined.

Lemma executar_carrinho_NoDup_witness :
  let evs := [EvAdicionar "item_002"; EvAdicionar "item_002"; EvAdicionar "item_003"] in
  NoDup (ids_do_carrinho (em_sequencia (map executar evs) loja_de_ana))
  /\ ids_do_carrinho (em_sequencia (map executar evs) loja_de_ana) = ["item_002"; "item_003"].
Proof.
  intros evs. split; [|reflexivity].
  apply (executar_carrinho_NoDup evs loja_de_ana). simpl. apply NoDup_nil. exact I.
Defined.

Lemma adicionarAoCarrinho_sound_witness :
  adicionarAoCarrinho "item_002" dadosPadrao
  = Fim tt dadosPadrao [Mensagem msg_precisa_login "warning" (Some "carrinhoMsg")].
Proof.
  destruct (adicionarAoCarrinho_sound "item_002" dadosPadrao) as (H & _).
  apply H. reflexivity.
Defined.

Lemma checkout_impede_venda_dupla_witness :
  let st := estado (adicionarAoCarrinho "item_002" loja_de_ana) in
  let st' := estado (handleCheckoutForm formulario (1 # 2) relogio st) in
  ids_do_carrinho st = ["item_002"]
  /\ adicionarAoCarrinho "item_002" st' = Fim tt st' [Mensagem msg_indisponivel "error" None].
Proof.
  intros st st'. split; [reflexivity|].
  pose (P := nth 0 produtoresDemo (mkProdutor "" "" "" [])).
  pose (A := nth 1 (listaDeItens P) (mkItem "" "" "" 0 "" false)).
  destruct (checkout_impede_venda_dupla st ana formulario (1 # 2) relogio) as (_ & _ & H).
  - reflexivity.
  - exact produtoresDemo_ok.
  - intros l Hl. assert (E : carrinho st = [mkLinha A (produtor_nome P)]) by reflexivity.
    rewrite E in Hl. destruct Hl as [<-|[]].
    exists P, A. simpl. auto.
  - reflexivity.
  - reflexivity.
  - apply H. simpl. auto.
Defined.

Lemma visitante_nao_administra_witness :
  let ev := EvRemoverProdutor "produtor_001" true in
  configPagamento (estado (executar ev loja_de_ana)) = configPagamento loja_de_ana
  /\ (produtores (estado (executar ev loja_de_ana)) = produtores loja_de_ana
      \/ produtores (estado (executar ev loja_de_ana))
         = atualizarEstoque (carrinho loja_de_ana) (produtores loja_de_ana)).
Proof.
  intros ev. apply (visitante_nao_administra ev loja_de_ana). reflexivity.
Defined.

Lemma registro_logout_login_witness :
  let f := mkRegistro "Ana Lima" "ana@example.com" "segredo1" "segredo1" in
  let st1 := estado (handleRegistroForm f relogio dadosPadrao) in
  let st2 := estado (handleLogout st1) in
  let st3 := estado (handleLoginForm (mkLogin "ana@example.com" "segredo1") st2) in
  usuarioLogado st2 = None /\ usuarioLogado st3 = usuarioLogado st1.
Proof.
  intros f st1 st2 st3.
  destruct (registro_logout_login f relogio dadosPadrao) as (_ & H1 & H2 & _ & _ & H3 & _).
  - vm_compute. discriminate.
  - reflexivity.
  - reflexivity.
  - reflexivity.
  - vm_compute. intros [H|[H|[]]]; discriminate H.
  - split; [exact H2|]. fold st1 in H1. fold st1 st2 st3 in H3. rewrite H1. exact H3.
Defined.

Lemma validarEmail_forma_witness :
  forma_de_email "ana@example.com"
  /\ filter_chars (is_char "@") "ana@example.com" = "@"%string.
Proof.
  destruct (validarEmail_forma "ana@example.com") as [[H _] H'].
  split; [apply H; reflexivity | apply H'; reflexivity].
Defined.

Lemma sanitizar_seguro_witness : sanitizar "Rua A, 1" = "Rua A, 1".
Proof.
  destruct (sanitizar_seguro "Rua A, 1") as (_ & _ & _ & H & _). apply H. reflexivity.
Defined.

Lemma validarEmail_sanitizar_witness :
  validarEmail (sanitizar "a&b@example.com") = true
  /\ validarEmail (ch 160 ++ "a&b@example.com")%string = false
  /\ validarEmail (sanitizar (ch 160 ++ "a&b@example.com")%string) = true.
Proof. apply (validarEmail_sanitizar "a&b@example.com"). reflexivity. Defined.

Lemma checkout_carrinho_vazio_witness :
  let st' := estado (handleCheckoutForm formulario (1 # 2) relogio loja_de_ana) in
  abrirCheckout loja_de_ana = Fim tt loja_de_ana [Mensagem "Carrinho vazio" "warning" None]
  /\ pedidos st'
     = pedidos loja_de_ana ++ [pedidoDe ana (dadosDoFormulario formulario) relogio [] 0]
  /\ produtores st' = produtores loja_de_ana
  /\ carrinho st' = [].
Proof.
  apply (checkout_carrinho_vazio loja_de_ana ana formulario (1 # 2) relogio); reflexivity.
Defined.

Lemma temporizador_sem_sessao_witness :
  let st := estado (handleLogout loja_de_ana) in
  pagamento_temporizado formulario (1 # 2) relogio st
  = Lancou TypeError st [Console "Integrando com Stripe..."].
Proof.
  intros st. apply (temporizador_sem_sessao formulario (1 # 2) relogio st). reflexivity.
Defined.

Lemma compra_de_produtor_removido_witness :
  let st := estado (adicionarAoCarrinho "item_001" loja_do_admin) in
  let st1 := estado (removerProdutor "produtor_001" true st) in
  let st2 := estado (handleCheckoutForm formulario (1 # 2) relogio st1) in
  map produtor_id (produtores st1) = ["produtor_002"; "produtor_003"]
  /\ produtores st2 = produtores st1
  /\ map (fun p => ids_do_carrinho (set_carrinho (pedido_itens p) st)) (pedidos st2)
     = [["item_001"]].
Proof.
  intros st st1 st2. split; [reflexivity|].
  destruct (compra_de_produtor_removido st adminPadrao "produtor_001" formulario (1 # 2) relogio)
    as (_ & _ & H & H').
  - reflexivity.
  - reflexivity.
  - intros l Hl. vm_compute in Hl. destruct Hl as [<-|[]]. reflexivity.
  - reflexivity.
  - reflexivity.
  - split; [exact H|]. fold st1 st2 in H'. rewrite H'. reflexivity.
Defined.

Lemma pedidos_coerentes_witness :
  let evs := [EvAdicionar "item_002"; EvCheckout formulario (1 # 2) relogio] in
  Forall pedido_coerente (pedidos (em_sequencia (map executar evs) loja_de_ana)).
Proof.
  intros evs. apply (pedidos_coerentes evs loja_de_ana). apply Forall_nil. exact I.
Defined.

Lemma emails_de_produtores_unicos_witness :
  let evs := [EvNovoProdutor (mkProdutorForm "Horta Nova" "cafe@artesanal.com") relogio;
              EvNovoProdutor (mkProdutorForm "Horta Nova" "horta@example.com") relogio] in
  NoDup (map produtor_email (produtores (em_sequencia (map executar evs) loja_do_admin))).
Proof.
  intros evs. apply (emails_de_produtores_unicos evs loja_do_admin).
  apply (bool_decide_unpack _). vm_compute. exact I.
Defined.

Lemma so_o_admin_administra_witness :
  let evs := [EvRegistro (mkRegistro "Ana Lima" "admin@loja.com" "segredo1" "segredo1") relogio;
              EvNovoProdutor (mkProdutorForm "Horta Nova" "horta@example.com") relogio] in
  privilegios_ok (em_sequencia (map executar evs) dadosPadrao).
Proof.
  intros evs. apply (so_o_admin_administra evs dadosPadrao). split.
  - intros u Hu. simpl in Hu. destruct Hu as [<-|[<-|[]]]; simpl; discriminate.
  - intros u Hu. simpl in Hu. discriminate Hu.
Defined.

Lemma item_novo_compravel_witness :
  let f := mkItemForm "produtor_002" "Manteiga" "Manteiga artesanal, 200g" 18 in
  let st1 := estado (handleNovoItemForm f relogio loja_do_admin) in
  let st2 := estado (adicionarAoCarrinho ("item_" ++ pretty (Date_now relogio))%string st1) in
  map (fun l => (item_id (linha_item l), item_preco (linha_item l))) (carrinho st2)
  = [("item_1700000000000"%string, 18%Q)].
Proof.
  intros f st1 st2.
  destruct (item_novo_compravel f relogio adminPadrao loja_do_admin) as (_ & P & _ & _ & H).
  - reflexivity.
  - reflexivity.
  - vm_compute. discriminate.
  - vm_compute. discriminate.
  - reflexivity.
  - simpl. auto.
  - vm_compute. intros [H|[H|[H|[H|[H|[]]]]]]; discriminate H.
  - simpl. tauto.
  - unfold st2, st1. rewrite H. vm_compute. reflexivity.
Defined.

Lemma config_sempre_completa_witness :
  let evs := [EvConfigPagamento (mkConfigForm "mercadopago" "" "APP_USR_1")] in
  config_completa (configPagamento (em_sequencia (map executar evs) loja_do_admin))
  /\ configPagamento (em_sequencia (map executar evs) loja_do_admin)
     = mkConfig "mercadopago" "pk_demo_12345" "APP_USR_1".
Proof.
  intros evs. split; [|reflexivity].
  apply (config_sempre_completa evs loja_do_admin). repeat split; discriminate.
Defined.

End ExemplosDaLoja.

Section ExemplosDoPainel.
Import Js Run Planos Admin AdminMais Vistas Exemplos.

Lemma handleLogin_sound_witness :
  let f := mkLogin " maria " "segredo" in
  (exists u, In u (users (painel None)) /\ credenciais f u /\ isAdmin u = true
     /\ AdminAnteriorMais.handleLogin f (painel None)
        = Fim tt (set_currentUser (Some u) (painel None)) [SessionSet "currentUser" (VUser u)])
  \/ AdminAnteriorMais.handleLogin f (painel None)
     = Fim tt (painel None) [Texto "loginError" msg_login_incorreto].
Proof. intros f. exact (proj2 (handleLogin_sound f (painel None))). Defined.

Lemma sem_admin_nada_muda_witness :
  deleteUser "admin" true (painel (Some maria))
  = Fim tt (painel (Some maria)) [Alert msg_so_admin_deleta_usuario]
  /\ handleCreatePlan (mkPlanForm "Anual" (Some 12) "months" "") relogio_do_painel
                      (painel (Some maria))
     = Fim tt (painel (Some maria)) [Texto "planMsg" msg_so_admin_planos].
Proof.
  apply (sem_admin_nada_muda (painel (Some maria)) (mkForm "x" "y" "custom" None)).
  reflexivity.
Defined.

Lemma deleteUser_remove_witness :
  users (estado (deleteUser "maria" true (painel (Some administrador)))) = [administrador]
  /\ NoDup (usernames (estado (deleteUser "maria" true (painel (Some administrador))))).
Proof.
  split; [reflexivity|].
  destruct (deleteUser_remove "maria" (painel (Some administrador))) as (_ & _ & _ & H & _).
  - reflexivity.
  - apply H. apply (bool_decide_unpack _). vm_compute. exact I.
Defined.

Lemma criar_e_deletar_witness :
  let f := mkForm " joana " "segredo" "custom" (Some 45) in
  let st := painel (Some administrador) in
  let st1 := estado (handleCreateUser f relogio_do_painel st) in
  usernames st1 = ["admin"; "maria"; "joana"]
  /\ estado (deleteUser "joana" true st1) = st.
Proof.
  intros f st st1. split; [reflexivity|].
  destruct (criar_e_deletar f relogio_do_painel st 45) as (_ & _ & H & _).
  - reflexivity.
  - reflexivity.
  - vm_compute. discriminate.
  - vm_compute. discriminate.
  - vm_compute. intros [H|[H|[]]]; discriminate H.
  - exact H.
Defined.

Lemma deleteUser_proprio_witness :
  let st := painel (Some administrador) in
  let st1 := estado (deleteUser "admin" true st) in
  let st2 := estado (handleLogout true st1) in
  ehAdmin st1 = true
  /\ handleLogin (mkLogin "admin" "admin123") st2
     = Fim tt st2 [Texto "loginError" msg_login_incorreto].
Proof.
  intros st st1 st2.
  destruct (deleteUser_proprio administrador st) as (_ & H1 & _ & H2).
  - reflexivity.
  - reflexivity.
  - split; [exact H1|]. apply H2. reflexivity.
Defined.

Lemma plano_criado_selecionavel_witness :
  let pf := mkPlanForm " Quinzenal " (Some 2) "weeks" "" in
  let st := painel (Some administrador) in
  let st1 := estado (handleCreatePlan pf relogio_do_painel st) in
  In "1700000000000" (populatePlanSelect st1)
  /\ handleCreateUser_loginTime (mkForm "joana" "segredo" "1700000000000" None) st1
     = inr 20160.
Proof.
  intros pf st st1.
  destruct (plano_criado_selecionavel pf relogio_do_painel st) as (_ & _ & H & _).
  - reflexivity.
  - vm_compute. discriminate.
  - reflexivity.
  - simpl. lia.
  - split; [exact H | reflexivity].
Defined.

Lemma editar_plano_witness :
  let pf := mkPlanForm "Quinzenal" (Some 2) "weeks" "2" in
  let r := handleCreatePlan pf relogio_do_painel (painel (Some administrador)) in
  map plan_id (plans (estado r)) = [1; 2; 3; 4]
  /\ map plan_name (plans (estado r))
     = [("Padr" ++ ch 227 ++ "o 30 minutos")%string; "Quinzenal"; "Semanal"; "Mensal"].
Proof.
  intros pf r. split; [|reflexivity].
  destruct (editar_plano pf relogio_do_painel (painel (Some administrador))) as (H & _).
  - reflexivity.
  - vm_compute. discriminate.
  - vm_compute. discriminate.
  - exact H.
Defined.

Lemma administradores_nao_aumentam_witness :
  let evs := [EvCriarUsuario (mkForm "joana" "segredo" "custom" (Some 45)) relogio_do_painel;
              EvDeletarUsuario "maria" true;
              EvLogout true;
              EvLogin (mkLogin "joana" "segredo");
              EvCriarUsuario (mkForm "root" "segredo" "custom" (Some 45)) relogio_do_painel] in
  let fim := em_sequencia (map executar evs) (painel (Some administrador)) in
  sublist (administradores fim) (administradores (painel (Some administrador)))
  /\ NoDup (usernames fim).
Proof.
  intros evs fim.
  apply (administradores_nao_aumentam evs (painel (Some administrador))).
  apply (bool_decide_unpack _). vm_compute. exact I.
Defined.

End ExemplosDoPainel.
